(** * VMAP scalar codecs: Duration and TimeOffset

    A shallow embedding of [vmap/structure.go]: the two text codecs
    [Duration.UnmarshalText] / [Duration.MarshalText] and
    [TimeOffset.UnmarshalText] / [TimeOffset.MarshalText], together with
    the parts of the Go standard library they call ([strings], [strconv],
    [fmt], [time]).

    Conventions:
    - a Go [string] / [[]byte] is a Rocq [string] (a list of 8-bit bytes);
    - [int], [int64] and [uint64] are [Z] with the wrap-around written out;
    - [float32] and [float64] are [spec_float] with the IEEE 754 operations
      of the standard library ([prec = 24, emax = 128] and
      [prec = 53, emax = 1024]);
    - a Go [error] is a value of the inductive [error], rendered by [Error];
    - a method with a pointer receiver returns the new receiver state
      together with its [error] result. *)

From Stdlib Require Import ZArith Lia Bool List String Ascii.
From Stdlib Require Import Floats.SpecFloat.
Import ListNotations.

Local Open Scope string_scope.
Local Open Scope Z_scope.

(** ** Bytes *)

Definition byte_val (c : ascii) : Z := Z.of_N (N_of_ascii c).
Definition byte_of (z : Z) : ascii := ascii_of_N (Z.to_N z).

Definition is_digit (c : ascii) : bool :=
  (48 <=? byte_val c) && (byte_val c <=? 57).

Definition digit_val (c : ascii) : Z := byte_val c - 48.
Definition digit_char (d : Z) : ascii := byte_of (48 + d).

Definition dquote : string := String (byte_of 34) "".
Definition backslash : ascii := byte_of 92.

Definition uint64_mod : Z := 2 ^ 64.
Definition wrap_uint64 (z : Z) : Z := z mod uint64_mod.
Definition wrap_int64 (z : Z) : Z := (z + 2 ^ 63) mod uint64_mod - 2 ^ 63.

(** ** Go errors *)

Inductive numErr := ErrSyntax | ErrRange.

(** [errorString] is what [errors.New] and a [fmt.Errorf] without [%w]
    build; [wrapError prefix err] is [fmt.Errorf(prefix + "%w", err)];
    [NumError] is [*strconv.NumError]. *)
Inductive error :=
| errorString (msg : string)
| wrapError (prefix : string) (err : error)
| NumError (Func Num : string) (Err : numErr).

(** ** Floating point: binary32 and binary64 *)

Module f64.
Definition prec : Z := 53.
Definition emax : Z := 1024.
Definition of_Z (z : Z) : spec_float := binary_normalize prec emax z 0 false.
Definition add : spec_float -> spec_float -> spec_float := SFadd prec emax.
Definition mul : spec_float -> spec_float -> spec_float := SFmul prec emax.
Definition div : spec_float -> spec_float -> spec_float := SFdiv prec emax.
End f64.

Module f32.
Definition prec : Z := 24.
Definition emax : Z := 128.
Definition of_Z (z : Z) : spec_float := binary_normalize prec emax z 0 false.
Definition mul : spec_float -> spec_float -> spec_float := SFmul prec emax.
Definition div : spec_float -> spec_float -> spec_float := SFdiv prec emax.
End f32.

(** The integer part of a float, rounded toward zero; [None] for NaN and
    the infinities. *)
Definition float_trunc (x : spec_float) : option Z :=
  match x with
  | S754_zero _ => Some 0
  | S754_finite s m e =>
      Some (cond_Zopp s (if 0 <=? e then Z.pos m * 2 ^ e
                         else Z.pos m / 2 ^ (- e)))
  | _ => None
  end.

(** The conversions [int(f)] and [uint64(f)].  Go leaves the result
    open when the value does not fit; the value taken here is the one
    of the amd64 conversion instruction. *)
Definition float_to_int (x : spec_float) : Z :=
  match float_trunc x with
  | Some z => if (- 2 ^ 63 <=? z) && (z <? 2 ^ 63) then z else - 2 ^ 63
  | None => - 2 ^ 63
  end.

Definition float_to_uint64 (x : spec_float) : Z :=
  match float_trunc x with
  | Some z => if (0 <=? z) && (z <? 2 ^ 64) then z else 2 ^ 63
  | None => 2 ^ 63
  end.

(** [x != 0] on floats: false for both zeros, true for NaN. *)
Definition float_nonzero (x : spec_float) : bool :=
  negb (SFeqb x (S754_zero false)).

(** ** package strings *)

Module strings.

Definition HasPrefix (s pre : string) : bool :=
  (String.length pre <=? String.length s)%nat &&
  String.eqb (substring 0 (String.length pre) s) pre.

Definition HasSuffix (s suf : string) : bool :=
  (String.length suf <=? String.length s)%nat &&
  String.eqb (substring (String.length s - String.length suf)
                        (String.length suf) s) suf.

Definition TrimPrefix (s pre : string) : string :=
  if HasPrefix s pre
  then substring (String.length pre) (String.length s - String.length pre) s
  else s.

Definition TrimSuffix (s suf : string) : string :=
  if HasSuffix s suf
  then substring 0 (String.length s - String.length suf) s
  else s.

End strings.

(** ** package fmt: the integer verbs used by the codecs *)

Module fmt.

(** Decimal digits of a non-negative integer, most significant first. *)
Fixpoint utoa_fuel (fuel : nat) (n : Z) : string :=
  match fuel with
  | O => ""
  | S f =>
      if n <? 10 then String (digit_char n) ""
      else utoa_fuel f (n / 10) ++ String (digit_char (n mod 10)) ""
  end.

Definition utoa (n : Z) : string := utoa_fuel (S (Z.to_nat (Z.log2 n))) n.

Fixpoint zeros (k : nat) : string :=
  match k with O => "" | S k' => String "0" (zeros k') end.

Definition pad_zeros (w : nat) (s : string) : string :=
  zeros (w - String.length s) ++ s.

(** [%d]. *)
Definition verb_d (n : Z) : string :=
  if n <? 0 then "-" ++ utoa (- n) else utoa n.

(** [%0wd]: the zero flag pads the digits up to the width, one place of
    which is taken by the sign of a negative number. *)
Definition verb_0d (w : nat) (n : Z) : string :=
  if n <? 0 then "-" ++ pad_zeros (w - 1) (utoa (- n))
  else pad_zeros w (utoa n).

(** [%f]: six digits after the point, the exact binary value rounded
    to nearest with ties to even. *)
Definition round_half_even (num den : Z) : Z :=
  let q := num / den in
  match 2 * (num mod den) ?= den with
  | Lt => q
  | Gt => q + 1
  | Eq => if Z.even q then q else q + 1
  end.

Definition fixed6 (neg : bool) (num den : Z) : string :=
  let n := round_half_even (num * 10 ^ 6) den in
  (if neg then "-" else "") ++ utoa (n / 10 ^ 6) ++ "."
    ++ pad_zeros 6 (utoa (n mod 10 ^ 6)).

Definition verb_f (x : spec_float) : string :=
  match x with
  | S754_nan => "NaN"
  | S754_infinity false => "+Inf"
  | S754_infinity true => "-Inf"
  | S754_zero s => fixed6 s 0 1
  | S754_finite s m e =>
      if 0 <=? e then fixed6 s (Z.pos m * 2 ^ e) 1
      else fixed6 s (Z.pos m) (2 ^ (- e))
  end.

End fmt.

(** ** package unicode/utf8 *)

Module utf8.

Definition RuneError : Z := 65533.
Definition RuneSelf : Z := 128.

Definition ValidRune (r : Z) : bool :=
  ((0 <=? r) && (r <? 55296)) || ((57343 <? r) && (r <=? 1114111)).

(** Number of bytes announced by a leading byte and the range accepted
    for the second byte (the tables [first] and [acceptRanges]);
    [None] for a byte that starts no encoding. *)
Definition first (b0 : Z) : option (nat * (Z * Z)) :=
  if (194 <=? b0) && (b0 <=? 223) then Some (2%nat, (128, 191))
  else if b0 =? 224 then Some (3%nat, (160, 191))
  else if (225 <=? b0) && (b0 <=? 236) then Some (3%nat, (128, 191))
  else if b0 =? 237 then Some (3%nat, (128, 159))
  else if (238 <=? b0) && (b0 <=? 239) then Some (3%nat, (128, 191))
  else if b0 =? 240 then Some (4%nat, (144, 191))
  else if (241 <=? b0) && (b0 <=? 243) then Some (4%nat, (128, 191))
  else if b0 =? 244 then Some (4%nat, (128, 143))
  else None.

Definition cont (b : Z) : bool := (128 <=? b) && (b <=? 191).

(** [DecodeRuneInString]: the first rune of [s] and its width in bytes. *)
Definition DecodeRuneInString (s : string) : Z * nat :=
  match s with
  | "" => (RuneError, 0%nat)
  | String c0 s1 =>
      let b0 := byte_val c0 in
      if b0 <? RuneSelf then (b0, 1%nat)
      else
        match first b0 with
        | None => (RuneError, 1%nat)
        | Some (sz, (lo, hi)) =>
            if (String.length s <? sz)%nat then (RuneError, 1%nat)
            else
              match s1 with
              | "" => (RuneError, 1%nat)
              | String c1 s2 =>
                  let b1 := byte_val c1 in
                  if (b1 <? lo) || (hi <? b1) then (RuneError, 1%nat)
                  else if (sz <=? 2)%nat
                  then (Z.lor (Z.shiftl (Z.land b0 31) 6) (Z.land b1 63), 2%nat)
                  else
                    match s2 with
                    | "" => (RuneError, 1%nat)
                    | String c2 s3 =>
                        let b2 := byte_val c2 in
                        if negb (cont b2) then (RuneError, 1%nat)
                        else if (sz <=? 3)%nat
                        then (Z.lor (Z.shiftl (Z.land b0 15) 12)
                                (Z.lor (Z.shiftl (Z.land b1 63) 6)
                                       (Z.land b2 63)), 3%nat)
                        else
                          match s3 with
                          | "" => (RuneError, 1%nat)
                          | String c3 _ =>
                              let b3 := byte_val c3 in
                              if negb (cont b3) then (RuneError, 1%nat)
                              else (Z.lor (Z.shiftl (Z.land b0 7) 18)
                                      (Z.lor (Z.shiftl (Z.land b1 63) 12)
                                         (Z.lor (Z.shiftl (Z.land b2 63) 6)
                                                (Z.land b3 63))), 4%nat)
                          end
                    end
              end
        end
  end.

End utf8.

(** ** package strconv *)

Module strconv.

Definition lowerhex (n : Z) : ascii :=
  if n <? 10 then byte_of (48 + n) else byte_of (87 + n).

Definition hex2 (b : Z) : string :=
  String (lowerhex (Z.shiftr b 4)) (String (lowerhex (Z.land b 15)) "").

Fixpoint hexN (k : nat) (r : Z) : string :=
  match k with
  | O => ""
  | S k' => String (lowerhex (Z.land (Z.shiftr r (4 * Z.of_nat k')) 15))
                   (hexN k' r)
  end.

Section Quote.

(** [unicode.IsPrint] decides runes above Latin-1 by tables that are
    data of the Go distribution; they are a parameter here. *)
Variable isPrintTable : Z -> bool.

Definition IsPrint (r : Z) : bool :=
  if r <=? 255 then
    if (32 <=? r) && (r <=? 126) then true
    else if (161 <=? r) && (r <=? 255) then negb (r =? 173)
    else false
  else isPrintTable r.

(** [appendEscapedRune] quoting with the double quote, neither [ASCIIonly] nor
    [graphicOnly]; [enc] is the UTF-8 encoding of [r]. *)
Definition appendEscapedRune (r : Z) (enc : string) : string :=
  if (r =? 34) || (r =? 92) then String backslash (String (byte_of r) "")
  else if IsPrint r then enc
  else if r =? 7 then String backslash "a"
  else if r =? 8 then String backslash "b"
  else if r =? 12 then String backslash "f"
  else if r =? 10 then String backslash "n"
  else if r =? 13 then String backslash "r"
  else if r =? 9 then String backslash "t"
  else if r =? 11 then String backslash "v"
  else if (r <? 32) || (r =? 127) then String backslash ("x" ++ hex2 r)
  else if negb (utf8.ValidRune r)
  then String backslash ("u" ++ hexN 4 utf8.RuneError)
  else if r <? 65536 then String backslash ("u" ++ hexN 4 r)
  else String backslash ("U" ++ hexN 8 r).

(** The loop of [appendQuotedWith]; [skip] counts the bytes of the
    current rune that are still to be stepped over. *)
Fixpoint quote_loop (s : string) (skip : nat) : string :=
  match s with
  | "" => ""
  | String c s' =>
      match skip with
      | S k => quote_loop s' k
      | O =>
          let '(r, width) := utf8.DecodeRuneInString s in
          if (width =? 1)%nat && (r =? utf8.RuneError)
          then String backslash ("x" ++ hex2 (byte_val c)) ++ quote_loop s' 0
          else appendEscapedRune r (substring 0 width s)
               ++ quote_loop s' (width - 1)
      end
  end.

Definition Quote (s : string) : string :=
  dquote ++ quote_loop s 0 ++ dquote.

End Quote.

Definition syntaxError (fn str : string) : error := NumError fn str ErrSyntax.
Definition rangeError (fn str : string) : error := NumError fn str ErrRange.

Definition maxUint64 : Z := 2 ^ 64 - 1.

(** The digit loop of [ParseUint] for [base = 10]: every byte that is
    not a decimal digit is a syntax error. *)
Fixpoint ParseUint_loop (s0 : string) (maxVal : Z) (s : string) (n : Z)
  : Z * option error :=
  match s with
  | "" => (n, None)
  | String c s' =>
      if is_digit c then
        let d := digit_val c in
        if maxUint64 / 10 + 1 <=? n
        then (maxVal, Some (rangeError "ParseUint" s0))
        else
          let n := wrap_uint64 (n * 10) in
          let n1 := wrap_uint64 (n + d) in
          if (n1 <? n) || (maxVal <? n1)
          then (maxVal, Some (rangeError "ParseUint" s0))
          else ParseUint_loop s0 maxVal s' n1
      else (0, Some (syntaxError "ParseUint" s0))
  end.

(** [ParseUint(s, 10, bitSize)] for [1 <= bitSize <= 64]. *)
Definition ParseUint10 (s : string) (bitSize : Z) : Z * option error :=
  match s with
  | "" => (0, Some (syntaxError "ParseUint" s))
  | _ => ParseUint_loop s (2 ^ bitSize - 1) s 0
  end.

(** [ParseInt(s, 10, bitSize)] for [1 <= bitSize <= 64]. *)
Definition ParseInt10 (s : string) (bitSize : Z) : Z * option error :=
  match s with
  | "" => (0, Some (syntaxError "ParseInt" s))
  | String c rest =>
      let s0 := s in
      let '(neg, s) :=
        if Ascii.eqb c "+" then (false, rest)
        else if Ascii.eqb c "-" then (true, rest)
        else (false, s) in
      let '(un, err) := ParseUint10 s bitSize in
      match err with
      | Some (NumError _ _ ErrSyntax) => (0, Some (syntaxError "ParseInt" s0))
      | _ =>
          let cutoff := 2 ^ (bitSize - 1) in
          if negb neg && (cutoff <=? un)
          then (cutoff - 1, Some (rangeError "ParseInt" s0))
          else if neg && (cutoff <? un)
          then (- cutoff, Some (rangeError "ParseInt" s0))
          else (if neg then wrap_int64 (- wrap_int64 un) else wrap_int64 un,
                None)
      end
  end.

End strconv.

(** ** package time *)

Module time.

Definition Nanosecond : Z := 1.
Definition Microsecond : Z := 1000 * Nanosecond.
Definition Millisecond : Z := 1000 * Microsecond.
Definition Second : Z := 1000 * Millisecond.
Definition Minute : Z := 60 * Second.
Definition Hour : Z := 60 * Minute.

(** [Duration] is an [int64] count of nanoseconds. *)
Definition Duration : Type := Z.

Definition Hours (d : Duration) : spec_float :=
  let hour := Z.quot d Hour in
  let nsec := Z.rem d Hour in
  f64.add (f64.of_Z hour) (f64.div (f64.of_Z nsec) (f64.of_Z (60 * 60 * 10 ^ 9))).

Definition Minutes (d : Duration) : spec_float :=
  let min := Z.quot d Minute in
  let nsec := Z.rem d Minute in
  f64.add (f64.of_Z min) (f64.div (f64.of_Z nsec) (f64.of_Z (60 * 10 ^ 9))).

Definition Seconds (d : Duration) : spec_float :=
  let sec := Z.quot d Second in
  let nsec := Z.rem d Second in
  f64.add (f64.of_Z sec) (f64.div (f64.of_Z nsec) (f64.of_Z (10 ^ 9))).

Definition Milliseconds (d : Duration) : Z := Z.quot d (10 ^ 6).

(** [quote] escapes rune by rune, and writes every byte of a rune that
    is not ASCII as [\xNN]: it acts on each byte by itself. *)
Definition quote_byte (c : ascii) : string :=
  let b := byte_val c in
  if (128 <=? b) || (b <? 32)
  then String backslash ("x" ++ strconv.hex2 b)
  else if (b =? 34) || (b =? 92) then String backslash (String c "")
  else String c "".

Fixpoint quote_bytes (s : string) : string :=
  match s with
  | "" => ""
  | String c s' => quote_byte c ++ quote_bytes s'
  end.

Definition quote (s : string) : string := dquote ++ quote_bytes s ++ dquote.

(** [leadingInt]: the leading run of digits as a [uint64]; [None] is
    [errBad], the run does not fit. *)
Fixpoint leadingInt_loop (s : string) (x : Z) : option (Z * string) :=
  match s with
  | "" => Some (x, s)
  | String c s' =>
      if negb (is_digit c) then Some (x, s)
      else if 2 ^ 63 / 10 <? x then None
      else
        let x := wrap_uint64 (x * 10 + byte_val c - 48) in
        if 2 ^ 63 <? x then None else leadingInt_loop s' x
  end.

Definition leadingInt (s : string) : option (Z * string) := leadingInt_loop s 0.

(** [leadingFraction]: digits after the point, cut off once they no
    longer fit, and the power of ten that scales them. *)
Fixpoint leadingFraction_loop (s : string) (x : Z) (scale : spec_float)
         (overflow : bool) : Z * spec_float * string :=
  match s with
  | "" => (x, scale, s)
  | String c s' =>
      if negb (is_digit c) then (x, scale, s)
      else if overflow then leadingFraction_loop s' x scale overflow
      else if (2 ^ 63 - 1) / 10 <? x
      then leadingFraction_loop s' x scale true
      else
        let y := wrap_uint64 (x * 10 + byte_val c - 48) in
        if 2 ^ 63 <? y then leadingFraction_loop s' x scale true
        else leadingFraction_loop s' y (f64.mul scale (f64.of_Z 10)) overflow
  end.

Definition leadingFraction (s : string) : Z * spec_float * string :=
  leadingFraction_loop s 0 (f64.of_Z 1) false.

Definition micro_sign : string := String (byte_of 194) (String (byte_of 181) "").
Definition greek_mu : string := String (byte_of 206) (String (byte_of 188) "").

Definition unitMap (u : string) : option Z :=
  if String.eqb u "ns" then Some Nanosecond
  else if String.eqb u "us" then Some Microsecond
  else if String.eqb u (micro_sign ++ "s") then Some Microsecond
  else if String.eqb u (greek_mu ++ "s") then Some Microsecond
  else if String.eqb u "ms" then Some Millisecond
  else if String.eqb u "s" then Some Second
  else if String.eqb u "m" then Some Minute
  else if String.eqb u "h" then Some Hour
  else None.

Definition is_dot (c : ascii) : bool := byte_val c =? 46.

(** The unit: the bytes up to the next [.] or digit. *)
Fixpoint span_unit (s : string) : string * string :=
  match s with
  | "" => ("", "")
  | String c s' =>
      if is_dot c || is_digit c then ("", s)
      else let '(u, rest) := span_unit s' in (String c u, rest)
  end.

Definition invalid (orig : string) : error :=
  errorString ("time: invalid duration " ++ quote orig).

(** One round of the loop [for s != ""] of [ParseDuration], for a
    text [s] that is not empty: a number, an optional fraction and a
    unit are consumed, and [continue] stands for the rounds on what is
    left. *)
Definition ParseDuration_round (continue : string -> Z -> option (error + Z))
           (orig s : string) (d : Z) : option (error + Z) :=
  match s with
  | "" => Some (inr d)
  | String c0 _ =>
      if negb (is_dot c0 || is_digit c0) then Some (inl (invalid orig))
      else
        let pl := String.length s in
        match leadingInt s with
        | None => Some (inl (invalid orig))
        | Some (v, s) =>
            let pre := negb (pl =? String.length s)%nat in
            let '(f, scale, post, s) :=
              match s with
              | String c s1 =>
                  if is_dot c then
                    let pl := String.length s1 in
                    let '(f, scale, s2) := leadingFraction s1 in
                    (f, scale, negb (pl =? String.length s2)%nat, s2)
                  else (0, f64.of_Z 1, false, s)
              | "" => (0, f64.of_Z 1, false, s)
              end in
            if negb pre && negb post then Some (inl (invalid orig))
            else
              let '(u, s) := span_unit s in
              match u with
              | "" => Some (inl (errorString
                        ("time: missing unit in duration " ++ quote orig)))
              | _ =>
                  match unitMap u with
                  | None => Some (inl (errorString
                        ("time: unknown unit " ++ quote u
                           ++ " in duration " ++ quote orig)))
                  | Some unit =>
                      if 2 ^ 63 / unit <? v then Some (inl (invalid orig))
                      else
                        let v := wrap_uint64 (v * unit) in
                        let step (v : Z) :=
                          let d := wrap_uint64 (d + v) in
                          if 2 ^ 63 <? d then Some (inl (invalid orig))
                          else continue s d in
                        if 0 <? f then
                          let v := wrap_uint64 (v + float_to_uint64
                                     (f64.mul (f64.of_Z f)
                                        (f64.div (f64.of_Z unit) scale))) in
                          if 2 ^ 63 <? v then Some (inl (invalid orig))
                          else step v
                        else step v
                  end
              end
        end
  end.

(** The loop.  Every round consumes at least the unit, so
    [String.length s] rounds are enough; [None] is returned only if
    the fuel runs out. *)
Fixpoint ParseDuration_loop (fuel : nat) (orig s : string) (d : Z)
  : option (error + Z) :=
  match s with
  | "" => Some (inr d)
  | _ =>
      match fuel with
      | O => None
      | S fuel' => ParseDuration_round (ParseDuration_loop fuel' orig) orig s d
      end
  end.

Definition ParseDuration (s : string) : Duration * option error :=
  let orig := s in
  let '(neg, s) :=
    match s with
    | String c s' =>
        if (byte_val c =? 45) || (byte_val c =? 43)
        then (byte_val c =? 45, s')
        else (false, s)
    | "" => (false, s)
    end in
  if String.eqb s "0" then (0, None)
  else if String.eqb s "" then (0, Some (invalid orig))
  else
    match ParseDuration_loop (String.length s) orig s 0 with
    | Some (inl e) => (0, Some e)
    | Some (inr d) =>
        if neg then (wrap_int64 (- wrap_int64 d), None)
        else if 2 ^ 63 - 1 <? d then (0, Some (invalid orig))
        else (d, None)
    | None => (0, Some (invalid orig))
    end.

End time.

(** ** The [Error] method of the error values *)

Section ErrorText.

Variable isPrintTable : Z -> bool.

Definition numErr_text (k : numErr) : string :=
  match k with
  | ErrSyntax => "invalid syntax"
  | ErrRange => "value out of range"
  end.

Fixpoint Error (e : error) : string :=
  match e with
  | errorString msg => msg
  | wrapError prefix err => prefix ++ Error err
  | NumError Func Num Err =>
      "strconv." ++ Func ++ ": parsing " ++ strconv.Quote isPrintTable Num
        ++ ": " ++ numErr_text Err
  end.

End ErrorText.

(** ** package vmap: structure.go *)

Module vmap.

(** [type Duration struct{ time.Duration }] *)
Record Duration := mkDuration { Dur : time.Duration }.

Definition formatStrings : list string := ["h"; "m"; "s"; "ms"].

(** The byte loop of [Duration.UnmarshalText]: [rest] is [data[i:]],
    [sb] the buffer, [currentPart] the unit reached so far.  [inl] is
    the early return on a fourth separator. *)
Fixpoint scan (data rest sb : string) (currentPart : nat)
  : error + (string * nat) :=
  match rest with
  | "" => inr (sb, currentPart)
  | String b rest' =>
      if (byte_val b =? 58) || (byte_val b =? 46) then
        if (currentPart =? 3)%nat
        then inl (errorString ("invalid duration format: " ++ data))
        else scan data rest' (sb ++ nth currentPart formatStrings "")
                  (S currentPart)
      else if is_digit b then scan data rest' (sb ++ String b "") currentPart
      else scan data rest' sb currentPart
  end.

(** [func (d *Duration) UnmarshalText(data []byte) error]: the receiver
    after the call and the error. *)
Definition Duration_UnmarshalText (d : Duration) (data : string)
  : Duration * option error :=
  match scan data data "" 0 with
  | inl e => (d, Some e)
  | inr (sb, currentPart) =>
      let sb := sb ++ nth currentPart formatStrings "" in
      if (currentPart <? 2)%nat
      then (d, Some (errorString ("invalid duration format: " ++ data)))
      else
        match time.ParseDuration sb with
        | (_, Some err) => (d, Some (wrapError "error parsing duration: " err))
        | (dur, None) => (mkDuration dur, None)
        end
  end.

(** [func (d Duration) MarshalText() ([]byte, error)] *)
Definition Duration_MarshalText (d : Duration) : string * option error :=
  if Dur d =? 0 then ("00:00:00", None)
  else
    let hours := float_to_int (time.Hours (Dur d)) in
    let minutes := Z.rem (float_to_int (time.Minutes (Dur d))) 60 in
    let seconds := Z.rem (float_to_int (time.Seconds (Dur d))) 60 in
    let milliseconds := Z.rem (time.Milliseconds (Dur d)) 1000 in
    let sb := fmt.verb_0d 2 hours ++ ":" ++ fmt.verb_0d 2 minutes ++ ":"
                ++ fmt.verb_0d 2 seconds in
    let sb := if 0 <? milliseconds
              then sb ++ "." ++ fmt.verb_0d 3 milliseconds else sb in
    (sb, None).

(** [TimeOffset]: [toDuration] is the pointer field [Duration] ([None]
    is nil), [toPosition] the field [Position], [toPercent] the
    [float32] field [Percent]. *)
Record TimeOffset := mkTimeOffset {
  toDuration : option Duration;
  toPosition : Z;
  toPercent : spec_float
}.

Definition OffsetStart : Z := -1.
Definition OffsetEnd : Z := -2.

Definition set_Position (to : TimeOffset) (p : Z) : TimeOffset :=
  mkTimeOffset (toDuration to) p (toPercent to).
Definition set_Percent (to : TimeOffset) (p : spec_float) : TimeOffset :=
  mkTimeOffset (toDuration to) (toPosition to) p.
Definition set_Duration (to : TimeOffset) (d : option Duration) : TimeOffset :=
  mkTimeOffset d (toPosition to) (toPercent to).

(** [func (to *TimeOffset) UnmarshalText(data []byte) error] *)
Definition TimeOffset_UnmarshalText (to : TimeOffset) (data : string)
  : TimeOffset * option error :=
  if String.eqb data "start" then (set_Position to OffsetStart, None)
  else if String.eqb data "end" then (set_Position to OffsetEnd, None)
  else if strings.HasSuffix data "%" then
    match strconv.ParseInt10 (strings.TrimSuffix data "%") 8 with
    | (_, Some err) =>
        (to, Some (wrapError "error parsing percentage offset: " err))
    | (p, None) =>
        (set_Percent to (f32.div (f32.of_Z p) (f32.of_Z 100)), None)
    end
  else if strings.HasPrefix data "#" then
    match strconv.ParseInt10 (strings.TrimPrefix data "#") 8 with
    | (_, Some err) =>
        (to, Some (wrapError "error parsing position offset: " err))
    | (p, None) => (set_Position to p, None)
    end
  else
    let d := mkDuration 0 in
    let to := set_Duration to (Some d) in
    let '(d, err) := Duration_UnmarshalText d data in
    (set_Duration to (Some d), err).

(** [func (to TimeOffset) MarshalText() ([]byte, error)] *)
Definition TimeOffset_MarshalText (to : TimeOffset) : string * option error :=
  match toDuration to with
  | Some d => Duration_MarshalText d
  | None =>
      if negb (toPosition to =? 0)
      then ("#" ++ fmt.verb_d (toPosition to), None)
      else if float_nonzero (toPercent to)
      then (fmt.verb_f (f32.mul (toPercent to) (f32.of_Z 100)) ++ "%", None)
      else ("", None)
  end.

(** The zero value of [TimeOffset]. *)
Definition zeroTimeOffset : TimeOffset :=
  mkTimeOffset None 0 (S754_zero false).

End vmap.


Import vmap.

(** ** Specification-side definitions

    The notions the specification speaks in: decimal numerals, the
    fields of a clock text, the variants of a time offset. *)

Fixpoint all_digits (s : string) : bool :=
  match s with
  | "" => true
  | String c s' => is_digit c && all_digits s'
  end.

(** The value of a digit string, read after the value [acc]. *)
Fixpoint horner (acc : Z) (s : string) : Z :=
  match s with
  | "" => acc
  | String c s' => horner (acc * 10 + digit_val c) s'
  end.

Definition unsigned_decimal (s : string) : option Z :=
  match s with
  | "" => None
  | _ => if all_digits s then Some (horner 0 s) else None
  end.

(** A decimal integer: an optional sign and at least one digit. *)
Definition decimal_integer (s : string) : option Z :=
  match s with
  | "" => None
  | String c r =>
      if Ascii.eqb c "+" then unsigned_decimal r
      else if Ascii.eqb c "-" then option_map Z.opp (unsigned_decimal r)
      else unsigned_decimal s
  end.

(** A decimal integer within the signed 8-bit range. *)
Definition decimal_int8 (s : string) : option Z :=
  match decimal_integer s with
  | Some z => if (-128 <=? z) && (z <=? 127) then Some z else None
  | None => None
  end.

(** The text ends in the byte [c]; what is left of it without that byte. *)
Fixpoint ends_with (s : string) (c : ascii) : bool :=
  match s with
  | "" => false
  | String a "" => Ascii.eqb a c
  | String _ s' => ends_with s' c
  end.

Fixpoint drop_last (s : string) : string :=
  match s with
  | "" => ""
  | String _ "" => ""
  | String a s' => String a (drop_last s')
  end.

Definition begins_with (s : string) (c : ascii) : bool :=
  match s with
  | "" => false
  | String a _ => Ascii.eqb a c
  end.

Definition drop_first (s : string) : string :=
  match s with
  | "" => ""
  | String _ s' => s'
  end.

(** The four variants of a time offset. *)
Inductive NamedAnchor := AnchorStart | AnchorEnd.

Inductive Variant :=
| VAnchor (a : NamedAnchor)
| VPercent (p : spec_float)
| VPosition (n : Z)
| VDuration (d : Duration).

(** How [TimeOffset.UnmarshalText] stores a variant into its receiver. *)
Definition store (to : TimeOffset) (v : Variant) : TimeOffset :=
  match v with
  | VAnchor AnchorStart => set_Position to (-1)
  | VAnchor AnchorEnd => set_Position to (-2)
  | VPercent p => set_Percent to p
  | VPosition n => set_Position to n
  | VDuration d => set_Duration to (Some d)
  end.

(** The dispatch of TimeOffsetCodec.decode in the words of the
    specification; [None] is a FormatError. *)
Definition dispatch (data : string) : option Variant :=
  if String.eqb data "start" then Some (VAnchor AnchorStart)
  else if String.eqb data "end" then Some (VAnchor AnchorEnd)
  else if ends_with data "%" then
    match decimal_int8 (drop_last data) with
    | Some p => Some (VPercent (f32.div (f32.of_Z p) (f32.of_Z 100)))
    | None => None
    end
  else if begins_with data "#" then
    match decimal_int8 (drop_first data) with
    | Some p => Some (VPosition p)
    | None => None
    end
  else
    match Duration_UnmarshalText (mkDuration 0) data with
    | (d, None) => Some (VDuration d)
    | (_, Some _) => None
    end.

Definition failed {A : Type} (r : A * option error) : bool :=
  match snd r with Some _ => true | None => false end.

(** The text left after the marker of the branch taken is stripped. *)
Definition stripped (data : string) : string :=
  if ends_with data "%" then drop_last data else drop_first data.

(** The separators of a clock text, and what [Duration.UnmarshalText]
    reads of it: the digits and the separators, whichever separator
    byte was written. *)
Definition is_sep (b : ascii) : bool := (byte_val b =? 58) || (byte_val b =? 46).

Fixpoint count_seps (s : string) : nat :=
  match s with
  | "" => O
  | String b r => if is_sep b then S (count_seps r) else count_seps r
  end.

Fixpoint skeleton (s : string) : string :=
  match s with
  | "" => ""
  | String b r =>
      if is_sep b then String ":" (skeleton r)
      else if is_digit b then String b (skeleton r)
      else skeleton r
  end.

(** The digit runs between the separators, in order. *)
Fixpoint fields (s : string) : list string :=
  match s with
  | "" => [""]
  | String b r =>
      if is_sep b then "" :: fields r
      else if is_digit b then
        match fields r with
        | f :: fs => String b f :: fs
        | [] => [String b ""]
        end
      else fields r
  end.

(** The fields, each followed by the name of its unit. *)
Fixpoint unit_text (part : nat) (fs : list string) : string :=
  match fs with
  | [] => ""
  | f :: fs' => f ++ nth part formatStrings "" ++ unit_text (S part) fs'
  end.

(** What a decode yields: the duration, or nothing on an error. *)
Definition decoded (r : Duration * option error) : option Duration :=
  match snd r with
  | None => Some (fst r)
  | Some _ => None
  end.

Definition format_error (data : string) : error :=
  errorString ("invalid duration format: " ++ data).

(** [sub] occurs in [s]. *)
Fixpoint contains (s sub : string) : bool :=
  String.prefix sub s ||
  match s with
  | "" => false
  | String _ s' => contains s' sub
  end.

(** The loop of [time.ParseDuration] with the fuel it is started with. *)
Definition rounds (orig s : string) (d : Z) : option (error + Z) :=
  time.ParseDuration_loop (String.length s) orig s d.

(** The text is empty or goes on with a byte that is no digit. *)
Definition not_digit_first (s : string) : bool :=
  match s with
  | "" => true
  | String c _ => negb (is_digit c)
  end.

(** The loop of [time.ParseDuration] ended with an error. *)
Definition round_fails (r : option (error + Z)) : Prop :=
  exists e, r = Some (inl e).

(** The text is empty or goes on with a digit or a point. *)
Definition unit_ends (s : string) : bool :=
  match s with
  | "" => true
  | String c _ => time.is_dot c || is_digit c
  end.

(** An error of [time.ParseDuration] ends with the quoted text it was given. *)
Definition quotes_orig (orig : string) (r : error + Z) : Prop :=
  match r with
  | inl e => exists pre, e = errorString (pre ++ time.quote orig)
  | inr _ => True
  end.

(** Where a decode gives up: at the separator count, in
    [time.ParseDuration], or in [strconv.ParseInt] after a "%" or after
    a "#". *)
Inductive failure : Type :=
| SeparatorCount
| DurationParse
| PercentParse
| PositionParse.

(** Where [Duration.UnmarshalText] gives up on [data], if it does. *)
Definition duration_failure (data : string) : failure :=
  if (count_seps data <? 2)%nat || (3 <? count_seps data)%nat
  then SeparatorCount
  else DurationParse.

(** Where [TimeOffset.UnmarshalText] gives up on [data], if it does. *)
Definition offset_failure (data : string) : failure :=
  if ends_with data "%" then PercentParse
  else if begins_with data "#" then PositionParse
  else duration_failure data.

(** The error [e] wraps, after [prefix], the error of
    [strconv.ParseInt] on [num], whose message quotes [num]. *)
Definition parse_int_message (isPrintTable : Z -> bool)
           (prefix num : string) (e : error) : Prop :=
  exists err k,
    snd (strconv.ParseInt10 num 8) = Some err
    /\ Error isPrintTable err
       = "strconv.ParseInt: parsing " ++ strconv.Quote isPrintTable num
           ++ ": " ++ numErr_text k
    /\ Error isPrintTable e = prefix ++ Error isPrintTable err.

(** What the message of a decode of [data] that gave up at [f]
    carries: the text itself after a separator-count failure; the
    message of [time.ParseDuration], which ends with the quoted unit
    text, after a failure there; the message of [strconv.ParseInt],
    which quotes the text without its marker, after a failure there. *)
Definition carries (isPrintTable : Z -> bool) (f : failure) (data : string)
           (e : error) : Prop :=
  match f with
  | SeparatorCount =>
      Error isPrintTable e = "invalid duration format: " ++ data
      /\ contains (Error isPrintTable e) data = true
  | DurationParse =>
      exists err pre,
        snd (time.ParseDuration (unit_text 0 (fields data))) = Some err
        /\ Error isPrintTable err
           = pre ++ time.quote (unit_text 0 (fields data))
        /\ Error isPrintTable e
           = "error parsing duration: " ++ Error isPrintTable err
  | PercentParse =>
      parse_int_message isPrintTable "error parsing percentage offset: "
        (drop_last data) e
  | PositionParse =>
      parse_int_message isPrintTable "error parsing position offset: "
        (drop_first data) e
  end.

(** The percent stored for the integer [p], and the interval [0, 1]. *)
Definition percent_of (p : Z) : spec_float :=
  f32.div (f32.of_Z p) (f32.of_Z 100).

Definition in_unit_interval (x : spec_float) : bool :=
  SFleb (S754_zero false) x && SFleb x (f32.of_Z 1).

Definition percent_check (p : Z) : bool :=
  SFleb (percent_of (-128)) (percent_of p)
  && SFleb (percent_of p) (percent_of 127)
  && Bool.eqb (in_unit_interval (percent_of p)) ((0 <=? p) && (p <=? 100)).

(** The bytes of a text that [Duration.UnmarshalText] hands to
    [time.ParseDuration]: digits and the letters of the unit names. *)
Definition unit_letter (c : ascii) : bool :=
  Ascii.eqb c "h" || Ascii.eqb c "m" || Ascii.eqb c "s".

Definition unit_byte (c : ascii) : bool := is_digit c || unit_letter c.

Fixpoint unit_letters_only (s : string) : bool :=
  match s with
  | "" => true
  | String c s' => unit_letter c && unit_letters_only s'
  end.

Fixpoint unit_bytes (s : string) : bool :=
  match s with
  | "" => true
  | String c s' => unit_byte c && unit_bytes s'
  end.


(** The value of the field at place [i] of a clock text, and the value
    of the text with each field counted in the unit of its place:
    hours, minutes, seconds, milliseconds. *)
Definition field_value (data : string) (i : nat) : Z :=
  horner 0 (nth i (fields data) "").

Definition clock_value (data : string) : Z :=
  field_value data 0 * time.Hour + field_value data 1 * time.Minute
  + field_value data 2 * time.Second + field_value data 3 * time.Millisecond.
(** ** Bytes and digits *)

Lemma byte_val_range (c : ascii) : 0 <= byte_val c < 256.
Proof.
  unfold byte_val. pose proof (N_ascii_bounded c). lia.
Qed.

Lemma byte_val_of (z : Z) : 0 <= z < 256 -> byte_val (byte_of z) = z.
Proof.
  intros H. unfold byte_val, byte_of.
  rewrite N_ascii_embedding by lia. lia.
Qed.

Lemma byte_of_val (c : ascii) : byte_of (byte_val c) = c.
Proof.
  unfold byte_val, byte_of. rewrite N2Z.id. apply ascii_N_embedding.
Qed.

Lemma byte_val_inj (a b : ascii) : byte_val a = byte_val b -> a = b.
Proof.
  intros H. rewrite <- (byte_of_val a), <- (byte_of_val b). now rewrite H.
Qed.

Lemma is_digit_spec (c : ascii) :
  is_digit c = true <-> 0 <= digit_val c <= 9.
Proof.
  unfold is_digit, digit_val. rewrite andb_true_iff, !Z.leb_le. lia.
Qed.

Lemma digit_char_digit (d : Z) :
  0 <= d <= 9 -> is_digit (digit_char d) = true /\ digit_val (digit_char d) = d.
Proof.
  intros H. unfold is_digit, digit_val, digit_char.
  rewrite byte_val_of by lia. split; [|lia].
  apply andb_true_iff; rewrite !Z.leb_le; lia.
Qed.

Lemma wrap_uint64_small (z : Z) : 0 <= z < 2 ^ 64 -> wrap_uint64 z = z.
Proof. intros H. unfold wrap_uint64, uint64_mod. now apply Z.mod_small. Qed.

Lemma wrap_int64_small (z : Z) : - 2 ^ 63 <= z < 2 ^ 63 -> wrap_int64 z = z.
Proof.
  intros H. unfold wrap_int64, uint64_mod.
  rewrite Z.mod_small; lia.
Qed.

Lemma horner_mono (s : string) (a : Z) :
  0 <= a -> all_digits s = true -> a <= horner a s.
Proof.
  revert a. induction s as [|c s IH]; simpl; intros a Ha Hd; [lia|].
  apply andb_true_iff in Hd as [Hc Hs]. apply is_digit_spec in Hc.
  specialize (IH (a * 10 + digit_val c) ltac:(lia) Hs). lia.
Qed.

Lemma horner_le (s : string) (a b : Z) :
  a <= b -> horner a s <= horner b s.
Proof.
  revert a b. induction s as [|c s IH]; simpl; intros a b H; [lia|].
  apply IH. lia.
Qed.

Lemma horner_app (s t : string) (a : Z) :
  horner a (s ++ t) = horner (horner a s) t.
Proof. revert a. induction s as [|c s IH]; simpl; intros; auto. Qed.

Lemma all_digits_app (s t : string) :
  all_digits (s ++ t) = all_digits s && all_digits t.
Proof.
  induction s as [|c s IH]; simpl; auto. now rewrite IH, andb_assoc.
Qed.

(** ** strconv.ParseInt against the decimal numerals *)

Lemma ParseUint_loop_spec (s0 s : string) (n : Z) :
  0 <= n <= 255 ->
  if all_digits s
  then strconv.ParseUint_loop s0 255 s n
       = if horner n s <=? 255 then (horner n s, None)
         else (255, Some (strconv.rangeError "ParseUint" s0))
  else strconv.ParseUint_loop s0 255 s n
         = (255, Some (strconv.rangeError "ParseUint" s0))
       \/ strconv.ParseUint_loop s0 255 s n
         = (0, Some (strconv.syntaxError "ParseUint" s0)).
Proof.
  revert n. induction s as [|c s IH]; intros n Hn; simpl.
  - replace (n <=? 255) with true by (symmetry; apply Z.leb_le; lia).
    reflexivity.
  - destruct (is_digit c) eqn:Hc; simpl; [|now right].
    apply is_digit_spec in Hc.
    match goal with
    | |- context [?a <=? n] =>
        destruct (Z.leb_spec a n) as [E|_];
        [assert (a = 1844674407370955162) by reflexivity; lia|]
    end.
    rewrite (wrap_uint64_small (n * 10))
      by (change (2 ^ 64) with 18446744073709551616; lia).
    rewrite (wrap_uint64_small (n * 10 + digit_val c))
      by (change (2 ^ 64) with 18446744073709551616; lia).
    replace (n * 10 + digit_val c <? n * 10) with false
      by (symmetry; apply Z.ltb_ge; lia).
    simpl. destruct (255 <? n * 10 + digit_val c) eqn:Hov.
    + apply Z.ltb_lt in Hov.
      destruct (all_digits s) eqn:Hs; [|now left].
      pose proof (horner_mono s (n * 10 + digit_val c) ltac:(lia) Hs).
      replace (horner (n * 10 + digit_val c) s <=? 255) with false
        by (symmetry; apply Z.leb_gt; lia).
      reflexivity.
    + apply Z.ltb_ge in Hov. apply IH. lia.
Qed.

Lemma ParseUint10_spec (s : string) :
  match unsigned_decimal s with
  | Some z =>
      strconv.ParseUint10 s 8
      = if z <=? 255 then (z, None)
        else (255, Some (strconv.rangeError "ParseUint" s))
  | None =>
      strconv.ParseUint10 s 8 = (255, Some (strconv.rangeError "ParseUint" s))
      \/ strconv.ParseUint10 s 8
         = (0, Some (strconv.syntaxError "ParseUint" s))
  end.
Proof.
  destruct s as [|c s]; [now right|].
  unfold unsigned_decimal, strconv.ParseUint10.
  change (2 ^ 8 - 1) with 255.
  pose proof (ParseUint_loop_spec (String c s) (String c s) 0 ltac:(lia)) as H.
  destruct (all_digits (String c s)); exact H.
Qed.

Lemma unsigned_decimal_nonneg (s : string) (z : Z) :
  unsigned_decimal s = Some z -> 0 <= z.
Proof.
  destruct s as [|c s]; [discriminate|]. unfold unsigned_decimal.
  destruct (all_digits (String c s)) eqn:Hd; [|discriminate].
  intros [= <-]. apply (horner_mono (String c s) 0); [lia|exact Hd].
Qed.

Lemma ParseInt10_int8 (s : string) :
  match decimal_int8 s with
  | Some p => strconv.ParseInt10 s 8 = (p, None)
  | None => exists v k, strconv.ParseInt10 s 8
                        = (v, Some (NumError "ParseInt" s k))
  end.
Proof.
  destruct s as [|c r]; [simpl; now eexists _, _|].
  unfold decimal_int8, decimal_integer, strconv.ParseInt10.
  change (2 ^ (8 - 1)) with 128.
  destruct (Ascii.eqb c "+") eqn:Ep; [|destruct (Ascii.eqb c "-") eqn:Em];
    match goal with
    | |- context [strconv.ParseUint10 ?t 8] =>
        pose proof (ParseUint10_spec t) as H;
        pose proof (unsigned_decimal_nonneg t) as Hz;
        destruct (unsigned_decimal t) as [z|];
        [specialize (Hz z eq_refl); rewrite H;
         destruct (Z.leb_spec z 255)
        |destruct H as [H|H]; rewrite H]
    end;
    cbn [option_map negb andb fst snd strconv.rangeError strconv.syntaxError];
    repeat match goal with
      | |- context [?a <=? ?b] => destruct (Z.leb_spec a b); cbn [andb negb]
      | |- context [?a <? ?b] => destruct (Z.ltb_spec a b); cbn [andb negb]
      end;
    try lia; try (now eexists _, _);
    repeat match goal with
      | |- context [wrap_int64 ?x] =>
          rewrite (wrap_int64_small x)
            by (change (2 ^ 63) with 9223372036854775808; lia)
      end;
    reflexivity.
Qed.

(** ** strings.HasSuffix, HasPrefix and the trims, for a one-byte marker *)

Lemma HasSuffix_byte (s : string) (c : ascii) :
  strings.HasSuffix s (String c "") = ends_with s c.
Proof.
  unfold strings.HasSuffix.
  induction s as [|a s IH]; [reflexivity|].
  destruct s as [|b s].
  - simpl. destruct (Ascii.eqb a c); reflexivity.
  - change (String.length (String a (String b s)))
      with (S (String.length (String b s))).
    change (String.length (String c "")) with 1%nat in *.
    replace (S (String.length (String b s)) - 1)%nat
      with (S (String.length (String b s) - 1))%nat by (simpl; lia).
    change (ends_with (String a (String b s)) c)
      with (ends_with (String b s) c).
    rewrite <- IH. reflexivity.
Qed.

Lemma TrimSuffix_byte (s : string) (c : ascii) :
  ends_with s c = true -> strings.TrimSuffix s (String c "") = drop_last s.
Proof.
  intros H. unfold strings.TrimSuffix. rewrite HasSuffix_byte, H.
  clear H. change (String.length (String c "")) with 1%nat.
  induction s as [|a s IH]; [reflexivity|].
  destruct s as [|b s]; [reflexivity|].
  change (String.length (String a (String b s)))
    with (S (String.length (String b s))).
  replace (S (String.length (String b s)) - 1)%nat
    with (S (String.length (String b s) - 1))%nat by (simpl; lia).
  change (drop_last (String a (String b s)))
    with (String a (drop_last (String b s))).
  rewrite <- IH. reflexivity.
Qed.

Lemma substring_all (s : string) : substring 0 (String.length s) s = s.
Proof. induction s as [|a s IH]; simpl; [reflexivity|now rewrite IH]. Qed.

Lemma HasPrefix_byte (s : string) (c : ascii) :
  strings.HasPrefix s (String c "") = begins_with s c.
Proof.
  unfold strings.HasPrefix. destruct s as [|a s]; [reflexivity|].
  simpl. destruct s; simpl; destruct (Ascii.eqb a c); reflexivity.
Qed.

Lemma TrimPrefix_byte (s : string) (c : ascii) :
  begins_with s c = true -> strings.TrimPrefix s (String c "") = drop_first s.
Proof.
  intros H. unfold strings.TrimPrefix. rewrite HasPrefix_byte, H.
  destruct s as [|a s]; [reflexivity|].
  simpl. rewrite Nat.sub_0_r. apply substring_all.
Qed.

(** ** The dispatch of TimeOffset.UnmarshalText *)

Lemma TimeOffset_UnmarshalText_dispatch (to : TimeOffset) (data : string) :
  match dispatch data with
  | Some v => TimeOffset_UnmarshalText to data = (store to v, None)
  | None => fst (TimeOffset_UnmarshalText to data)
            = (if ends_with data "%" || begins_with data "#" then to
               else set_Duration to (Some (mkDuration 0)))
            /\ failed (TimeOffset_UnmarshalText to data) = true
  end.
Proof.
  unfold dispatch, TimeOffset_UnmarshalText.
  destruct (String.eqb data "start"); [reflexivity|].
  destruct (String.eqb data "end"); [reflexivity|].
  change "%" with (String "%" "") at 1 2.
  change "#" with (String "#" "") at 1 2.
  rewrite HasSuffix_byte, HasPrefix_byte.
  destruct (ends_with data "%") eqn:Hp.
  - rewrite TrimSuffix_byte by exact Hp.
    pose proof (ParseInt10_int8 (drop_last data)) as H.
    destruct (decimal_int8 (drop_last data)) as [p|].
    + now rewrite H.
    + destruct H as (v & k & ->). now split.
  - destruct (begins_with data "#") eqn:Hh.
    + rewrite TrimPrefix_byte by exact Hh.
      pose proof (ParseInt10_int8 (drop_first data)) as H.
      destruct (decimal_int8 (drop_first data)) as [p|].
      * now rewrite H.
      * destruct H as (v & k & ->). now split.
    + unfold Duration_UnmarshalText.
      destruct (scan data data "" 0) as [e|[sb part]]; [now split|].
      destruct (part <? 2)%nat; [now split|].
      destruct (time.ParseDuration _) as [dur [e|]]; now split.
Qed.

Lemma marker_not_anchor (data : string) :
  ends_with data "%" = true \/ begins_with data "#" = true ->
  String.eqb data "start" = false /\ String.eqb data "end" = false.
Proof.
  intros H. split.
  - destruct (String.eqb_spec data "start") as [->|]; [|reflexivity].
    destruct H; discriminate.
  - destruct (String.eqb_spec data "end") as [->|]; [|reflexivity].
    destruct H; discriminate.
Qed.

Lemma dispatch_marker (data : string) :
  ends_with data "%" = true \/ begins_with data "#" = true ->
  dispatch data
  = if ends_with data "%"
    then option_map (fun p => VPercent (f32.div (f32.of_Z p) (f32.of_Z 100)))
                    (decimal_int8 (stripped data))
    else option_map VPosition (decimal_int8 (stripped data)).
Proof.
  intros H. destruct (marker_not_anchor data H) as [Hs He].
  unfold dispatch, stripped. rewrite Hs, He.
  destruct (ends_with data "%").
  - now destruct (decimal_int8 _).
  - destruct H as [H|H]; [discriminate|]. rewrite H.
    now destruct (decimal_int8 _).
Qed.

Lemma Duration_UnmarshalText_failed (d : Duration) (data : string) :
  failed (Duration_UnmarshalText d data) = true ->
  fst (Duration_UnmarshalText d data) = d.
Proof.
  unfold Duration_UnmarshalText, failed.
  destruct (scan data data "" 0) as [e|[sb part]]; [reflexivity|].
  destruct (part <? 2)%nat; [reflexivity|].
  destruct (time.ParseDuration _) as [dur [e|]]; [reflexivity|discriminate].
Qed.

Lemma Duration_UnmarshalText_receiver (d d' : Duration) (data : string) :
  snd (Duration_UnmarshalText d data) = snd (Duration_UnmarshalText d' data)
  /\ (failed (Duration_UnmarshalText d data) = false ->
      fst (Duration_UnmarshalText d data) = fst (Duration_UnmarshalText d' data)).
Proof.
  unfold Duration_UnmarshalText, failed.
  destruct (scan data data "" 0) as [e|[sb part]]; [now split|].
  destruct (part <? 2)%nat; [now split|].
  destruct (time.ParseDuration _) as [dur [e|]]; now split.
Qed.

(** ** The byte loop of Duration.UnmarshalText *)

Lemma append_nil_r (s : string) : s ++ "" = s.
Proof. induction s as [|a s IH]; simpl; [reflexivity|now rewrite IH]. Qed.

Lemma append_assoc (s t u : string) : (s ++ t) ++ u = s ++ (t ++ u).
Proof. induction s as [|a s IH]; simpl; [reflexivity|now rewrite IH]. Qed.

Lemma fields_nonempty (s : string) : fields s <> [].
Proof.
  induction s as [|b r IH]; simpl; [discriminate|].
  destruct (is_sep b); [discriminate|].
  destruct (is_digit b); [|exact IH].
  destruct (fields r); discriminate.
Qed.

Lemma fields_length (s : string) : List.length (fields s) = S (count_seps s).
Proof.
  induction s as [|b r IH]; simpl; [reflexivity|].
  destruct (is_sep b); simpl; [now rewrite IH|].
  destruct (is_digit b); [|exact IH].
  destruct (fields r); simpl in *; [discriminate|exact IH].
Qed.

Lemma scan_ok (data rest sb : string) (part : nat) :
  (part + count_seps rest <= 3)%nat ->
  exists sb', scan data rest sb part = inr (sb', (part + count_seps rest)%nat)
    /\ sb' ++ nth (part + count_seps rest) formatStrings ""
       = sb ++ unit_text part (fields rest).
Proof.
  revert sb part. induction rest as [|b r IH]; intros sb part Hle;
    cbn [scan count_seps fields] in *.
  - exists sb. cbn [unit_text String.append].
    rewrite Nat.add_0_r, append_nil_r. now split.
  - fold (is_sep b) in *. destruct (is_sep b).
    + replace (part =? 3)%nat with false by (symmetry; apply Nat.eqb_neq; lia).
      destruct (IH (sb ++ nth part formatStrings "") (S part) ltac:(lia))
        as (sb' & Hs & Hb).
      exists sb'. rewrite Nat.add_succ_r. split; [exact Hs|].
      cbn [Nat.add] in Hb. rewrite Hb. cbn [unit_text String.append].
      now rewrite append_assoc.
    + destruct (is_digit b).
      * destruct (IH (sb ++ String b "") part Hle) as (sb' & Hs & Hb).
        exists sb'. split; [exact Hs|]. rewrite Hb.
        pose proof (fields_nonempty r) as Hne.
        destruct (fields r) as [|f fs]; [congruence|].
        cbn [unit_text String.append]. now rewrite append_assoc.
      * apply IH, Hle.
Qed.

Lemma scan_fail (data rest sb : string) (part : nat) :
  (part <= 3)%nat -> (3 < part + count_seps rest)%nat ->
  scan data rest sb part = inl (format_error data).
Proof.
  revert sb part. induction rest as [|b r IH]; intros sb part Hp Hgt;
    cbn [scan count_seps] in *.
  - lia.
  - fold (is_sep b) in *. destruct (is_sep b).
    + destruct (Nat.eqb_spec part 3) as [->|Hne]; [reflexivity|].
      apply IH; lia.
    + destruct (is_digit b); apply IH; assumption.
Qed.

(** [Duration.UnmarshalText] in one equation: the separator count is
    checked, then the fields with their unit names go to
    [time.ParseDuration]. *)
Lemma Duration_UnmarshalText_eq (d : Duration) (data : string) :
  Duration_UnmarshalText d data
  = if (count_seps data <? 2)%nat || (3 <? count_seps data)%nat
    then (d, Some (format_error data))
    else
      match time.ParseDuration (unit_text 0 (fields data)) with
      | (_, Some err) => (d, Some (wrapError "error parsing duration: " err))
      | (dur, None) => (mkDuration dur, None)
      end.
Proof.
  unfold Duration_UnmarshalText.
  destruct (Nat.ltb_spec 3 (count_seps data)) as [Hgt|Hle].
  - rewrite orb_true_r.
    now rewrite (scan_fail data data "" 0) by lia.
  - rewrite orb_false_r.
    destruct (scan_ok data data "" 0 ltac:(simpl; lia)) as (sb & -> & Hb).
    cbn [Nat.add String.append] in Hb |- *. rewrite Hb.
    destruct (count_seps data <? 2)%nat; reflexivity.
Qed.

Lemma skeleton_fields (s : string) : fields (skeleton s) = fields s.
Proof.
  induction s as [|b r IH]; simpl; [reflexivity|].
  destruct (is_sep b) eqn:Hs; simpl.
  - now rewrite IH.
  - destruct (is_digit b) eqn:Hd; [|exact IH].
    simpl. rewrite Hs, Hd, IH. reflexivity.
Qed.

Lemma skeleton_count_seps (s : string) : count_seps (skeleton s) = count_seps s.
Proof.
  pose proof (fields_length s) as H1. pose proof (fields_length (skeleton s)) as H2.
  rewrite skeleton_fields in H2. congruence.
Qed.

(** ** time.ParseDuration: the loop terminates *)

Lemma leadingInt_loop_length (s r : string) (x v : Z) :
  time.leadingInt_loop s x = Some (v, r) ->
  (String.length r <= String.length s)%nat.
Proof.
  revert x. induction s as [|c s IH]; intros x; cbn [time.leadingInt_loop].
  - intros [= _ <-]. lia.
  - destruct (negb (is_digit c)); [intros [= _ <-]; lia|].
    destruct (_ <? x); [discriminate|].
    destruct (2 ^ 63 <? _); [discriminate|].
    intros H. apply IH in H. simpl. lia.
Qed.

Lemma leadingFraction_loop_length (s : string) (x : Z) (sc : spec_float)
      (ov : bool) :
  (String.length (snd (time.leadingFraction_loop s x sc ov))
   <= String.length s)%nat.
Proof.
  revert x sc ov.
  induction s as [|c s IH]; intros x sc ov; cbn [time.leadingFraction_loop].
  - cbn [snd]. lia.
  - destruct (negb (is_digit c)); [cbn [snd]; lia|].
    cbn [String.length].
    destruct ov; [specialize (IH x sc true); lia|].
    destruct (_ <? x); [specialize (IH x sc true); lia|].
    destruct (2 ^ 63 <? _).
    + specialize (IH x sc true). lia.
    + match goal with
      | |- context [time.leadingFraction_loop s ?y ?t false] =>
          specialize (IH y t false)
      end. lia.
Qed.

Lemma span_unit_length (s : string) :
  (String.length (fst (time.span_unit s))
   + String.length (snd (time.span_unit s)) = String.length s)%nat.
Proof.
  induction s as [|c s IH]; cbn [time.span_unit]; [reflexivity|].
  destruct (_ || _); [reflexivity|].
  destruct (time.span_unit s) as [u r]. simpl in *. lia.
Qed.

(** A round either ends the loop, with an error that quotes [orig] or
    with the sum reached, or continues on a text that is shorter than
    its own. *)
Ltac round_ends :=
  left; eexists; split; [reflexivity|];
  lazymatch goal with
  | |- quotes_orig _ (inr _) => exact I
  | |- quotes_orig _ (inl (errorString (?a ++ time.quote _))) =>
      exists a; reflexivity
  | |- quotes_orig _ (inl (errorString (?a ++ ?b ++ ?c ++ time.quote _))) =>
      exists (a ++ b ++ c); rewrite !append_assoc; reflexivity
  end.

Lemma ParseDuration_round_shape (orig s : string) (d : Z) :
  (exists r, (forall continue,
      time.ParseDuration_round continue orig s d = Some r)
      /\ quotes_orig orig r)
  \/ (exists s' d', (String.length s' < String.length s)%nat
        /\ forall continue,
            time.ParseDuration_round continue orig s d = continue s' d').
Proof.
  unfold time.ParseDuration_round, time.invalid.
  destruct s as [|c0 s0]; [round_ends|].
  destruct (negb _); [round_ends|].
  unfold time.leadingInt.
  destruct (time.leadingInt_loop (String c0 s0) 0) as [[v r]|] eqn:HL;
    [|round_ends].
  apply leadingInt_loop_length in HL.
  match goal with
  | |- context [match ?T with pair _ _ => _ end] =>
      lazymatch type of T with
      | (Z * spec_float * bool * string)%type =>
          assert (Hlen : (String.length (snd T) <= String.length r)%nat);
          [|destruct T as [[[f scale] post] s2]]
      end
  end.
  { destruct r as [|c r1]; [cbn [snd]; lia|].
    destruct (time.is_dot c); [|cbn [snd]; lia].
    unfold time.leadingFraction.
    pose proof (leadingFraction_loop_length r1 0 (f64.of_Z 1) false) as H.
    destruct (time.leadingFraction_loop r1 0 (f64.of_Z 1) false) as [[f sc] s2].
    cbn [snd String.length] in *. lia. }
  cbn [snd] in Hlen.
  destruct (_ && _); [round_ends|].
  pose proof (span_unit_length s2) as Hu.
  destruct (time.span_unit s2) as [u s3]. cbn [fst snd] in Hu.
  destruct u as [|cu u']; [round_ends|].
  destruct (time.unitMap _) as [unit|]; [|round_ends].
  destruct (_ <? v); [round_ends|].
  assert (Hs3 : (String.length s3 < String.length (String c0 s0))%nat)
    by (cbn [String.length] in *; lia).
  cbv zeta.
  destruct (0 <? f).
  - destruct (2 ^ 63 <? _); [round_ends|].
    destruct (2 ^ 63 <? _); [round_ends|].
    right. eexists _, _. split; [exact Hs3|reflexivity].
  - destruct (2 ^ 63 <? _); [round_ends|].
    right. eexists _, _. split; [exact Hs3|reflexivity].
Qed.

Lemma ParseDuration_loop_fuel (fuel1 fuel2 : nat) (orig s : string) (d : Z) :
  (String.length s <= fuel1)%nat -> (String.length s <= fuel2)%nat ->
  time.ParseDuration_loop fuel1 orig s d = time.ParseDuration_loop fuel2 orig s d.
Proof.
  revert fuel2 s d. induction fuel1 as [|f1 IH]; intros fuel2 s d H1 H2.
  - destruct s; [|simpl in H1; lia]. now destruct fuel2.
  - destruct s as [|c s]; [now destruct fuel2|].
    destruct fuel2 as [|f2]; [simpl in H2; lia|].
    cbn [time.ParseDuration_loop].
    destruct (ParseDuration_round_shape orig (String c s) d)
      as [[r [Hr _]]|(s' & d' & Hlt & Hr)].
    + now rewrite !Hr.
    + rewrite !Hr. apply IH; simpl in *; lia.
Qed.

Lemma ParseDuration_loop_total (fuel : nat) (orig s : string) (d : Z) :
  (String.length s <= fuel)%nat ->
  time.ParseDuration_loop fuel orig s d <> None.
Proof.
  revert s d. induction fuel as [|f IH]; intros s d H.
  - destruct s; [discriminate|simpl in H; lia].
  - destruct s as [|c s]; [discriminate|].
    cbn [time.ParseDuration_loop].
    destruct (ParseDuration_round_shape orig (String c s) d)
      as [[r [Hr _]]|(s' & d' & Hlt & Hr)].
    + now rewrite Hr.
    + rewrite Hr. apply IH. simpl in *; lia.
Qed.

Lemma rounds_unfold (orig s : string) (d : Z) :
  rounds orig s d = time.ParseDuration_round (rounds orig) orig s d.
Proof.
  unfold rounds. destruct s as [|c s]; [reflexivity|].
  cbn [String.length time.ParseDuration_loop].
  destruct (ParseDuration_round_shape orig (String c s) d)
    as [[r [Hr _]]|(s' & d' & Hlt & Hr)].
  - now rewrite !Hr.
  - rewrite !Hr. apply ParseDuration_loop_fuel; simpl in *; lia.
Qed.

(** ** time.ParseDuration on a run of digits and its unit *)

Lemma length_append (s t : string) :
  String.length (s ++ t) = (String.length s + String.length t)%nat.
Proof. induction s as [|a s IH]; simpl; [reflexivity|now rewrite IH]. Qed.

Lemma leadingInt_loop_run (f rest : string) (x : Z) :
  all_digits f = true -> not_digit_first rest = true -> 0 <= x <= 2 ^ 63 ->
  time.leadingInt_loop (f ++ rest) x
  = if horner x f <=? 2 ^ 63 then Some (horner x f, rest) else None.
Proof.
  intros Hf Hr. revert x.
  induction f as [|c f IH]; intros x Hx; cbn [String.append horner].
  - replace (x <=? 2 ^ 63) with true by (symmetry; apply Z.leb_le; lia).
    destruct rest as [|c r]; [reflexivity|].
    cbn [time.leadingInt_loop]. simpl in Hr. now rewrite Hr.
  - cbn [all_digits] in Hf. apply andb_true_iff in Hf as [Hc Hf].
    cbn [time.leadingInt_loop]. rewrite Hc. cbn [negb].
    apply is_digit_spec in Hc. unfold digit_val in *.
    assert (E63 : 2 ^ 63 = 9223372036854775808) by reflexivity.
    assert (E64 : 2 ^ 64 = 18446744073709551616) by reflexivity.
    destruct (Z.ltb_spec (2 ^ 63 / 10) x) as [Hov|Hok].
    + pose proof (horner_mono f (x * 10 + (byte_val c - 48)) ltac:(lia) Hf).
      destruct (Z.leb_spec (horner (x * 10 + (byte_val c - 48)) f) (2 ^ 63));
        [|reflexivity].
      rewrite E63 in *. change (9223372036854775808 / 10)
        with 922337203685477580 in Hov. lia.
    + rewrite E63 in Hok. change (9223372036854775808 / 10)
        with 922337203685477580 in Hok.
      replace (x * 10 + byte_val c - 48) with (x * 10 + (byte_val c - 48))
        by lia.
      rewrite wrap_uint64_small by lia.
      destruct (Z.ltb_spec (2 ^ 63) (x * 10 + (byte_val c - 48))) as [Hov|Hle].
      * pose proof (horner_mono f (x * 10 + (byte_val c - 48)) ltac:(lia) Hf).
        destruct (Z.leb_spec (horner (x * 10 + (byte_val c - 48)) f) (2 ^ 63));
          [lia|reflexivity].
      * apply IH; [exact Hf|lia].
Qed.

Lemma ParseDuration_round_field
      (continue : string -> Z -> option (error + Z))
      (orig f : string) (cu : ascii) (t : string) (d : Z) :
  f <> "" -> all_digits f = true ->
  is_digit cu = false -> time.is_dot cu = false ->
  time.ParseDuration_round continue orig (f ++ String cu t) d
  = if horner 0 f <=? 2 ^ 63 then
      let '(u, rest) := time.span_unit (String cu t) in
      match time.unitMap u with
      | None => Some (inl (errorString
                  ("time: unknown unit " ++ time.quote u
                     ++ " in duration " ++ time.quote orig)))
      | Some unit =>
          if 2 ^ 63 / unit <? horner 0 f then Some (inl (time.invalid orig))
          else
            let dd := wrap_uint64 (d + wrap_uint64 (horner 0 f * unit)) in
            if 2 ^ 63 <? dd then Some (inl (time.invalid orig))
            else continue rest dd
      end
    else Some (inl (time.invalid orig)).
Proof.
  intros Hne Hf Hcu Hdot.
  destruct f as [|c0 f']; [congruence|].
  unfold time.ParseDuration_round. cbn [String.append].
  assert (Hc0 : is_digit c0 = true)
    by (cbn [all_digits] in Hf; now apply andb_true_iff in Hf).
  rewrite Hc0, orb_true_r. cbn [negb].
  unfold time.leadingInt.
  change (String c0 (f' ++ String cu t)) with (String c0 f' ++ String cu t).
  rewrite leadingInt_loop_run
    by first [assumption | lia | simpl; now rewrite Hcu].
  destruct (horner 0 (String c0 f') <=? 2 ^ 63); [|reflexivity].
  replace (String.length (String c0 f' ++ String cu t)
           =? String.length (String cu t))%nat with false
    by (symmetry; apply Nat.eqb_neq; rewrite length_append; simpl; lia).
  rewrite Hdot. cbn [negb andb].
  cbn [time.span_unit]. rewrite Hdot, Hcu. cbn [orb].
  destruct (time.span_unit t) as [u rest].
  destruct (time.unitMap (String cu u)) as [unit|]; [|reflexivity].
  destruct (_ <? horner 0 (String c0 f')); reflexivity.
Qed.

Lemma span_unit_stop (s : string) :
  unit_ends s = true -> time.span_unit s = ("", s).
Proof.
  destruct s as [|c s]; [reflexivity|]. cbn [unit_ends time.span_unit].
  now intros ->.
Qed.

Lemma unit_ends_field (f t : string) :
  f <> "" -> all_digits f = true -> unit_ends (f ++ t) = true.
Proof.
  destruct f as [|c f]; [congruence|]. intros _ H. cbn [all_digits] in H.
  apply andb_true_iff in H as [H _]. cbn [String.append unit_ends].
  rewrite H. apply orb_true_r.
Qed.

Lemma fields_all_digits (s : string) :
  Forall (fun f => all_digits f = true) (fields s).
Proof.
  induction s as [|b r IH]; cbn [fields].
  - now constructor.
  - destruct (is_sep b); [now constructor|].
    destruct (is_digit b) eqn:Hb; [|exact IH].
    destruct (fields r) as [|f fs]; [now repeat constructor; simpl; rewrite Hb|].
    inversion IH; subst. constructor; [|assumption].
    cbn [all_digits]. now rewrite Hb.
Qed.

(** A field and its unit: the loop fails if the unit is unknown, or if
    it fails on what follows the unit. *)
Lemma rounds_field_fails (orig f : string) (cu : ascii) (t : string) (d : Z) :
  f <> "" -> all_digits f = true ->
  is_digit cu = false -> time.is_dot cu = false ->
  (time.unitMap (fst (time.span_unit (String cu t))) = None
   \/ forall d', round_fails (rounds orig (snd (time.span_unit (String cu t))) d')) ->
  round_fails (rounds orig (f ++ String cu t) d).
Proof.
  intros Hne Hf Hcu Hdot H.
  rewrite rounds_unfold, ParseDuration_round_field by assumption.
  destruct (_ <=? _); [|now eexists].
  destruct (time.span_unit (String cu t)) as [u rest]. cbn [fst snd] in H.
  destruct (time.unitMap u) as [unit|].
  - destruct H as [H|H]; [discriminate|].
    destruct (_ <? _); [now eexists|]. cbv zeta.
    destruct (_ <? _); [now eexists|]. apply H.
  - now eexists.
Qed.

Lemma ParseDuration_digit_first (c : ascii) (s : string) :
  is_digit c = true -> s <> "" ->
  time.ParseDuration (String c s)
  = match rounds (String c s) (String c s) 0 with
    | Some (inl e) => (0, Some e)
    | Some (inr d) =>
        if 2 ^ 63 - 1 <? d then (0, Some (time.invalid (String c s)))
        else (d, None)
    | None => (0, Some (time.invalid (String c s)))
    end.
Proof.
  intros Hc Hs. unfold time.ParseDuration, rounds.
  apply is_digit_spec in Hc. unfold digit_val in Hc.
  replace (byte_val c =? 45) with false by (symmetry; apply Z.eqb_neq; lia).
  replace (byte_val c =? 43) with false by (symmetry; apply Z.eqb_neq; lia).
  cbn [orb].
  destruct s as [|a s]; [congruence|].
  replace (String.eqb (String c (String a s)) "0") with false
    by (cbn; now destruct (Ascii.eqb c "0")).
  reflexivity.
Qed.

Lemma ParseDuration_field_first (f t : string) :
  f <> "" -> all_digits f = true -> t <> "" ->
  round_fails (rounds (f ++ t) (f ++ t) 0) ->
  exists e, time.ParseDuration (f ++ t) = (0, Some e).
Proof.
  intros Hne Hf Ht [e He].
  destruct f as [|c f]; [congruence|].
  cbn [all_digits] in Hf. apply andb_true_iff in Hf as [Hc _].
  cbn [String.append] in *. rewrite ParseDuration_digit_first; try assumption.
  - rewrite He. now eexists.
  - destruct f; [exact Ht|discriminate].
Qed.

Lemma ParseDuration_hour_first (t : string) :
  time.ParseDuration (String "h" t)
  = (0, Some (time.invalid (String "h" t))).
Proof. reflexivity. Qed.

Lemma span_unit_letter (c : ascii) (t : string) :
  is_digit c = false -> time.is_dot c = false ->
  time.span_unit (String c t)
  = (String c (fst (time.span_unit t)), snd (time.span_unit t)).
Proof.
  intros Hd Hp. cbn [time.span_unit]. rewrite Hd, Hp. cbn [orb].
  now destruct (time.span_unit t).
Qed.

Ltac unit_letters :=
  repeat (rewrite span_unit_letter by reflexivity; cbn [fst snd]).

(** After a field that is not empty, its unit if the next field is not
    empty either. *)
Ltac field_then_field :=
  apply rounds_field_fails;
  [discriminate | assumption | reflexivity | reflexivity
  | right; unit_letters;
    rewrite span_unit_stop by (apply unit_ends_field; [discriminate|assumption]);
    cbn [snd]; intros ? ].

Ltac field_then_unknown :=
  apply rounds_field_fails;
  [discriminate | assumption | reflexivity | reflexivity
  | left; cbn [String.append]; unit_letters; reflexivity ].

Lemma empty_field_fails (fs : list string) :
  Forall (fun f => all_digits f = true) fs ->
  (List.length fs = 3 \/ List.length fs = 4)%nat ->
  nth 0 fs "" = "" \/ nth 1 fs "" = ""
  \/ (List.length fs = 4%nat /\ nth 3 fs "" = "") ->
  exists e, time.ParseDuration (unit_text 0 fs) = (0, Some e).
Proof.
  intros Hd Hlen Hempty.
  destruct fs as [|f0 [|f1 [|f2 [|f3 [|f4 fs]]]]]; simpl in Hlen; try lia;
    cbn [nth List.length] in Hempty;
    repeat match goal with
      | H : Forall _ (_ :: _) |- _ => inversion H; subst; clear H
      end;
    cbn [unit_text nth formatStrings String.append].
  - (* hours, minutes, seconds *)
    destruct f0 as [|c0 f0];
      [cbn [String.append]; rewrite ParseDuration_hour_first; now eexists|].
    apply (ParseDuration_field_first (String c0 f0)); try discriminate;
      [assumption|].
    destruct f1 as [|c1 f1]; [field_then_unknown|].
    destruct Hempty as [?|[?|[? _]]]; discriminate.
  - (* hours, minutes, seconds, milliseconds *)
    destruct f0 as [|c0 f0];
      [cbn [String.append]; rewrite ParseDuration_hour_first; now eexists|].
    apply (ParseDuration_field_first (String c0 f0)); try discriminate;
      [assumption|].
    destruct f1 as [|c1 f1]; [field_then_unknown|].
    destruct f3 as [|c3 f3];
      [|destruct Hempty as [?|[?|[_ ?]]]; discriminate].
    field_then_field.
    destruct f2 as [|c2 f2]; [field_then_unknown|].
    field_then_field. field_then_unknown.
Qed.

(** ** What the errors carry *)

Lemma ParseDuration_loop_error (fuel : nat) (orig s : string) (d : Z) (e : error) :
  time.ParseDuration_loop fuel orig s d = Some (inl e) ->
  exists pre, e = errorString (pre ++ time.quote orig).
Proof.
  revert s d. induction fuel as [|f IH]; intros s d H.
  - destruct s; discriminate.
  - destruct s as [|c s]; [discriminate|].
    cbn [time.ParseDuration_loop] in H.
    destruct (ParseDuration_round_shape orig (String c s) d)
      as [[r [Hr Hq]]|(s' & d' & _ & Hr)]; rewrite Hr in H.
    + injection H as ->. exact Hq.
    + exact (IH _ _ H).
Qed.

Lemma ParseDuration_error (s : string) (e : error) :
  snd (time.ParseDuration s) = Some e ->
  exists pre, e = errorString (pre ++ time.quote s).
Proof.
  unfold time.ParseDuration.
  match goal with
  | |- context [match ?T with pair _ _ => _ end] => destruct T as [neg s1]
  end.
  destruct (String.eqb s1 "0"); [discriminate|].
  destruct (String.eqb s1 ""); [intros [= <-]; now eexists|].
  destruct (time.ParseDuration_loop _ s s1 0) as [[e'|d]|] eqn:HL; cbn [snd].
  - intros [= <-]. exact (ParseDuration_loop_error _ _ _ _ _ HL).
  - destruct neg; [discriminate|].
    destruct (_ <? d); [intros [= <-]; now eexists|discriminate].
  - intros [= <-]. now eexists.
Qed.

Lemma prefix_refl (s : string) : String.prefix s s = true.
Proof.
  induction s as [|a s IH]; [reflexivity|]. cbn [String.prefix].
  destruct (ascii_dec a a); [exact IH|congruence].
Qed.

Lemma contains_append (p s : string) : contains (p ++ s) s = true.
Proof.
  induction p as [|a p IH]; cbn [String.append].
  - destruct s; cbn [contains]; rewrite prefix_refl; reflexivity.
  - cbn [contains]. rewrite IH. apply orb_true_r.
Qed.

Lemma Duration_UnmarshalText_error (d : Duration) (data : string) (e : error) :
  snd (Duration_UnmarshalText d data) = Some e ->
  e = format_error data
  \/ exists pre,
       e = wrapError "error parsing duration: "
             (errorString (pre ++ time.quote (unit_text 0 (fields data)))).
Proof.
  rewrite Duration_UnmarshalText_eq.
  destruct (_ || _); [intros [= <-]; now left|].
  destruct (time.ParseDuration _) as [dur [e'|]] eqn:HP; [|discriminate].
  intros [= <-]. right.
  destruct (ParseDuration_error (unit_text 0 (fields data)) e') as [pre ->];
    [now rewrite HP|].
  now exists pre.
Qed.

Lemma TimeOffset_UnmarshalText_error (to : TimeOffset) (data : string) (e : error) :
  snd (TimeOffset_UnmarshalText to data) = Some e ->
  (ends_with data "%" = true
   /\ exists k, e = wrapError "error parsing percentage offset: "
                      (NumError "ParseInt" (drop_last data) k))
  \/ (begins_with data "#" = true
      /\ exists k, e = wrapError "error parsing position offset: "
                         (NumError "ParseInt" (drop_first data) k))
  \/ snd (Duration_UnmarshalText (mkDuration 0) data) = Some e.
Proof.
  unfold TimeOffset_UnmarshalText.
  destruct (String.eqb data "start"); [discriminate|].
  destruct (String.eqb data "end"); [discriminate|].
  change "%" with (String "%" "") at 1 2.
  change "#" with (String "#" "") at 1 2.
  rewrite HasSuffix_byte, HasPrefix_byte.
  destruct (ends_with data "%") eqn:Hp.
  - rewrite TrimSuffix_byte by exact Hp.
    pose proof (ParseInt10_int8 (drop_last data)) as H.
    destruct (decimal_int8 (drop_last data)) as [p|].
    + rewrite H. discriminate.
    + destruct H as (v & k & ->). intros [= <-]. left. split; [reflexivity|].
      now exists k.
  - destruct (begins_with data "#") eqn:Hh.
    + rewrite TrimPrefix_byte by exact Hh.
      pose proof (ParseInt10_int8 (drop_first data)) as H.
      destruct (decimal_int8 (drop_first data)) as [p|].
      * rewrite H. discriminate.
      * destruct H as (v & k & ->). intros [= <-]. right. left.
        split; [reflexivity|]. now exists k.
    + destruct (Duration_UnmarshalText (mkDuration 0) data) as [d' err].
      intros H. right. right. exact H.
Qed.

(** ** Binary digits *)

Lemma digits2_pos_spec (p : positive) :
  2 ^ (Z.pos (digits2_pos p) - 1) <= Z.pos p < 2 ^ Z.pos (digits2_pos p).
Proof.
  induction p as [p IH|p IH|]; cbn [digits2_pos].
  - rewrite Pos2Z.inj_succ. replace (Z.succ (Z.pos (digits2_pos p)) - 1)
      with (Z.succ (Z.pos (digits2_pos p) - 1)) by lia.
    rewrite !Z.pow_succ_r by lia. lia.
  - rewrite Pos2Z.inj_succ. replace (Z.succ (Z.pos (digits2_pos p)) - 1)
      with (Z.succ (Z.pos (digits2_pos p) - 1)) by lia.
    rewrite !Z.pow_succ_r by lia. lia.
  - cbn. lia.
Qed.

Lemma Zdigits2_spec (z : Z) :
  0 < z -> 2 ^ (Zdigits2 z - 1) <= z < 2 ^ Zdigits2 z.
Proof.
  destruct z as [|p|p]; try lia. intros _. apply digits2_pos_spec.
Qed.

Lemma Zdigits2_pos (z : Z) : 0 < z -> 0 < Zdigits2 z.
Proof. destruct z; cbn; lia. Qed.

Lemma Zdigits2_unique (z k : Z) :
  2 ^ (k - 1) <= z < 2 ^ k -> 0 < k -> Zdigits2 z = k.
Proof.
  intros H Hk.
  assert (Hz : 0 < z) by (pose proof (Z.pow_pos_nonneg 2 (k - 1)); lia).
  pose proof (Zdigits2_spec z Hz) as Hd. pose proof (Zdigits2_pos z Hz) as Hp.
  destruct (Z.lt_trichotomy (Zdigits2 z) k) as [Hlt|[Heq|Hgt]]; [|exact Heq|].
  - assert (2 ^ Zdigits2 z <= 2 ^ (k - 1))
      by (apply Z.pow_le_mono_r; lia). lia.
  - assert (2 ^ k <= 2 ^ (Zdigits2 z - 1))
      by (apply Z.pow_le_mono_r; lia). lia.
Qed.

(** ** Shifting a mantissa to the right *)

Lemma shr_1_m (mrs : shr_record) :
  0 <= shr_m mrs -> shr_m (shr_1 mrs) = shr_m mrs / 2.
Proof.
  destruct mrs as [m r s]. cbn [shr_m]. intros H.
  destruct m as [|[p|p|]|p]; cbn [shr_1 shr_m]; try lia.
  - reflexivity.
  - apply Z.div_unique with 1; lia.
  - apply Z.div_unique with 0; lia.
  - reflexivity.
Qed.

Lemma iter_shr_1_m (p : positive) (mrs : shr_record) :
  0 <= shr_m mrs ->
  shr_m (iter_pos shr_1 p mrs) = shr_m mrs / 2 ^ Z.pos p.
Proof.
  revert mrs. induction p as [p IH|p IH|]; intros mrs H; cbn [iter_pos].
  - assert (H1 : 0 <= shr_m (shr_1 mrs))
      by (rewrite shr_1_m by exact H; apply Z.div_pos; lia).
    assert (H2 : 0 <= shr_m (iter_pos shr_1 p (shr_1 mrs)))
      by (rewrite IH by exact H1; apply Z.div_pos;
          [exact H1|apply Z.pow_pos_nonneg; lia]).
    rewrite IH by exact H2. rewrite IH by exact H1. rewrite shr_1_m by exact H.
    rewrite !Z.div_div by (try apply Z.pow_pos_nonneg; lia).
    f_equal. replace (Z.pos p~1) with (1 + Z.pos p + Z.pos p) by lia.
    rewrite !Z.pow_add_r by lia. rewrite Z.pow_1_r. ring.
  - assert (H2 : 0 <= shr_m (iter_pos shr_1 p mrs))
      by (rewrite IH by exact H; apply Z.div_pos;
          [exact H|apply Z.pow_pos_nonneg; lia]).
    rewrite IH by exact H2. rewrite IH by exact H.
    rewrite !Z.div_div by (try apply Z.pow_pos_nonneg; lia).
    f_equal. replace (Z.pos p~0) with (Z.pos p + Z.pos p) by lia.
    now rewrite Z.pow_add_r by lia.
  - rewrite shr_1_m by exact H. now rewrite Z.pow_1_r.
Qed.

Lemma shr_spec (mrs : shr_record) (e n : Z) :
  0 <= shr_m mrs -> 0 <= n ->
  shr_m (fst (shr mrs e n)) = shr_m mrs / 2 ^ n /\ snd (shr mrs e n) = e + n.
Proof.
  intros Hm Hn. destruct n as [|p|p]; cbn [shr fst snd]; try lia.
  - rewrite Z.pow_0_r, Z.div_1_r. split; [reflexivity|lia].
  - split; [now apply iter_shr_1_m|reflexivity].
Qed.

Lemma shr_record_of_loc_m (m : Z) (l : location) :
  shr_m (shr_record_of_loc m l) = m.
Proof. destruct l as [|[| |]]; reflexivity. Qed.

Lemma round_nearest_even_cases (m : Z) (l : location) :
  round_nearest_even m l = m \/ round_nearest_even m l = m + 1.
Proof.
  destruct l as [|[| |]]; cbn [round_nearest_even]; auto.
  destruct (Z.even m); auto.
Qed.

(** ** Rounding a mantissa of at least 53 bits to binary64 *)

Lemma pow2_split (a b : Z) : 0 <= a -> 0 <= b -> 2 ^ (a + b) = 2 ^ a * 2 ^ b.
Proof. intros. now apply Z.pow_add_r. Qed.

Lemma pow2_pos (a : Z) : 0 <= a -> 0 < 2 ^ a.
Proof. intros. apply Z.pow_pos_nonneg; lia. Qed.

Lemma binary_round_aux_normal (mx : positive) (ex : Z) (lx : location) :
  let D := Z.pos (digits2_pos mx) in
  53 <= D -> -1074 <= ex -> ex + D <= 1023 ->
  exists m e,
    binary_round_aux 53 1024 false (Z.pos mx) ex lx = S754_finite false m e
    /\ 2 ^ 52 <= Z.pos m < 2 ^ 53
    /\ ex + D - 53 <= e <= ex + D - 52
    /\ (Z.pos m * 2 ^ (e - (ex + D - 53)) = Z.pos mx / 2 ^ (D - 53)
        \/ Z.pos m * 2 ^ (e - (ex + D - 53)) = Z.pos mx / 2 ^ (D - 53) + 1)
    /\ (lx = loc_Exact -> D = 53 -> m = mx /\ e = ex).
Proof.
  intros D HD Hex Hmax.
  pose proof (digits2_pos_spec mx) as Hmx. fold D in Hmx.
  assert (H52 : 2 ^ 52 <= Z.pos mx / 2 ^ (D - 53) < 2 ^ 53).
  { pose proof (pow2_pos (D - 53) ltac:(lia)) as Hp. split.
    - apply Z.div_le_lower_bound; [exact Hp|].
      rewrite <- pow2_split by lia. replace (D - 53 + 52) with (D - 1) by lia.
      apply Hmx.
    - apply Z.div_lt_upper_bound; [exact Hp|].
      rewrite <- pow2_split by lia. replace (D - 53 + 53) with D by lia.
      apply Hmx. }
  unfold binary_round_aux, shr_fexp.
  assert (Hf : fexp 53 1024 (Zdigits2 (Z.pos mx) + ex) - ex = D - 53)
    by (unfold fexp, emin; cbn [Zdigits2]; fold D; lia).
  rewrite Hf.
  destruct (shr_spec (shr_record_of_loc (Z.pos mx) lx) ex (D - 53))
    as [Hm He]; [rewrite shr_record_of_loc_m; lia|lia|].
  rewrite shr_record_of_loc_m in Hm.
  assert (Hexact : lx = loc_Exact -> D = 53 ->
            fst (shr (shr_record_of_loc (Z.pos mx) lx) ex (D - 53))
            = Build_shr_record (Z.pos mx) false false).
  { intros -> ->. reflexivity. }
  destruct (shr (shr_record_of_loc (Z.pos mx) lx) ex (D - 53)) as [mrs' e'].
  cbn [fst snd] in Hm, He, Hexact. subst e'.
  set (m1 := round_nearest_even (shr_m mrs') (loc_of_shr_record mrs')).
  assert (Hm1 : m1 = Z.pos mx / 2 ^ (D - 53) \/ m1 = Z.pos mx / 2 ^ (D - 53) + 1)
    by (unfold m1; rewrite <- Hm; apply round_nearest_even_cases).
  assert (Hm1x : lx = loc_Exact -> D = 53 -> m1 = Z.pos mx)
    by (intros E1 E2; unfold m1; now rewrite (Hexact E1 E2)).
  clearbody m1. clear Hexact Hm mrs' Hf.
  assert (Hcase : m1 < 2 ^ 53 \/ m1 = 2 ^ 53) by lia.
  destruct Hcase as [Hlt|Heq].
  - assert (Hd : Zdigits2 m1 = 53) by (apply Zdigits2_unique; lia).
    assert (Hf : fexp 53 1024 (Zdigits2 m1 + (ex + (D - 53))) - (ex + (D - 53))
                 = 0) by (rewrite Hd; unfold fexp, emin; lia).
    rewrite Hf. cbn [shr shr_record_of_loc shr_m].
    destruct m1 as [|m|m]; try lia.
    replace (ex + (D - 53) <=? 1024 - 53) with true
      by (symmetry; apply Z.leb_le; lia).
    exists m, (ex + (D - 53)). split; [reflexivity|].
    split; [lia|]. split; [lia|].
    replace (ex + (D - 53) - (ex + D - 53)) with 0 by lia.
    rewrite Z.pow_0_r, Z.mul_1_r. split; [exact Hm1|].
    intros E1 E2. specialize (Hm1x E1 E2). split; [congruence|lia].
  - assert (Hd : Zdigits2 m1 = 54)
      by (apply Zdigits2_unique; [|lia]; subst m1;
          change (54 - 1) with 53; change (2 ^ 54) with (2 * 2 ^ 53); lia).
    assert (Hf : fexp 53 1024 (Zdigits2 m1 + (ex + (D - 53))) - (ex + (D - 53))
                 = 1) by (rewrite Hd; unfold fexp, emin; lia).
    rewrite Hf. subst m1. cbn [shr shr_record_of_loc iter_pos].
    change (shr_m (shr_1 {| shr_m := 2 ^ 53; shr_r := false; shr_s := false |}))
      with (Z.pos (4503599627370496)).
    replace (ex + (D - 53) + 1 <=? 1024 - 53) with true
      by (symmetry; apply Z.leb_le; lia).
    exists 4503599627370496%positive, (ex + (D - 53) + 1).
    split; [reflexivity|]. split; [split; [reflexivity|reflexivity]|].
    split; [lia|].
    replace (ex + (D - 53) + 1 - (ex + D - 53)) with 1 by lia.
    split.
    + destruct Hm1 as [E|E]; [exfalso|right].
      * change (2 ^ 53) with 9007199254740992 in *. lia.
      * rewrite <- E. reflexivity.
    + intros E1 E2. specialize (Hm1x E1 E2).
      exfalso. rewrite E2 in Hmx. lia.
Qed.

Lemma iter_xO (p d : positive) :
  Z.pos (Pos.iter xO p d) = Z.pos p * 2 ^ Z.pos d.
Proof.
  induction d as [|d IH] using Pos.peano_ind.
  - cbn [Pos.iter]. rewrite Z.pow_1_r. lia.
  - rewrite Pos.iter_succ, Pos2Z.inj_xO, IH, Pos2Z.inj_succ, Z.pow_succ_r by lia.
    ring.
Qed.

Lemma shl_align_spec (mx : positive) (ex ex' : Z) :
  snd (shl_align mx ex ex') = Z.min ex ex'
  /\ Z.pos (fst (shl_align mx ex ex'))
     = Z.pos mx * 2 ^ (ex - Z.min ex ex').
Proof.
  unfold shl_align. destruct (ex' - ex) as [|d|d] eqn:E; cbn [fst snd].
  - replace (Z.min ex ex') with ex by lia.
    rewrite Z.sub_diag, Z.pow_0_r. lia.
  - replace (Z.min ex ex') with ex by lia.
    rewrite Z.sub_diag, Z.pow_0_r. lia.
  - replace (Z.min ex ex') with ex' by lia. split; [reflexivity|].
    rewrite iter_xO. f_equal. f_equal. lia.
Qed.

(** An integer below [2^53] converts exactly, to a normal number. *)
Lemma of_Z_normal (n : Z) :
  0 < n < 2 ^ 53 ->
  exists m,
    f64.of_Z n = S754_finite false m (Zdigits2 n - 53)
    /\ Z.pos m = n * 2 ^ (53 - Zdigits2 n)
    /\ 2 ^ 52 <= Z.pos m < 2 ^ 53.
Proof.
  intros Hn. destruct n as [|p|p]; try lia.
  pose proof (digits2_pos_spec p) as Hp.
  cbn [Zdigits2]. set (D := Z.pos (digits2_pos p)) in *.
  assert (HD : 0 < D <= 53).
  { split; [unfold D; lia|].
    destruct (Z.le_gt_cases D 53) as [|Hgt]; [assumption|].
    assert (2 ^ 53 <= 2 ^ (D - 1)) by (apply Z.pow_le_mono_r; lia). lia. }
  unfold f64.of_Z, binary_normalize, binary_round.
  assert (Hf : fexp f64.prec f64.emax (Z.pos (digits2_pos p) + 0) = D - 53)
    by (unfold fexp, emin, f64.prec, f64.emax; fold D; lia).
  rewrite Hf.
  destruct (shl_align_spec p 0 (D - 53)) as [He Hm].
  destruct (shl_align p 0 (D - 53)) as [mz ez]. cbn [fst snd] in He, Hm.
  replace (Z.min 0 (D - 53)) with (D - 53) in * by lia. subst ez.
  replace (0 - (D - 53)) with (53 - D) in Hm by lia.
  assert (Hmz : 2 ^ 52 <= Z.pos mz < 2 ^ 53).
  { rewrite Hm. split.
    - replace 52 with ((D - 1) + (53 - D)) by lia.
      rewrite pow2_split by lia.
      apply Z.mul_le_mono_nonneg_r; [pose proof (pow2_pos (53 - D)); lia|lia].
    - replace 53 with (D + (53 - D)) at 2 by lia.
      rewrite pow2_split by lia.
      apply Z.mul_lt_mono_pos_r; [apply pow2_pos; lia|lia]. }
  assert (Hdz : Z.pos (digits2_pos mz) = 53)
    by (apply (Zdigits2_unique (Z.pos mz) 53); [exact Hmz|lia]).
  pose proof (binary_round_aux_normal mz (D - 53) loc_Exact) as HR.
  cbv zeta in HR. rewrite Hdz in HR.
  destruct (HR ltac:(lia) ltac:(lia) ltac:(lia))
    as (m & e & Hr & _ & _ & _ & Hx).
  destruct (Hx eq_refl eq_refl) as [-> ->].
  exists mz. unfold f64.prec, f64.emax. rewrite Hr.
  split; [reflexivity|]. split; [exact Hm|exact Hmz].
Qed.

(** The quotient of two normal numbers: what the rounding can add to
    the integer quotient of the mantissas. *)
Lemma div_normal (ma mb : positive) (ea eb : Z) :
  2 ^ 52 <= Z.pos ma < 2 ^ 53 -> 2 ^ 52 <= Z.pos mb < 2 ^ 53 ->
  -900 <= ea - eb <= 900 ->
  exists m e,
    f64.div (S754_finite false ma ea) (S754_finite false mb eb)
    = S754_finite false m e
    /\ 2 ^ 52 <= Z.pos m < 2 ^ 53
    /\ ea - eb - 53 <= e <= ea - eb - 51
    /\ Z.pos m * 2 ^ (e - (ea - eb - 53)) <= Z.pos ma * 2 ^ 53 / Z.pos mb + 2.
Proof.
  intros Ha Hb He.
  assert (Hda : Zdigits2 (Z.pos ma) = 53) by (apply Zdigits2_unique; lia).
  assert (Hdb : Zdigits2 (Z.pos mb) = 53) by (apply Zdigits2_unique; lia).
  unfold f64.div, SFdiv, SFdiv_core_binary. cbn [xorb].
  rewrite Hda, Hdb.
  assert (Hf : Z.min (fexp f64.prec f64.emax (53 + ea - (53 + eb))) (ea - eb)
               = ea - eb - 53)
    by (unfold fexp, emin, f64.prec, f64.emax; lia).
  rewrite Hf. replace (ea - eb - (ea - eb - 53)) with 53 by lia.
  cbv iota. rewrite Z.shiftl_mul_pow2 by lia.
  set (q := Z.pos ma * 2 ^ 53 / Z.pos mb).
  assert (Hq : 2 ^ 52 <= q < 2 ^ 54).
  { unfold q. split.
    - apply Z.div_le_lower_bound; [lia|].
      change (2 ^ 53) with 9007199254740992 in *.
      change (2 ^ 52) with 4503599627370496 in *. lia.
    - apply Z.div_lt_upper_bound; [lia|].
      change (2 ^ 54) with 18014398509481984.
      change (2 ^ 53) with 9007199254740992 in *.
      change (2 ^ 52) with 4503599627370496 in *. lia. }
  assert (Hdiv : fst (Z.div_eucl (Z.pos ma * 2 ^ 53) (Z.pos mb)) = q)
    by reflexivity.
  destruct (Z.div_eucl (Z.pos ma * 2 ^ 53) (Z.pos mb)) as [q' r].
  cbn [fst] in Hdiv. subst q'.
  destruct q as [|pq|pq] eqn:Eq;
    try (change (2 ^ 52) with 4503599627370496 in Hq; lia).
  pose proof (digits2_pos_spec pq) as Hdq.
  set (D := Z.pos (digits2_pos pq)) in *.
  assert (HD : D = 53 \/ D = 54).
  { assert (52 < D).
    { destruct (Z.le_gt_cases D 52) as [Hle|]; [|assumption].
      assert (2 ^ D <= 2 ^ 52) by (apply Z.pow_le_mono_r; unfold D; lia). lia. }
    assert (D < 55).
    { destruct (Z.le_gt_cases 55 D) as [Hle|]; [|assumption].
      assert (2 ^ 54 <= 2 ^ (D - 1)) by (apply Z.pow_le_mono_r; lia). lia. }
    lia. }
  pose proof (binary_round_aux_normal pq (ea - eb - 53)
                (new_location (Z.pos mb) r)) as HR.
  cbv zeta in HR. fold D in HR.
  destruct (HR ltac:(lia) ltac:(lia) ltac:(lia))
    as (m & e & Hr & Hm & Hee & Hv & _).
  exists m, e. unfold f64.prec, f64.emax. rewrite Hr.
  split; [reflexivity|]. split; [exact Hm|]. split; [lia|].
  fold D in Hv. rewrite <- Eq in *.
  destruct HD as [HD|HD]; rewrite HD in *.
  - replace (ea - eb - 53 + 53 - 53) with (ea - eb - 53) in Hv by lia.
    change (53 - 53) with 0 in Hv. rewrite Z.pow_0_r, Z.div_1_r in Hv. lia.
  - replace (ea - eb - 53 + 54 - 53) with (ea - eb - 53 + 1) in Hv by lia.
    change (54 - 53) with 1 in Hv. rewrite Z.pow_1_r in Hv.
    replace (e - (ea - eb - 53)) with (e - (ea - eb - 53 + 1) + 1) by lia.
    rewrite pow2_split, Z.pow_1_r by lia.
    pose proof (Z.mul_div_le q 2 ltac:(lia)). lia.
Qed.

(** The sum of a positive integer and a fraction that stays away from
    one: the integer part of the rounded sum is the integer. *)
Lemma add_count_fraction (mh m : positive) (e1 e count j : Z) :
  2 ^ 52 <= Z.pos mh < 2 ^ 53 -> 2 ^ 52 <= Z.pos m < 2 ^ 53 ->
  Z.pos mh = count * 2 ^ (- e1) -> -52 <= e1 <= - j - 1 -> 1 <= j ->
  -200 <= e <= -1 ->
  Z.pos m * 2 ^ j <= (2 ^ j - 1) * 2 ^ (- e) ->
  float_to_int (f64.add (S754_finite false mh e1) (S754_finite false m e))
  = count.
Proof.
  intros Hmh Hm Hc He1 Hj He Hb.
  pose proof (pow2_pos j ltac:(lia)) as Pj.
  pose proof (pow2_pos (- e) ltac:(lia)) as Pe.
  pose proof (pow2_pos (- e1) ltac:(lia)) as Pe1.
  (* the fraction is below one, so its exponent is below the integer's *)
  assert (Hm1 : Z.pos m < 2 ^ (- e)).
  { apply (Z.mul_lt_mono_pos_r (2 ^ j)); [exact Pj|]. lia. }
  assert (He53 : e <= -53).
  { destruct (Z.le_gt_cases e (-53)) as [|Hgt]; [assumption|].
    assert (2 ^ (- e) <= 2 ^ 52) by (apply Z.pow_le_mono_r; lia). lia. }
  set (n := e1 - e).
  assert (Hn : 1 <= n) by (unfold n; lia).
  pose proof (pow2_pos n ltac:(lia)) as Pn.
  assert (Een : 2 ^ (- e) = 2 ^ (- e1) * 2 ^ n)
    by (rewrite <- pow2_split by lia; f_equal; unfold n; lia).
  assert (Hcount : 1 <= count) by nia.
  (* the mantissa of the integer stops one unit of the integer short of 2^53 *)
  assert (Hmh' : Z.pos mh + 2 ^ (- e1) <= 2 ^ 53).
  { assert (E53 : 2 ^ 53 = 2 ^ (53 + e1) * 2 ^ (- e1))
      by (rewrite <- pow2_split by lia; f_equal; lia).
    assert (count < 2 ^ (53 + e1)) by nia. nia. }
  (* the fraction stays [2^n] below one *)
  assert (Hgap : Z.pos m + 2 ^ n < 2 ^ (- e)).
  { assert (Ej : 2 ^ (- e) = 2 ^ (- e - j) * 2 ^ j)
      by (rewrite <- pow2_split by lia; f_equal; lia).
    assert (2 ^ n < 2 ^ (- e - j)) by (apply Z.pow_lt_mono_r; unfold n; lia).
    nia. }
  unfold f64.add, SFadd. cbn [cond_Zopp].
  replace (Z.min e1 e) with e by lia.
  destruct (shl_align_spec mh e1 e) as [_ H1].
  destruct (shl_align_spec m e e) as [_ H2].
  replace (Z.min e1 e) with e in H1 by lia. fold n in H1.
  rewrite Z.min_id, Z.sub_diag, Z.pow_0_r, Z.mul_1_r in H2.
  rewrite H1, H2.
  set (S := Z.pos mh * 2 ^ n + Z.pos m).
  assert (HS : 2 ^ (52 + n) <= S < 2 ^ (53 + n)).
  { rewrite !pow2_split by lia. unfold S.
    assert (L : 2 ^ 52 * 2 ^ n <= Z.pos mh * 2 ^ n)
      by (apply Z.mul_le_mono_nonneg_r; lia).
    assert (R : (Z.pos mh + 2 ^ (- e1)) * 2 ^ n <= 2 ^ 53 * 2 ^ n)
      by (apply Z.mul_le_mono_nonneg_r; lia).
    rewrite Z.mul_add_distr_r, <- Een in R. lia. }
  assert (HD : Zdigits2 S = 53 + n).
  { apply Zdigits2_unique; [|lia].
    replace (53 + n - 1) with (52 + n) by lia. exact HS. }
  destruct S as [|pS|pS] eqn:ES; try lia.
  cbn [Zdigits2] in HD.
  unfold binary_normalize, binary_round.
  assert (Hf : fexp f64.prec f64.emax (Z.pos (digits2_pos pS) + e) = e1)
    by (rewrite HD; unfold fexp, emin, f64.prec, f64.emax, n; lia).
  rewrite Hf.
  destruct (shl_align_spec pS e e1) as [H3 H4].
  destruct (shl_align pS e e1) as [mz ez]. cbn [fst snd] in H3, H4.
  replace (Z.min e e1) with e in * by lia. subst ez.
  rewrite Z.sub_diag, Z.pow_0_r, Z.mul_1_r in H4.
  injection H4 as ->.
  pose proof (binary_round_aux_normal pS e loc_Exact) as HR.
  cbv zeta in HR. rewrite HD in HR.
  destruct (HR ltac:(lia) ltac:(lia) ltac:(lia))
    as (m3 & e3 & Hr & Hm3 & He3 & Hv & _).
  unfold f64.prec, f64.emax. rewrite Hr.
  replace (e + (53 + n) - 53) with e1 in * by (unfold n; lia).
  replace (53 + n - 53) with n in Hv by lia.
  rewrite <- ES in Hv. unfold S in Hv.
  rewrite Z.div_add_l in Hv by lia.
  set (t := Z.pos m / 2 ^ n) in *.
  assert (Ht : 0 <= t /\ t + 1 < 2 ^ (- e1)).
  { unfold t. split; [apply Z.div_pos; lia|].
    assert (Z.pos m / 2 ^ n < 2 ^ (- e1) - 1); [|lia].
    apply Z.div_lt_upper_bound; [lia|].
    rewrite Z.mul_sub_distr_l, Z.mul_1_r, (Z.mul_comm (2 ^ n)), <- Een. lia. }
  unfold float_to_int, float_trunc. cbn [cond_Zopp].
  replace (0 <=? e3) with false by (symmetry; apply Z.leb_gt; lia).
  set (w := e3 - e1) in *.
  assert (Hw : w = 0 \/ w = 1) by (unfold w; lia).
  assert (Ev : Z.pos m3 / 2 ^ (- e3) = count).
  { assert (E3 : 2 ^ (- e1) = 2 ^ (- e3) * 2 ^ w)
      by (rewrite <- pow2_split by (unfold w; lia); f_equal; unfold w; lia).
    pose proof (pow2_pos (- e3) ltac:(lia)) as Pe3.
    pose proof (pow2_pos w ltac:(lia)) as Pw.
    rewrite <- (Z.div_mul_cancel_r _ _ (2 ^ w)) by lia.
    rewrite <- E3.
    set (t' := Z.pos m3 * 2 ^ w - Z.pos mh).
    replace (Z.pos m3 * 2 ^ w) with (count * 2 ^ (- e1) + t')
      by (unfold t'; lia).
    rewrite Z.div_add_l by lia.
    rewrite Z.div_small by (unfold t'; lia). lia. }
  rewrite Ev.
  assert (count < 2 ^ 53).
  { assert (count * 1 <= count * 2 ^ (- e1))
      by (apply Z.mul_le_mono_nonneg_l; lia). lia. }
  replace ((- 2 ^ 63 <=? count) && (count <? 2 ^ 63)) with true; [reflexivity|].
  symmetry. apply andb_true_iff. rewrite Z.leb_le, Z.ltb_lt.
  change (2 ^ 53) with 9007199254740992 in *.
  change (2 ^ 63) with 9223372036854775808. lia.
Qed.

Lemma float_to_int_normal_integer (mh : positive) (e1 count : Z) :
  Z.pos mh = count * 2 ^ (- e1) -> e1 < 0 -> 0 <= count < 2 ^ 63 ->
  float_to_int (S754_finite false mh e1) = count.
Proof.
  intros Hc He Hr. unfold float_to_int, float_trunc. cbn [cond_Zopp].
  replace (0 <=? e1) with false by (symmetry; apply Z.leb_gt; lia).
  rewrite Hc, Z.div_mul by (pose proof (pow2_pos (- e1)); lia).
  replace ((- 2 ^ 63 <=? count) && (count <? 2 ^ 63)) with true; [reflexivity|].
  symmetry. apply andb_true_iff. rewrite Z.leb_le, Z.ltb_lt. lia.
Qed.

Lemma float_to_int_fraction (m : positive) (e : Z) :
  e < 0 -> Z.pos m < 2 ^ (- e) ->
  float_to_int (S754_finite false m e) = 0.
Proof.
  intros He Hm. unfold float_to_int, float_trunc. cbn [cond_Zopp].
  replace (0 <=? e) with false by (symmetry; apply Z.leb_gt; lia).
  rewrite Z.div_small by lia. reflexivity.
Qed.

Lemma ratio_bound_arith (m W U q nsec G KK E : Z) :
  0 < U -> 0 < W -> 0 < G -> 0 <= m -> 0 <= nsec -> 0 < E ->
  m * W <= q + 2 -> q * U <= nsec * KK -> nsec * G <= U * (G - 1) ->
  KK = E * W -> 4 * G <= KK ->
  m * (2 * G) <= (2 * G - 1) * E.
Proof.
  intros HU HW HG Hm Hn HE Hv Hq Hf -> HK.
  assert (H1 : m * W * U <= (q + 2) * U)
    by (apply Z.mul_le_mono_nonneg_r; lia).
  assert (H2 : m * W * U * G <= (nsec * (E * W) + 2 * U) * G)
    by (apply Z.mul_le_mono_nonneg_r; lia).
  assert (H3 : nsec * G * (E * W) <= U * (G - 1) * (E * W))
    by (apply Z.mul_le_mono_nonneg_r; [apply Z.mul_nonneg_nonneg|]; lia).
  assert (H4 : 4 * G * U <= E * W * U)
    by (apply Z.mul_le_mono_nonneg_r; lia).
  apply (Z.mul_le_mono_pos_r _ _ (U * W)); [apply Z.mul_pos_pos; lia|].
  lia.
Qed.

(** [int(float64(count) + float64(nsec) / float64(U))] is [count] when
    [nsec / U] stays [2^-g] below one and [count] has few enough bits:
    the shape of [Hours], [Minutes] and [Seconds]. *)
Lemma int_of_ratio (d U g : Z) :
  0 < U < 2 ^ 53 -> 0 <= d -> 1 <= g <= 50 ->
  d / U < 2 ^ (51 - g) ->
  (d mod U) * 2 ^ g <= U * (2 ^ g - 1) ->
  float_to_int (f64.add (f64.of_Z (d / U))
                        (f64.div (f64.of_Z (d mod U)) (f64.of_Z U)))
  = d / U.
Proof.
  intros HU Hd Hg Hcount Hfrac.
  set (count := d / U) in *. set (nsec := d mod U) in *.
  assert (Hc0 : 0 <= count) by (apply Z.div_pos; lia).
  assert (Hn0 : 0 <= nsec < U) by (apply Z.mod_pos_bound; lia).
  pose proof (pow2_pos g ltac:(lia)) as Pg.
  assert (Hc53 : count < 2 ^ 53).
  { assert (2 ^ (51 - g) <= 2 ^ 53) by (apply Z.pow_le_mono_r; lia). lia. }
  destruct (of_Z_normal U HU) as (mb & EU & HmbU & Hmb).
  (* the integer as a float *)
  assert (Hcf : count = 0 \/
            exists mh, f64.of_Z count = S754_finite false mh (Zdigits2 count - 53)
              /\ Z.pos mh = count * 2 ^ (- (Zdigits2 count - 53))
              /\ 2 ^ 52 <= Z.pos mh < 2 ^ 53
              /\ 0 < Zdigits2 count <= 51 - g).
  { destruct (Z.eq_dec count 0) as [|Hne]; [now left|right].
    destruct (of_Z_normal count ltac:(lia)) as (mh & E & Hv & Hn).
    exists mh. split; [exact E|].
    replace (- (Zdigits2 count - 53)) with (53 - Zdigits2 count) by lia.
    split; [exact Hv|]. split; [exact Hn|].
    pose proof (Zdigits2_spec count ltac:(lia)).
    pose proof (Zdigits2_pos count ltac:(lia)).
    split; [lia|].
    destruct (Z.le_gt_cases (Zdigits2 count) (51 - g)) as [|Hgt]; [assumption|].
    assert (2 ^ (51 - g) <= 2 ^ (Zdigits2 count - 1))
      by (apply Z.pow_le_mono_r; lia). lia. }
  destruct (Z.eq_dec nsec 0) as [Hz|Hnz].
  - (* no remainder: the quotient of zero is zero *)
    rewrite Hz, EU. change (f64.of_Z 0) with (S754_zero false).
    cbn [f64.div SFdiv xorb].
    destruct Hcf as [->|(mh & E & Hv & Hn & Hdc)]; [reflexivity|].
    rewrite E. cbn [f64.add SFadd].
    apply float_to_int_normal_integer; [exact Hv|lia|].
    change (2 ^ 53) with 9007199254740992 in *.
    change (2 ^ 63) with 9223372036854775808. lia.
  - destruct (of_Z_normal nsec ltac:(lia)) as (ma & EN & HmaN & Hma).
    rewrite EN, EU.
    set (dn := Zdigits2 nsec) in *. set (dU := Zdigits2 U) in *.
    pose proof (Zdigits2_spec nsec ltac:(lia)) as Sn. fold dn in Sn.
    pose proof (Zdigits2_spec U ltac:(lia)) as SU. fold dU in SU.
    pose proof (Zdigits2_pos nsec ltac:(lia)) as Pn. fold dn in Pn.
    assert (HdnU : dn <= dU).
    { destruct (Z.le_gt_cases dn dU) as [|Hgt]; [assumption|].
      assert (2 ^ dU <= 2 ^ (dn - 1)) by (apply Z.pow_le_mono_r; lia). lia. }
    assert (HdU : dU <= 53).
    { destruct (Z.le_gt_cases dU 53) as [|Hgt]; [assumption|].
      assert (2 ^ 53 <= 2 ^ (dU - 1)) by (apply Z.pow_le_mono_r; lia). lia. }
    destruct (div_normal ma mb (dn - 53) (dU - 53) Hma Hmb ltac:(lia))
      as (m & e & Ediv & Hm & He & Hv).
    rewrite Ediv.
    set (K := 53 + dU - dn).
    replace (dn - 53 - (dU - 53) - 53) with (- K) in * by (unfold K; lia).
    set (w := e - - K) in *.
    set (q := Z.pos ma * 2 ^ 53 / Z.pos mb) in *.
    pose proof (pow2_pos w ltac:(unfold w; lia)) as Pw.
    pose proof (pow2_pos K ltac:(unfold K; lia)) as PK.
    pose proof (pow2_pos (53 - dU) ltac:(lia)) as PU.
    (* the integer quotient of the mantissas is below the true quotient *)
    assert (HqU : q * U <= nsec * 2 ^ K).
    { assert (Hq : q * Z.pos mb <= Z.pos ma * 2 ^ 53)
        by (unfold q; rewrite Z.mul_comm; apply Z.mul_div_le; lia).
      rewrite HmbU, HmaN in Hq.
      assert (EK : 2 ^ (53 - dn) * 2 ^ 53 = 2 ^ K * 2 ^ (53 - dU))
        by (rewrite <- !pow2_split by (unfold K; lia); f_equal; unfold K; lia).
      apply (Z.mul_le_mono_pos_r _ _ (2 ^ (53 - dU))); [exact PU|].
      replace (nsec * 2 ^ K * 2 ^ (53 - dU))
        with (nsec * (2 ^ (53 - dn) * 2 ^ 53)) by (rewrite EK; ring).
      lia. }
    assert (Hbound : Z.pos m * 2 ^ (g + 1) <= (2 ^ (g + 1) - 1) * 2 ^ (- e)).
    { assert (EKw : 2 ^ K = 2 ^ (- e) * 2 ^ w)
        by (rewrite <- pow2_split by (unfold w, K in *; lia);
            f_equal; unfold w; lia).
      assert (Eg : 2 ^ (g + 1) = 2 * 2 ^ g)
        by (rewrite pow2_split, Z.pow_1_r by lia; ring).
      assert (HK : 2 ^ (g + 2) <= 2 ^ K)
        by (apply Z.pow_le_mono_r; unfold K; lia).
      assert (Eg2 : 2 ^ (g + 2) = 4 * 2 ^ g)
        by (rewrite pow2_split by lia; change (2 ^ 2) with 4; ring).
      pose proof (pow2_pos (- e) ltac:(unfold w, K in *; lia)) as Pe.
      rewrite Eg2 in HK. rewrite Eg.
      apply (ratio_bound_arith (Z.pos m) (2 ^ w) U q nsec (2 ^ g) (2 ^ K));
        try assumption; lia. }
    destruct Hcf as [->|(mh & E & Hvh & Hnh & Hdc)].
    + change (f64.of_Z 0) with (S754_zero false). cbn [f64.add SFadd].
      apply float_to_int_fraction; [unfold w, K in *; lia|].
      pose proof (pow2_pos (g + 1) ltac:(lia)) as Pg1.
      apply (Z.mul_lt_mono_pos_r (2 ^ (g + 1))); [exact Pg1|]. lia.
    + rewrite E.
      apply (add_count_fraction mh m _ e count (g + 1)); try assumption;
        unfold w, K in *; lia.
Qed.

(** ** Hours, Minutes and Seconds of a whole number of milliseconds *)

Lemma ms_remainder (ms k : Z) :
  0 < k -> (ms * 10 ^ 6) mod (k * 10 ^ 6) <= k * 10 ^ 6 - 10 ^ 6.
Proof.
  intros Hk. rewrite Z.mul_mod_distr_r by lia.
  pose proof (Z.mod_pos_bound ms k Hk). nia.
Qed.

Lemma ms_quotient (ms k : Z) :
  0 < k -> (ms * 10 ^ 6) / (k * 10 ^ 6) = ms / k.
Proof. intros Hk. apply Z.div_mul_cancel_r; lia. Qed.

Lemma Hours_int (ms : Z) :
  0 <= ms -> ms * 10 ^ 6 < 2 ^ 63 ->
  float_to_int (time.Hours (ms * 10 ^ 6)) = ms / 3600000.
Proof.
  intros H0 H63. unfold time.Hours.
  change time.Hour with (3600000 * 10 ^ 6).
  change (60 * 60 * 10 ^ 9) with (3600000 * 10 ^ 6).
  rewrite Z.quot_div_nonneg, Z.rem_mod_nonneg by lia.
  rewrite <- (ms_quotient ms 3600000) by lia.
  pose proof (ms_remainder ms 3600000 ltac:(lia)) as Hr.
  assert (Hq : ms * 10 ^ 6 / (3600000 * 10 ^ 6) < 2 ^ (51 - 22)).
  { apply Z.div_lt_upper_bound; [lia|].
    change (2 ^ 63) with 9223372036854775808 in H63.
    change (2 ^ (51 - 22)) with 536870912. lia. }
  apply (int_of_ratio _ _ 22); lia.
Qed.

Lemma Minutes_int (ms : Z) :
  0 <= ms -> ms * 10 ^ 6 < 2 ^ 63 ->
  float_to_int (time.Minutes (ms * 10 ^ 6)) = ms / 60000.
Proof.
  intros H0 H63. unfold time.Minutes.
  change time.Minute with (60000 * 10 ^ 6).
  change (60 * 10 ^ 9) with (60000 * 10 ^ 6).
  rewrite Z.quot_div_nonneg, Z.rem_mod_nonneg by lia.
  rewrite <- (ms_quotient ms 60000) by lia.
  pose proof (ms_remainder ms 60000 ltac:(lia)) as Hr.
  assert (Hq : ms * 10 ^ 6 / (60000 * 10 ^ 6) < 2 ^ (51 - 16)).
  { apply Z.div_lt_upper_bound; [lia|].
    change (2 ^ 63) with 9223372036854775808 in H63.
    change (2 ^ (51 - 16)) with 34359738368. lia. }
  apply (int_of_ratio _ _ 16); lia.
Qed.

Lemma Seconds_int (ms : Z) :
  0 <= ms -> ms * 10 ^ 6 < 2 ^ 63 ->
  float_to_int (time.Seconds (ms * 10 ^ 6)) = ms / 1000.
Proof.
  intros H0 H63. unfold time.Seconds.
  change time.Second with (1000 * 10 ^ 6).
  change (10 ^ 9) with (1000 * 10 ^ 6).
  rewrite Z.quot_div_nonneg, Z.rem_mod_nonneg by lia.
  rewrite <- (ms_quotient ms 1000) by lia.
  pose proof (ms_remainder ms 1000 ltac:(lia)) as Hr.
  assert (Hq : ms * 10 ^ 6 / (1000 * 10 ^ 6) < 2 ^ (51 - 10)).
  { apply Z.div_lt_upper_bound; [lia|].
    change (2 ^ 63) with 9223372036854775808 in H63.
    change (2 ^ (51 - 10)) with 2199023255552. lia. }
  apply (int_of_ratio _ _ 10); lia.
Qed.

(** ** fmt: the digits written are the number *)

Lemma utoa_fuel_spec (fuel : nat) (n : Z) :
  0 <= n < 2 ^ Z.of_nat fuel ->
  all_digits (fmt.utoa_fuel fuel n) = true
  /\ horner 0 (fmt.utoa_fuel fuel n) = n.
Proof.
  revert n. induction fuel as [|f IH]; intros n Hn.
  - cbn in Hn. assert (n = 0) by lia. subst. now split.
  - cbn [fmt.utoa_fuel]. destruct (Z.ltb_spec n 10) as [Hlt|Hge].
    + destruct (digit_char_digit n ltac:(lia)) as [Hd Hv].
      cbn [all_digits horner]. rewrite Hd, Hv. split; [reflexivity|lia].
    + rewrite Nat2Z.inj_succ, Z.pow_succ_r in Hn by lia.
      destruct (IH (n / 10)) as [Hd Hv].
      { split; [apply Z.div_pos; lia|].
        apply Z.div_lt_upper_bound; lia. }
      destruct (digit_char_digit (n mod 10)) as [Hd' Hv'];
        [pose proof (Z.mod_pos_bound n 10); lia|].
      rewrite all_digits_app, horner_app, Hd, Hv.
      cbn [all_digits horner]. rewrite Hd', Hv'. split; [reflexivity|].
      pose proof (Z.div_mod n 10). lia.
Qed.

Lemma utoa_spec (n : Z) :
  0 <= n ->
  all_digits (fmt.utoa n) = true /\ horner 0 (fmt.utoa n) = n
  /\ fmt.utoa n <> "".
Proof.
  intros Hn. unfold fmt.utoa.
  destruct (utoa_fuel_spec (S (Z.to_nat (Z.log2 n))) n) as [Hd Hv].
  { split; [exact Hn|]. rewrite Nat2Z.inj_succ, Z2Nat.id by apply Z.log2_nonneg.
    destruct (Z.eq_dec n 0) as [->|Hne]; [reflexivity|].
    apply Z.log2_spec. lia. }
  split; [exact Hd|]. split; [exact Hv|].
  cbn [fmt.utoa_fuel]. destruct (n <? 10); [discriminate|].
  intros E. apply (f_equal String.length) in E.
  rewrite length_append in E. cbn [String.length] in E. lia.
Qed.

Lemma zeros_spec (k : nat) (a : Z) :
  all_digits (fmt.zeros k) = true /\ horner 0 (fmt.zeros k) = 0.
Proof.
  induction k as [|k [IH1 IH2]]; [now split|].
  cbn [fmt.zeros all_digits horner]. rewrite IH1. split; [reflexivity|].
  exact IH2.
Qed.

Lemma verb_0d_spec (w : nat) (n : Z) :
  0 <= n ->
  all_digits (fmt.verb_0d w n) = true /\ horner 0 (fmt.verb_0d w n) = n
  /\ fmt.verb_0d w n <> "".
Proof.
  intros Hn. unfold fmt.verb_0d, fmt.pad_zeros.
  replace (n <? 0) with false by (symmetry; apply Z.ltb_ge; lia).
  destruct (utoa_spec n Hn) as (Hd & Hv & Hne).
  destruct (zeros_spec (w - String.length (fmt.utoa n)) 0) as [Zd Zv].
  rewrite all_digits_app, horner_app, Zd, Zv, Hd, Hv.
  split; [reflexivity|]. split; [reflexivity|].
  intros E. apply (f_equal String.length) in E.
  rewrite length_append in E.
  destruct (fmt.utoa n); [congruence|cbn [String.length] in E; lia].
Qed.

(** ** A clock text of three or four digit fields *)

Lemma digit_not_sep (b : ascii) : is_digit b = true -> is_sep b = false.
Proof.
  intros H. apply is_digit_spec in H. unfold digit_val, is_sep in *.
  apply orb_false_iff. rewrite !Z.eqb_neq. lia.
Qed.

Lemma fields_digits (f : string) :
  all_digits f = true -> fields f = [f] /\ count_seps f = O.
Proof.
  induction f as [|b f IH]; [now split|]. cbn [all_digits fields count_seps].
  intros H. apply andb_true_iff in H as [Hb Hf].
  rewrite (digit_not_sep b Hb), Hb. destruct (IH Hf) as [-> ->]. now split.
Qed.

Lemma fields_digits_sep (f rest : string) (c : ascii) :
  all_digits f = true -> is_sep c = true ->
  fields (f ++ String c rest) = f :: fields rest
  /\ count_seps (f ++ String c rest) = S (count_seps rest).
Proof.
  intros Hf Hc. induction f as [|b f IH]; cbn [String.append fields count_seps].
  - rewrite Hc. now split.
  - cbn [all_digits] in Hf. apply andb_true_iff in Hf as [Hb Hf].
    rewrite (digit_not_sep b Hb), Hb. destruct (IH Hf) as [-> ->]. now split.
Qed.

Lemma rounds_field_ok (orig f : string) (cu : ascii) (t u rest : string)
      (d unit : Z) :
  f <> "" -> all_digits f = true ->
  is_digit cu = false -> time.is_dot cu = false ->
  time.span_unit (String cu t) = (u, rest) -> time.unitMap u = Some unit ->
  0 < unit -> horner 0 f <= 2 ^ 63 / unit ->
  0 <= d -> d + horner 0 f * unit <= 2 ^ 63 ->
  rounds orig (f ++ String cu t) d = rounds orig rest (d + horner 0 f * unit).
Proof.
  intros Hne Hf Hcu Hdot Hspan Hunit Hpos Hv Hd Hsum.
  pose proof (horner_mono f 0 ltac:(lia) Hf) as Hh.
  assert (E63 : 2 ^ 63 = 9223372036854775808) by reflexivity.
  assert (E64 : 2 ^ 64 = 18446744073709551616) by reflexivity.
  assert (Hvu : horner 0 f * unit <= 2 ^ 63).
  { pose proof (Z.mul_div_le (2 ^ 63) unit Hpos).
    assert (horner 0 f * unit <= 2 ^ 63 / unit * unit)
      by (apply Z.mul_le_mono_nonneg_r; lia). lia. }
  assert (Hh63 : horner 0 f <= 2 ^ 63).
  { assert (horner 0 f * 1 <= horner 0 f * unit)
      by (apply Z.mul_le_mono_nonneg_l; lia). lia. }
  rewrite rounds_unfold, ParseDuration_round_field by assumption.
  replace (horner 0 f <=? 2 ^ 63) with true by (symmetry; apply Z.leb_le; lia).
  rewrite Hspan, Hunit.
  replace (2 ^ 63 / unit <? horner 0 f) with false
    by (symmetry; apply Z.ltb_ge; lia).
  cbv zeta.
  assert (Hmul : 0 <= horner 0 f * unit) by (apply Z.mul_nonneg_nonneg; lia).
  rewrite (wrap_uint64_small (horner 0 f * unit)) by lia.
  rewrite wrap_uint64_small by lia.
  replace (2 ^ 63 <? d + horner 0 f * unit) with false
    by (symmetry; apply Z.ltb_ge; lia).
  reflexivity.
Qed.

Lemma rounds_hours (orig f rest : string) (d : Z) :
  f <> "" -> all_digits f = true -> unit_ends rest = true ->
  horner 0 f <= 2562047 ->
  0 <= d -> d + horner 0 f * 3600000000000 <= 9223372036854775808 ->
  rounds orig (f ++ String "h" rest) d
  = rounds orig rest (d + horner 0 f * 3600000000000).
Proof.
  intros Hne Hf Hr Hv Hd Hs.
  apply (rounds_field_ok orig f "h" rest "h" rest d 3600000000000);
    try assumption; try reflexivity.
  unit_letters. now rewrite span_unit_stop.
Qed.

Lemma rounds_minutes (orig f rest : string) (d : Z) :
  f <> "" -> all_digits f = true -> unit_ends rest = true ->
  horner 0 f <= 153722867 ->
  0 <= d -> d + horner 0 f * 60000000000 <= 9223372036854775808 ->
  rounds orig (f ++ String "m" rest) d
  = rounds orig rest (d + horner 0 f * 60000000000).
Proof.
  intros Hne Hf Hr Hv Hd Hs.
  apply (rounds_field_ok orig f "m" rest "m" rest d 60000000000);
    try assumption; try reflexivity.
  unit_letters. now rewrite span_unit_stop.
Qed.

Lemma rounds_seconds (orig f rest : string) (d : Z) :
  f <> "" -> all_digits f = true -> unit_ends rest = true ->
  horner 0 f <= 9223372036 ->
  0 <= d -> d + horner 0 f * 1000000000 <= 9223372036854775808 ->
  rounds orig (f ++ String "s" rest) d
  = rounds orig rest (d + horner 0 f * 1000000000).
Proof.
  intros Hne Hf Hr Hv Hd Hs.
  apply (rounds_field_ok orig f "s" rest "s" rest d 1000000000);
    try assumption; try reflexivity.
  unit_letters. now rewrite span_unit_stop.
Qed.

Lemma rounds_milliseconds (orig f rest : string) (d : Z) :
  f <> "" -> all_digits f = true -> unit_ends rest = true ->
  horner 0 f <= 9223372036854 ->
  0 <= d -> d + horner 0 f * 1000000 <= 9223372036854775808 ->
  rounds orig (f ++ String "m" (String "s" rest)) d
  = rounds orig rest (d + horner 0 f * 1000000).
Proof.
  intros Hne Hf Hr Hv Hd Hs.
  apply (rounds_field_ok orig f "m" (String "s" rest) "ms" rest d 1000000);
    try assumption; try reflexivity.
  unit_letters. now rewrite span_unit_stop.
Qed.

Lemma ParseDuration_field_start (f t : string) :
  f <> "" -> all_digits f = true -> t <> "" ->
  time.ParseDuration (f ++ t)
  = match rounds (f ++ t) (f ++ t) 0 with
    | Some (inl e) => (0, Some e)
    | Some (inr d) =>
        if 2 ^ 63 - 1 <? d then (0, Some (time.invalid (f ++ t)))
        else (d, None)
    | None => (0, Some (time.invalid (f ++ t)))
    end.
Proof.
  intros Hne Hf Ht. destruct f as [|c f]; [congruence|].
  cbn [all_digits] in Hf. apply andb_true_iff in Hf as [Hc _].
  cbn [String.append]. apply ParseDuration_digit_first; [exact Hc|].
  destruct f; [exact Ht|discriminate].
Qed.

(** Three fields: hours, minutes and seconds. *)
Lemma ParseDuration_clock3 (H M S : string) :
  all_digits H = true -> all_digits M = true -> all_digits S = true ->
  H <> "" -> M <> "" -> S <> "" ->
  horner 0 H <= 2562047 -> horner 0 M <= 153722867 ->
  horner 0 S <= 9223372036 ->
  horner 0 H * 3600000000000 + horner 0 M * 60000000000
    + horner 0 S * 1000000000 < 9223372036854775808 ->
  time.ParseDuration (unit_text 0 [H; M; S])
  = (horner 0 H * 3600000000000 + horner 0 M * 60000000000
       + horner 0 S * 1000000000, None).
Proof.
  intros dH dM dS nH nM nS vH vM vS Hsum.
  pose proof (horner_mono H 0 ltac:(lia) dH).
  pose proof (horner_mono M 0 ltac:(lia) dM).
  pose proof (horner_mono S 0 ltac:(lia) dS).
  cbn [unit_text nth formatStrings String.append].
  rewrite ParseDuration_field_start by (assumption || discriminate).
  set (orig := H ++ String "h" (M ++ String "m" (S ++ "s"))).
  unfold orig at 2.
  rewrite rounds_hours
    by first [assumption | lia | apply unit_ends_field; assumption].
  rewrite rounds_minutes
    by first [assumption | lia | apply unit_ends_field; assumption].
  rewrite rounds_seconds by first [assumption | lia | reflexivity].
  change (rounds orig "" ?d) with (Some (@inr error Z d)). cbv iota beta.
  match goal with
  | |- (if ?a <? ?b then _ else _) = _ =>
      replace (a <? b) with false
        by (symmetry; apply Z.ltb_ge;
            change (2 ^ 63 - 1) with 9223372036854775807; lia)
  end.
  f_equal; lia.
Qed.

(** Four fields: hours, minutes, seconds and milliseconds. *)
Lemma ParseDuration_clock4 (H M S F : string) :
  all_digits H = true -> all_digits M = true -> all_digits S = true ->
  all_digits F = true ->
  H <> "" -> M <> "" -> S <> "" -> F <> "" ->
  horner 0 H <= 2562047 -> horner 0 M <= 153722867 ->
  horner 0 S <= 9223372036 -> horner 0 F <= 9223372036854 ->
  horner 0 H * 3600000000000 + horner 0 M * 60000000000
    + horner 0 S * 1000000000 + horner 0 F * 1000000 < 9223372036854775808 ->
  time.ParseDuration (unit_text 0 [H; M; S; F])
  = (horner 0 H * 3600000000000 + horner 0 M * 60000000000
       + horner 0 S * 1000000000 + horner 0 F * 1000000, None).
Proof.
  intros dH dM dS dF nH nM nS nF vH vM vS vF Hsum.
  pose proof (horner_mono H 0 ltac:(lia) dH).
  pose proof (horner_mono M 0 ltac:(lia) dM).
  pose proof (horner_mono S 0 ltac:(lia) dS).
  pose proof (horner_mono F 0 ltac:(lia) dF).
  cbn [unit_text nth formatStrings String.append].
  rewrite ParseDuration_field_start by (assumption || discriminate).
  set (orig := H ++ String "h" (M ++ String "m" (S ++ String "s" (F ++ "ms")))).
  unfold orig at 2.
  rewrite rounds_hours
    by first [assumption | lia | apply unit_ends_field; assumption].
  rewrite rounds_minutes
    by first [assumption | lia | apply unit_ends_field; assumption].
  rewrite rounds_seconds
    by first [assumption | lia | apply unit_ends_field; assumption].
  rewrite rounds_milliseconds by first [assumption | lia | reflexivity].
  change (rounds orig "" ?d) with (Some (@inr error Z d)). cbv iota beta.
  match goal with
  | |- (if ?a <? ?b then _ else _) = _ =>
      replace (a <? b) with false
        by (symmetry; apply Z.ltb_ge;
            change (2 ^ 63 - 1) with 9223372036854775807; lia)
  end.
  f_equal; lia.
Qed.

Lemma Duration_UnmarshalText_clock3 (d0 : Duration) (H M S : string)
      (c1 c2 : ascii) :
  is_sep c1 = true -> is_sep c2 = true ->
  all_digits H = true -> all_digits M = true -> all_digits S = true ->
  H <> "" -> M <> "" -> S <> "" ->
  horner 0 H <= 2562047 -> horner 0 M <= 153722867 ->
  horner 0 S <= 9223372036 ->
  horner 0 H * 3600000000000 + horner 0 M * 60000000000
    + horner 0 S * 1000000000 < 9223372036854775808 ->
  Duration_UnmarshalText d0 (H ++ String c1 (M ++ String c2 S))
  = (mkDuration (horner 0 H * 3600000000000 + horner 0 M * 60000000000
                   + horner 0 S * 1000000000), None).
Proof.
  intros s1 s2 dH dM dS nH nM nS vH vM vS Hsum.
  rewrite Duration_UnmarshalText_eq.
  destruct (fields_digits S dS) as [F3 C3].
  destruct (fields_digits_sep M S c2 dM s2) as [F2 C2].
  destruct (fields_digits_sep H (M ++ String c2 S) c1 dH s1) as [F1 C1].
  rewrite C1, C2, C3, F1, F2, F3. cbn [Nat.ltb Nat.leb orb].
  now rewrite ParseDuration_clock3.
Qed.

Lemma Duration_UnmarshalText_clock4 (d0 : Duration) (H M S F : string)
      (c1 c2 c3 : ascii) :
  is_sep c1 = true -> is_sep c2 = true -> is_sep c3 = true ->
  all_digits H = true -> all_digits M = true -> all_digits S = true ->
  all_digits F = true ->
  H <> "" -> M <> "" -> S <> "" -> F <> "" ->
  horner 0 H <= 2562047 -> horner 0 M <= 153722867 ->
  horner 0 S <= 9223372036 -> horner 0 F <= 9223372036854 ->
  horner 0 H * 3600000000000 + horner 0 M * 60000000000
    + horner 0 S * 1000000000 + horner 0 F * 1000000 < 9223372036854775808 ->
  Duration_UnmarshalText d0
    (H ++ String c1 (M ++ String c2 (S ++ String c3 F)))
  = (mkDuration (horner 0 H * 3600000000000 + horner 0 M * 60000000000
                   + horner 0 S * 1000000000 + horner 0 F * 1000000), None).
Proof.
  intros s1 s2 s3 dH dM dS dF nH nM nS nF vH vM vS vF Hsum.
  rewrite Duration_UnmarshalText_eq.
  destruct (fields_digits F dF) as [F4 C4].
  destruct (fields_digits_sep S F c3 dS s3) as [F3 C3].
  destruct (fields_digits_sep M (S ++ String c3 F) c2 dM s2) as [F2 C2].
  destruct (fields_digits_sep H (M ++ String c2 (S ++ String c3 F)) c1 dH s1)
    as [F1 C1].
  rewrite C1, C2, C3, C4, F1, F2, F3, F4. cbn [Nat.ltb Nat.leb orb].
  now rewrite ParseDuration_clock4.
Qed.

(** [Duration.MarshalText] of a whole number of milliseconds. *)
Lemma Duration_MarshalText_ms (ms : Z) :
  0 < ms -> ms * 10 ^ 6 < 2 ^ 63 ->
  Duration_MarshalText (mkDuration (ms * 10 ^ 6))
  = (let sb := fmt.verb_0d 2 (ms / 3600000) ++ ":"
                 ++ fmt.verb_0d 2 ((ms / 60000) mod 60) ++ ":"
                 ++ fmt.verb_0d 2 ((ms / 1000) mod 60) in
     if 0 <? ms mod 1000
     then sb ++ "." ++ fmt.verb_0d 3 (ms mod 1000) else sb, None).
Proof.
  intros H0 H63. unfold Duration_MarshalText. cbn [Dur].
  replace (ms * 10 ^ 6 =? 0) with false by (symmetry; apply Z.eqb_neq; lia).
  rewrite Hours_int, Minutes_int, Seconds_int by lia.
  unfold time.Milliseconds. rewrite Z.quot_mul by lia.
  rewrite !Z.rem_mod_nonneg by (try apply Z.div_pos; lia).
  reflexivity.
Qed.

(** ** The percents of the 8-bit integers *)

Lemma percent_check_all (p : Z) : -128 <= p <= 127 -> percent_check p = true.
Proof.
  intros Hp.
  assert (H : forallb percent_check
                (map (fun n => Z.of_nat n - 128) (seq 0 256)) = true)
    by (vm_compute; reflexivity).
  rewrite forallb_forall in H. apply H. apply in_map_iff.
  exists (Z.to_nat (p + 128)). split; [lia|]. apply in_seq. lia.
Qed.

Lemma decimal_int8_range (s : string) (p : Z) :
  decimal_int8 s = Some p -> -128 <= p <= 127.
Proof.
  unfold decimal_int8. destruct (decimal_integer s) as [z|]; [|discriminate].
  destruct (Z.leb_spec (-128) z); destruct (Z.leb_spec z 127);
    cbn [andb]; try discriminate.
  intros [= <-]. lia.
Qed.

(** ** The decimal text of an integer *)

Lemma digit_not_sign (c : ascii) :
  is_digit c = true -> Ascii.eqb c "+" = false /\ Ascii.eqb c "-" = false.
Proof.
  intros H. apply is_digit_spec in H. unfold digit_val in H.
  split; apply Ascii.eqb_neq; intros ->; vm_compute in H; intuition congruence.
Qed.

Lemma verb_d_decimal (n : Z) : decimal_integer (fmt.verb_d n) = Some n.
Proof.
  unfold fmt.verb_d. destruct (Z.ltb_spec n 0) as [Hneg|Hpos].
  - destruct (utoa_spec (- n) ltac:(lia)) as (Hd & Hv & Hne).
    cbn [String.append decimal_integer]. change (Ascii.eqb "-" "+") with false.
    change (Ascii.eqb "-" "-") with true. cbv iota.
    unfold unsigned_decimal. destruct (fmt.utoa (- n)) as [|c s] eqn:E;
      [congruence|].
    rewrite Hd, Hv. cbn [option_map]. f_equal. lia.
  - destruct (utoa_spec n Hpos) as (Hd & Hv & Hne).
    destruct (fmt.utoa n) as [|c s] eqn:E; [congruence|].
    cbn [decimal_integer].
    assert (Hc : is_digit c = true)
      by (cbn [all_digits] in Hd; now apply andb_true_iff in Hd).
    destruct (digit_not_sign c Hc) as [-> ->].
    unfold unsigned_decimal. now rewrite Hd, Hv.
Qed.

(** ** The value of an accepted clock text *)

(** A round on a field and its unit that goes on took the field within
    the range of the unit and added it. *)
Lemma rounds_field_inv (orig f : string) (cu : ascii) (t u rest : string)
      (d unit r : Z) :
  f <> "" -> all_digits f = true ->
  is_digit cu = false -> time.is_dot cu = false ->
  time.span_unit (String cu t) = (u, rest) -> time.unitMap u = Some unit ->
  0 < unit -> 0 <= d < 2 ^ 63 ->
  rounds orig (f ++ String cu t) d = Some (inr r) ->
  horner 0 f <= 2 ^ 63 / unit /\ d + horner 0 f * unit <= 2 ^ 63
  /\ rounds orig rest (d + horner 0 f * unit) = Some (inr r).
Proof.
  intros Hne Hf Hcu Hdot Hspan Hunit Hpos Hd.
  pose proof (horner_mono f 0 ltac:(lia) Hf) as Hh.
  assert (E63 : 2 ^ 63 = 9223372036854775808) by reflexivity.
  assert (E64 : 2 ^ 64 = 18446744073709551616) by reflexivity.
  rewrite rounds_unfold, ParseDuration_round_field by assumption.
  destruct (Z.leb_spec (horner 0 f) (2 ^ 63)) as [H63|]; [|discriminate].
  rewrite Hspan, Hunit.
  destruct (Z.ltb_spec (2 ^ 63 / unit) (horner 0 f)) as [|Hvu];
    [discriminate|].
  assert (Hprod : 0 <= horner 0 f * unit <= 2 ^ 63).
  { split; [apply Z.mul_nonneg_nonneg; lia|].
    pose proof (Z.mul_div_le (2 ^ 63) unit Hpos).
    assert (horner 0 f * unit <= 2 ^ 63 / unit * unit)
      by (apply Z.mul_le_mono_nonneg_r; lia). lia. }
  cbv zeta. rewrite (wrap_uint64_small (horner 0 f * unit)) by lia.
  rewrite wrap_uint64_small by lia.
  destruct (Z.ltb_spec (2 ^ 63) (d + horner 0 f * unit)) as [|Hsum];
    [discriminate|].
  intros H. split; [exact Hvu|]. split; [exact Hsum|exact H].
Qed.

Lemma rounds_hours_inv (orig f rest : string) (d r : Z) :
  f <> "" -> all_digits f = true -> unit_ends rest = true ->
  0 <= d < 9223372036854775808 ->
  rounds orig (f ++ String "h" rest) d = Some (inr r) ->
  horner 0 f <= 2562047
  /\ d + horner 0 f * 3600000000000 <= 9223372036854775808
  /\ rounds orig rest (d + horner 0 f * 3600000000000) = Some (inr r).
Proof.
  intros Hne Hf Hr Hd H.
  apply (rounds_field_inv orig f "h" rest "h" rest d 3600000000000 r);
    try assumption; try reflexivity.
  unit_letters. now rewrite span_unit_stop.
Qed.

Lemma rounds_minutes_inv (orig f rest : string) (d r : Z) :
  f <> "" -> all_digits f = true -> unit_ends rest = true ->
  0 <= d < 9223372036854775808 ->
  rounds orig (f ++ String "m" rest) d = Some (inr r) ->
  horner 0 f <= 153722867
  /\ d + horner 0 f * 60000000000 <= 9223372036854775808
  /\ rounds orig rest (d + horner 0 f * 60000000000) = Some (inr r).
Proof.
  intros Hne Hf Hr Hd H.
  apply (rounds_field_inv orig f "m" rest "m" rest d 60000000000 r);
    try assumption; try reflexivity.
  unit_letters. now rewrite span_unit_stop.
Qed.

Lemma rounds_seconds_inv (orig f rest : string) (d r : Z) :
  f <> "" -> all_digits f = true -> unit_ends rest = true ->
  0 <= d < 9223372036854775808 ->
  rounds orig (f ++ String "s" rest) d = Some (inr r) ->
  horner 0 f <= 9223372036
  /\ d + horner 0 f * 1000000000 <= 9223372036854775808
  /\ rounds orig rest (d + horner 0 f * 1000000000) = Some (inr r).
Proof.
  intros Hne Hf Hr Hd H.
  apply (rounds_field_inv orig f "s" rest "s" rest d 1000000000 r);
    try assumption; try reflexivity.
  unit_letters. now rewrite span_unit_stop.
Qed.

Lemma rounds_milliseconds_inv (orig f rest : string) (d r : Z) :
  f <> "" -> all_digits f = true -> unit_ends rest = true ->
  0 <= d < 9223372036854775808 ->
  rounds orig (f ++ String "m" (String "s" rest)) d = Some (inr r) ->
  horner 0 f <= 9223372036854
  /\ d + horner 0 f * 1000000 <= 9223372036854775808
  /\ rounds orig rest (d + horner 0 f * 1000000) = Some (inr r).
Proof.
  intros Hne Hf Hr Hd H.
  apply (rounds_field_inv orig f "m" (String "s" rest) "ms" rest d 1000000 r);
    try assumption; try reflexivity.
  unit_letters. now rewrite span_unit_stop.
Qed.

(** Three fields that [time.ParseDuration] takes are within range and
    count hours, minutes and seconds. *)
Lemma ParseDuration_clock3_value (H M S : string) (r : Z) :
  all_digits H = true -> all_digits M = true -> all_digits S = true ->
  H <> "" -> M <> "" -> S <> "" ->
  time.ParseDuration (unit_text 0 [H; M; S]) = (r, None) ->
  r = horner 0 H * 3600000000000 + horner 0 M * 60000000000
      + horner 0 S * 1000000000.
Proof.
  intros dH dM dS nH nM nS.
  pose proof (horner_mono H 0 ltac:(lia) dH).
  pose proof (horner_mono M 0 ltac:(lia) dM).
  pose proof (horner_mono S 0 ltac:(lia) dS).
  cbn [unit_text nth formatStrings String.append].
  rewrite ParseDuration_field_start by (assumption || discriminate).
  set (orig := H ++ String "h" (M ++ String "m" (S ++ "s"))).
  destruct (rounds orig orig 0) as [[e|d]|] eqn:R; try discriminate.
  destruct (2 ^ 63 - 1 <? d); [discriminate|]. intros [= <-].
  unfold orig in R at 2.
  apply rounds_hours_inv in R as (vH & sH & R);
    [|first [assumption | lia | apply unit_ends_field; assumption]..].
  apply rounds_minutes_inv in R as (vM & sM & R);
    [|first [assumption | lia | apply unit_ends_field; assumption]..].
  apply rounds_seconds_inv in R as (vS & sS & R);
    [|first [assumption | lia | reflexivity]..].
  change (rounds orig "" ?x) with (Some (@inr error Z x)) in R.
  injection R as <-. lia.
Qed.

(** Four fields: hours, minutes, seconds and milliseconds. *)
Lemma ParseDuration_clock4_value (H M S F : string) (r : Z) :
  all_digits H = true -> all_digits M = true -> all_digits S = true ->
  all_digits F = true ->
  H <> "" -> M <> "" -> S <> "" -> F <> "" ->
  time.ParseDuration (unit_text 0 [H; M; S; F]) = (r, None) ->
  r = horner 0 H * 3600000000000 + horner 0 M * 60000000000
      + horner 0 S * 1000000000 + horner 0 F * 1000000.
Proof.
  intros dH dM dS dF nH nM nS nF.
  pose proof (horner_mono H 0 ltac:(lia) dH).
  pose proof (horner_mono M 0 ltac:(lia) dM).
  pose proof (horner_mono S 0 ltac:(lia) dS).
  pose proof (horner_mono F 0 ltac:(lia) dF).
  cbn [unit_text nth formatStrings String.append].
  rewrite ParseDuration_field_start by (assumption || discriminate).
  set (orig := H ++ String "h" (M ++ String "m" (S ++ String "s" (F ++ "ms")))).
  destruct (rounds orig orig 0) as [[e|d]|] eqn:R; try discriminate.
  destruct (2 ^ 63 - 1 <? d); [discriminate|]. intros [= <-].
  unfold orig in R at 2.
  apply rounds_hours_inv in R as (vH & sH & R);
    [|first [assumption | lia | apply unit_ends_field; assumption]..].
  apply rounds_minutes_inv in R as (vM & sM & R);
    [|first [assumption | lia | apply unit_ends_field; assumption]..].
  apply rounds_seconds_inv in R as (vS & sS & R);
    [|first [assumption | lia | apply unit_ends_field; assumption]..].
  apply rounds_milliseconds_inv in R as (vF & sF & R);
    [|first [assumption | lia | reflexivity]..].
  change (rounds orig "" ?x) with (Some (@inr error Z x)) in R.
  injection R as <-. lia.
Qed.

(** An accepted text whose seconds field holds a digit has all its
    fields hold one, and each field counts its own unit. *)
Lemma Duration_UnmarshalText_value (d0 d : Duration) (data : string) :
  Duration_UnmarshalText d0 data = (d, None) ->
  nth 2 (fields data) "" <> "" ->
  Dur d = horner 0 (nth 0 (fields data) "") * 3600000000000
          + horner 0 (nth 1 (fields data) "") * 60000000000
          + horner 0 (nth 2 (fields data) "") * 1000000000
          + horner 0 (nth 3 (fields data) "") * 1000000.
Proof.
  rewrite Duration_UnmarshalText_eq.
  destruct (Nat.ltb_spec (count_seps data) 2) as [|Hlo]; [discriminate|].
  destruct (Nat.ltb_spec 3 (count_seps data)) as [|Hhi]; [discriminate|].
  cbn [orb].
  pose proof (fields_length data) as Hlen.
  pose proof (fields_all_digits data) as Hdig.
  destruct (fields data) as [|H [|M [|S [|F [|X fs]]]]];
    cbn [List.length] in Hlen; try lia; cbn [nth];
    repeat match goal with
      | K : Forall _ (_ :: _) |- _ => inversion K; subst; clear K
      end.
  - (* hours, minutes, seconds *)
    destruct (time.ParseDuration _) as [dur [e|]] eqn:HP; [discriminate|].
    intros [= <-] nS. cbn [Dur horner].
    destruct (string_dec H "") as [->|nH];
      [destruct (empty_field_fails [""; M; S]) as [e E];
       [repeat constructor; assumption|now left|now left|congruence]|].
    destruct (string_dec M "") as [->|nM];
      [destruct (empty_field_fails [H; ""; S]) as [e E];
       [repeat constructor; assumption|now left|now right; left|congruence]|].
    rewrite (ParseDuration_clock3_value H M S dur) by assumption. lia.
  - (* hours, minutes, seconds, milliseconds *)
    destruct (time.ParseDuration _) as [dur [e|]] eqn:HP; [discriminate|].
    intros [= <-] nS. cbn [Dur].
    destruct (string_dec H "") as [->|nH];
      [destruct (empty_field_fails [""; M; S; F]) as [e E];
       [repeat constructor; assumption|now right|now left|congruence]|].
    destruct (string_dec M "") as [->|nM];
      [destruct (empty_field_fails [H; ""; S; F]) as [e E];
       [repeat constructor; assumption|now right|now right; left|congruence]|].
    destruct (string_dec F "") as [->|nF];
      [destruct (empty_field_fails [H; M; S; ""]) as [e E];
       [repeat constructor; assumption|now right
       |right; right; now split|congruence]|].
    exact (ParseDuration_clock4_value H M S F dur ltac:(assumption)
             ltac:(assumption) ltac:(assumption) ltac:(assumption)
             nH nM nS nF HP).
Qed.

(** A text with two or three separators whose fields all hold a digit
    and are within range is accepted. *)
Lemma Duration_UnmarshalText_fields (d0 : Duration) (data : string) :
  (count_seps data = 2 \/ count_seps data = 3)%nat ->
  (forall i, (i <= count_seps data)%nat -> nth i (fields data) "" <> "") ->
  horner 0 (nth 0 (fields data) "") <= 2562047 ->
  horner 0 (nth 1 (fields data) "") <= 153722867 ->
  horner 0 (nth 2 (fields data) "") <= 9223372036 ->
  horner 0 (nth 3 (fields data) "") <= 9223372036854 ->
  horner 0 (nth 0 (fields data) "") * 3600000000000
  + horner 0 (nth 1 (fields data) "") * 60000000000
  + horner 0 (nth 2 (fields data) "") * 1000000000
  + horner 0 (nth 3 (fields data) "") * 1000000 < 9223372036854775808 ->
  Duration_UnmarshalText d0 data
  = (mkDuration (horner 0 (nth 0 (fields data) "") * 3600000000000
                 + horner 0 (nth 1 (fields data) "") * 60000000000
                 + horner 0 (nth 2 (fields data) "") * 1000000000
                 + horner 0 (nth 3 (fields data) "") * 1000000), None).
Proof.
  intros Hc Hne. rewrite Duration_UnmarshalText_eq.
  replace ((count_seps data <? 2)%nat || (3 <? count_seps data)%nat)
    with false
    by (symmetry; apply orb_false_iff; split; apply Nat.ltb_ge; lia).
  pose proof (fields_length data) as Hlen.
  pose proof (fields_all_digits data) as Hdig.
  destruct (fields data) as [|H [|M [|S [|F [|X fs]]]]];
    cbn [List.length] in Hlen; try lia; cbn [nth] in *;
    repeat match goal with
      | K : Forall _ (_ :: _) |- _ => inversion K; subst; clear K
      end;
    intros vH vM vS vF Hsum.
  - pose proof (Hne 0%nat ltac:(lia)) as nH.
    pose proof (Hne 1%nat ltac:(lia)) as nM.
    pose proof (Hne 2%nat ltac:(lia)) as nS. cbn [nth] in nH, nM, nS.
    cbn [horner] in Hsum |- *.
    rewrite ParseDuration_clock3 by first [assumption | lia].
    do 2 f_equal. lia.
  - pose proof (Hne 0%nat ltac:(lia)) as nH.
    pose proof (Hne 1%nat ltac:(lia)) as nM.
    pose proof (Hne 2%nat ltac:(lia)) as nS.
    pose proof (Hne 3%nat ltac:(lia)) as nF. cbn [nth] in nH, nM, nS, nF.
    now rewrite ParseDuration_clock4 by first [assumption | lia].
Qed.

(** * The claims *)

(** C2.  [TimeOffset.UnmarshalText] dispatches in the order of
    [dispatch]: the exact text "start" is stored as position -1, the
    exact text "end" as position -2; a text ending in "%" is stored
    as the percent [parsed / 100] (so "50%" gives 0.5, the float
    [8388608 * 2^-24]); a text beginning with "#" as the position
    parsed (so "#-1" gives -1 and "#3" gives 3); any other text goes
    whole to [Duration.UnmarshalText], whose result is stored as the
    duration and whose failure is the failure of the decode. *)
Theorem C2_decode_dispatch :
  (forall to data,
      match dispatch data with
      | Some v => TimeOffset_UnmarshalText to data = (store to v, None)
      | None => failed (TimeOffset_UnmarshalText to data) = true
      end)
  /\ TimeOffset_UnmarshalText zeroTimeOffset "start"
     = (mkTimeOffset None (-1) (S754_zero false), None)
  /\ TimeOffset_UnmarshalText zeroTimeOffset "end"
     = (mkTimeOffset None (-2) (S754_zero false), None)
  /\ TimeOffset_UnmarshalText zeroTimeOffset "50%"
     = (mkTimeOffset None 0 (S754_finite false 8388608 (-24)), None)
  /\ TimeOffset_UnmarshalText zeroTimeOffset "#-1"
     = (mkTimeOffset None (-1) (S754_zero false), None)
  /\ TimeOffset_UnmarshalText zeroTimeOffset "#3"
     = (mkTimeOffset None 3 (S754_zero false), None)
  /\ TimeOffset_UnmarshalText zeroTimeOffset "1:2:3"
     = (mkTimeOffset (Some (mkDuration 3723000000000)) 0 (S754_zero false),
        None).
Proof.
  split; [|repeat split; vm_compute; reflexivity].
  intros to data. pose proof (TimeOffset_UnmarshalText_dispatch to data) as H.
  destruct (dispatch data); [exact H|exact (proj2 H)].
Qed.

(** C7.  For a text that ends in "%" or begins with "#", the decode
    fails exactly when the text left after the marker is stripped is
    not a decimal integer within [-128, 127]. *)
Theorem C7_marker_failure (to : TimeOffset) (data : string) :
  ends_with data "%" = true \/ begins_with data "#" = true ->
  (failed (TimeOffset_UnmarshalText to data) = true
   <-> decimal_int8 (stripped data) = None).
Proof.
  intros H. pose proof (TimeOffset_UnmarshalText_dispatch to data) as D.
  rewrite (dispatch_marker data H) in D.
  destruct (decimal_int8 (stripped data)) as [p|].
  - assert (E : failed (TimeOffset_UnmarshalText to data) = false)
      by (destruct (ends_with data "%"); cbn [option_map] in D; now rewrite D).
    rewrite E. split; discriminate.
  - assert (E : failed (TimeOffset_UnmarshalText to data) = true)
      by (destruct (ends_with data "%"); cbn [option_map] in D; apply D).
    rewrite E. now split.
Qed.

Lemma C7_marker_failure_witness :
  failed (TimeOffset_UnmarshalText zeroTimeOffset "200%") = true
  /\ failed (TimeOffset_UnmarshalText zeroTimeOffset "#abc") = true
  /\ failed (TimeOffset_UnmarshalText zeroTimeOffset "abc%") = true.
Proof.
  split; [|split].
  - apply (C7_marker_failure zeroTimeOffset "200%"); [now left|reflexivity].
  - apply (C7_marker_failure zeroTimeOffset "#abc"); [now right|reflexivity].
  - apply (C7_marker_failure zeroTimeOffset "abc%"); [now left|reflexivity].
Defined.

(** C10.  [TimeOffset.UnmarshalText] is not atomic on error: when the
    text goes to [Duration.UnmarshalText] and that fails, the receiver
    is left with a duration that is not nil and is zero, and encoding
    that receiver gives "00:00:00". *)
Theorem C10_partial_mutation (to : TimeOffset) (data : string) :
  String.eqb data "start" = false -> String.eqb data "end" = false ->
  ends_with data "%" = false -> begins_with data "#" = false ->
  failed (Duration_UnmarshalText (mkDuration 0) data) = true ->
  failed (TimeOffset_UnmarshalText to data) = true
  /\ toDuration (fst (TimeOffset_UnmarshalText to data)) = Some (mkDuration 0)
  /\ TimeOffset_MarshalText (fst (TimeOffset_UnmarshalText to data))
     = ("00:00:00", None).
Proof.
  intros Hs He Hp Hh Hf.
  pose proof (Duration_UnmarshalText_failed _ _ Hf) as Hd.
  unfold TimeOffset_UnmarshalText.
  change "%" with (String "%" "") at 1 3 5.
  change "#" with (String "#" "") at 1 3 5.
  rewrite Hs, He, HasSuffix_byte, HasPrefix_byte, Hp, Hh.
  destruct (Duration_UnmarshalText (mkDuration 0) data) as [d' err].
  cbn [fst] in Hd. subst d'. unfold failed in *. cbn [fst snd] in *.
  repeat split; assumption || reflexivity.
Qed.

Lemma C10_partial_mutation_witness :
  failed (TimeOffset_UnmarshalText zeroTimeOffset "1") = true
  /\ toDuration (fst (TimeOffset_UnmarshalText zeroTimeOffset "1"))
     = Some (mkDuration 0)
  /\ TimeOffset_MarshalText (fst (TimeOffset_UnmarshalText zeroTimeOffset "1"))
     = ("00:00:00", None).
Proof.
  apply (C10_partial_mutation zeroTimeOffset "1"); reflexivity.
Defined.



(** C5, as the code has it.  [Duration.UnmarshalText] depends on the
    digits and the separators of its text only, whichever separator
    byte is written and whatever other bytes stand in between: two
    texts with the same skeleton decode alike.  A text with two or
    three separators whose fields all hold a digit and are within
    range is accepted; and an accepted text whose seconds field holds
    a digit has the field before the first separator count hours, the
    next minutes, the next seconds and the fourth milliseconds, be the
    separators ':' or '.'.  So "1.2.3" and "1x:2:3y" decode like
    "1:2:3", to 3723000 ms. *)
Theorem C5_positional_fields :
  (forall d data1 data2,
      skeleton data1 = skeleton data2 ->
      decoded (Duration_UnmarshalText d data1)
      = decoded (Duration_UnmarshalText d data2))
  /\ (forall d data,
         decoded (Duration_UnmarshalText d data)
         = decoded (Duration_UnmarshalText d (skeleton data)))
  /\ (forall d0 data,
         (count_seps data = 2 \/ count_seps data = 3)%nat ->
         (forall i, (i <= count_seps data)%nat ->
                    nth i (fields data) "" <> "") ->
         field_value data 0 <= 2562047 -> field_value data 1 <= 153722867 ->
         field_value data 2 <= 9223372036 ->
         field_value data 3 <= 9223372036854 ->
         clock_value data <= 2 ^ 63 - 1 ->
         Duration_UnmarshalText d0 data = (mkDuration (clock_value data), None))
  /\ (forall d0 d data,
         Duration_UnmarshalText d0 data = (d, None) ->
         nth 2 (fields data) "" <> "" ->
         Dur d = clock_value data)
  /\ (forall d0 H M S c1 c2,
         is_sep c1 = true -> is_sep c2 = true ->
         all_digits H = true -> all_digits M = true -> all_digits S = true ->
         H <> "" -> M <> "" -> S <> "" ->
         horner 0 H <= 2562047 -> horner 0 M <= 153722867 ->
         horner 0 S <= 9223372036 ->
         horner 0 H * time.Hour + horner 0 M * time.Minute
           + horner 0 S * time.Second <= 2 ^ 63 - 1 ->
         Duration_UnmarshalText d0 (H ++ String c1 (M ++ String c2 S))
         = (mkDuration (horner 0 H * time.Hour + horner 0 M * time.Minute
                          + horner 0 S * time.Second), None))
  /\ (forall d0 H M S F c1 c2 c3,
         is_sep c1 = true -> is_sep c2 = true -> is_sep c3 = true ->
         all_digits H = true -> all_digits M = true -> all_digits S = true ->
         all_digits F = true ->
         H <> "" -> M <> "" -> S <> "" -> F <> "" ->
         horner 0 H <= 2562047 -> horner 0 M <= 153722867 ->
         horner 0 S <= 9223372036 -> horner 0 F <= 9223372036854 ->
         horner 0 H * time.Hour + horner 0 M * time.Minute
           + horner 0 S * time.Second + horner 0 F * time.Millisecond
         <= 2 ^ 63 - 1 ->
         Duration_UnmarshalText d0
           (H ++ String c1 (M ++ String c2 (S ++ String c3 F)))
         = (mkDuration (horner 0 H * time.Hour + horner 0 M * time.Minute
                          + horner 0 S * time.Second
                          + horner 0 F * time.Millisecond), None))
  /\ (forall d, decoded (Duration_UnmarshalText d "1:2:3")
                = Some (mkDuration (3723000 * time.Millisecond)))
  /\ (forall d, decoded (Duration_UnmarshalText d "1.2.3")
                = Some (mkDuration (3723000 * time.Millisecond)))
  /\ (forall d, decoded (Duration_UnmarshalText d "1x:2:3y")
                = Some (mkDuration (3723000 * time.Millisecond))).
Proof.
  assert (K : forall d data1 data2,
             skeleton data1 = skeleton data2 ->
             decoded (Duration_UnmarshalText d data1)
             = decoded (Duration_UnmarshalText d data2)).
  { intros d data1 data2 H. rewrite !Duration_UnmarshalText_eq.
    rewrite <- (skeleton_count_seps data1), <- (skeleton_fields data1), H,
      skeleton_count_seps, skeleton_fields.
    destruct (_ || _); [reflexivity|].
    now destruct (time.ParseDuration _) as [dur [e|]]. }
  split; [exact K|]. split.
  { intros d data. apply K.
    clear. induction data as [|b r IH]; cbn [skeleton]; [reflexivity|].
    destruct (is_sep b) eqn:Hs.
    - cbn [skeleton]. change (is_sep ":") with true. cbn iota.
      now rewrite <- IH.
    - destruct (is_digit b) eqn:Hd; [|exact IH].
      cbn [skeleton]. rewrite Hs, Hd. now rewrite <- IH. }
  split.
  { intros d0 data Hc Hne vH vM vS vF Hsum.
    unfold clock_value, field_value in *.
    change time.Hour with 3600000000000 in *.
    change time.Minute with 60000000000 in *.
    change time.Second with 1000000000 in *.
    change time.Millisecond with 1000000 in *.
    change (2 ^ 63 - 1) with 9223372036854775807 in Hsum.
    apply Duration_UnmarshalText_fields; try assumption. lia. }
  split.
  { intros d0 d data Hd nS. unfold clock_value, field_value.
    exact (Duration_UnmarshalText_value d0 d data Hd nS). }
  split.
  { intros d0 H M S c1 c2 s1 s2 dH dM dS nH nM nS vH vM vS Hsum.
    change time.Hour with 3600000000000 in *.
    change time.Minute with 60000000000 in *.
    change time.Second with 1000000000 in *.
    change (2 ^ 63 - 1) with 9223372036854775807 in Hsum.
    apply Duration_UnmarshalText_clock3; try assumption. lia. }
  split; [|now repeat split].
  intros d0 H M S F c1 c2 c3 s1 s2 s3 dH dM dS dF nH nM nS nF vH vM vS vF Hsum.
  change time.Hour with 3600000000000 in *.
  change time.Minute with 60000000000 in *.
  change time.Second with 1000000000 in *.
  change time.Millisecond with 1000000 in *.
  change (2 ^ 63 - 1) with 9223372036854775807 in Hsum.
  apply Duration_UnmarshalText_clock4; try assumption. lia.
Qed.

Lemma C5_positional_fields_witness :
  decoded (Duration_UnmarshalText (mkDuration 0) "1x:2:3y")
  = decoded (Duration_UnmarshalText (mkDuration 0) "1.2.3")
  /\ Duration_UnmarshalText (mkDuration 7) "1x:2.3y:004"
     = (mkDuration (clock_value "1x:2.3y:004"), None)
  /\ Dur (mkDuration 3723004000000) = clock_value "01:02:03.004".
Proof.
  split; [|split].
  - apply (proj1 C5_positional_fields (mkDuration 0) "1x:2:3y" "1.2.3").
    reflexivity.
  - apply (proj1 (proj2 (proj2 C5_positional_fields)) (mkDuration 7)
             "1x:2.3y:004");
      [right; reflexivity
      |intros i Hi; change (count_seps "1x:2.3y:004") with 3%nat in Hi;
       do 4 (destruct i as [|i]; [discriminate|]); lia
      |vm_compute; discriminate..].
  - apply (proj1 (proj2 (proj2 (proj2 C5_positional_fields))) (mkDuration 0)
             (mkDuration 3723004000000) "01:02:03.004");
      [reflexivity|discriminate].
Defined.

(** The claim C5 as it is written has the second field of every text
    count minutes: "1:2:" and "1:2::4" are accepted with their seconds
    field empty, and their second field counts milliseconds. *)
Lemma C5_counterexample :
  fields "1:2:" = ["1"; "2"; ""]
  /\ Duration_UnmarshalText (mkDuration 0) "1:2:"
     = (mkDuration (1 * time.Hour + 2 * time.Millisecond), None)
  /\ 1 * time.Hour + 2 * time.Millisecond
     <> 1 * time.Hour + 2 * time.Minute
  /\ fields "1:2::4" = ["1"; "2"; ""; "4"]
  /\ Duration_UnmarshalText (mkDuration 0) "1:2::4"
     = (mkDuration (1 * time.Hour + (2 + 4) * time.Millisecond), None)
  /\ 1 * time.Hour + (2 + 4) * time.Millisecond
     <> 1 * time.Hour + 2 * time.Minute + 4 * time.Millisecond.
Proof.
  split; [reflexivity|]. split; [reflexivity|].
  split; [vm_compute; discriminate|]. split; [reflexivity|].
  split; [reflexivity|vm_compute; discriminate].
Qed.




(** C9, as the code has it.  Every failed decode of either codec has
    an error with a message, and the place of the failure settles the
    message.  When the separator count is outside [2, 3] the message
    is "invalid duration format: " and the text as it was handed in.
    When [time.ParseDuration] fails it is "error parsing duration: "
    and the message of [time.ParseDuration], which ends with the
    quoted unit text, the digits of the fields with the unit names in
    place of the separators.  When [strconv.ParseInt] fails after a
    "%" or a "#" it is "error parsing percentage offset: " or "error
    parsing position offset: " and the message of [strconv.ParseInt],
    which quotes the text without its marker. *)
Theorem C9_error_text (isPrintTable : Z -> bool) (d : Duration)
        (to : TimeOffset) (data : string) (e : error) :
  (snd (Duration_UnmarshalText d data) = Some e ->
   carries isPrintTable (duration_failure data) data e)
  /\ (snd (TimeOffset_UnmarshalText to data) = Some e ->
      carries isPrintTable (offset_failure data) data e).
Proof.
  assert (K : forall d', snd (Duration_UnmarshalText d' data) = Some e ->
                         carries isPrintTable (duration_failure data) data e).
  { intros d'. rewrite Duration_UnmarshalText_eq. unfold duration_failure.
    destruct (_ || _).
    - intros [= <-]. split; [reflexivity|]. apply contains_append.
    - destruct (time.ParseDuration _) as [dur [e'|]] eqn:HP; [|discriminate].
      intros [= <-].
      destruct (ParseDuration_error (unit_text 0 (fields data)) e')
        as [pre E]; [now rewrite HP|].
      exists e', pre. rewrite HP. split; [reflexivity|].
      split; [now rewrite E|reflexivity]. }
  split; [exact (K d)|].
  unfold TimeOffset_UnmarshalText, offset_failure.
  destruct (String.eqb data "start"); [discriminate|].
  destruct (String.eqb data "end"); [discriminate|].
  change "%" with (String "%" "") at 1 2.
  change "#" with (String "#" "") at 1 2.
  rewrite HasSuffix_byte, HasPrefix_byte.
  destruct (ends_with data "%") eqn:Hp.
  - rewrite TrimSuffix_byte by exact Hp.
    pose proof (ParseInt10_int8 (drop_last data)) as H.
    destruct (decimal_int8 (drop_last data)) as [p|].
    + rewrite H. discriminate.
    + destruct H as (v & k & H). rewrite H. intros [= <-].
      exists (NumError "ParseInt" (drop_last data) k), k. rewrite H.
      split; [reflexivity|]. split; reflexivity.
  - destruct (begins_with data "#") eqn:Hh.
    + rewrite TrimPrefix_byte by exact Hh.
      pose proof (ParseInt10_int8 (drop_first data)) as H.
      destruct (decimal_int8 (drop_first data)) as [p|].
      * rewrite H. discriminate.
      * destruct H as (v & k & H). rewrite H. intros [= <-].
        exists (NumError "ParseInt" (drop_first data) k), k. rewrite H.
        split; [reflexivity|]. split; reflexivity.
    + pose proof (K (mkDuration 0)) as K0.
      destruct (Duration_UnmarshalText (mkDuration 0) data) as [d' err].
      exact K0.
Qed.

Lemma C9_error_text_witness :
  carries (fun _ => false) SeparatorCount "1:2:3:4:5"
    (errorString "invalid duration format: 1:2:3:4:5")
  /\ carries (fun _ => false) DurationParse "00::30"
       (wrapError "error parsing duration: "
          (errorString ("time: unknown unit " ++ time.quote "hm"
                          ++ " in duration " ++ time.quote "00hm30s")))
  /\ carries (fun _ => false) PercentParse "abc%"
       (wrapError "error parsing percentage offset: "
          (NumError "ParseInt" "abc" ErrSyntax))
  /\ carries (fun _ => false) PositionParse "#200"
       (wrapError "error parsing position offset: "
          (NumError "ParseInt" "200" ErrRange))
  /\ carries (fun _ => false) SeparatorCount "1"
       (errorString "invalid duration format: 1").
Proof.
  split; [|split; [|split; [|split]]].
  - apply (proj1 (C9_error_text (fun _ => false) (mkDuration 0) zeroTimeOffset
                    "1:2:3:4:5" _)).
    reflexivity.
  - apply (proj1 (C9_error_text (fun _ => false) (mkDuration 0) zeroTimeOffset
                    "00::30" _)).
    reflexivity.
  - apply (proj2 (C9_error_text (fun _ => false) (mkDuration 0) zeroTimeOffset
                    "abc%" _)).
    reflexivity.
  - apply (proj2 (C9_error_text (fun _ => false) (mkDuration 0) zeroTimeOffset
                    "#200" _)).
    reflexivity.
  - apply (proj2 (C9_error_text (fun _ => false) (mkDuration 0) zeroTimeOffset
                    "1" _)).
    reflexivity.
Defined.

(** The claim C9 as it is written has every message contain the text
    handed to decode; the messages for "00::30", "#abc" and "abc%" do
    not. *)
Lemma C9_counterexample :
  match snd (Duration_UnmarshalText (mkDuration 0) "00::30") with
  | Some e => contains (Error (fun _ => false) e) "00::30" = false
  | None => False
  end
  /\ match snd (TimeOffset_UnmarshalText zeroTimeOffset "#abc") with
     | Some e => contains (Error (fun _ => false) e) "#abc" = false
     | None => False
     end
  /\ match snd (TimeOffset_UnmarshalText zeroTimeOffset "abc%") with
     | Some e => contains (Error (fun _ => false) e) "abc%" = false
     | None => False
     end.
Proof. repeat split; vm_compute; reflexivity. Qed.

(** C1.  For every count [ms >= 0] of milliseconds that fits a
    [Duration], [Duration.MarshalText] returns a text without an error
    and [Duration.UnmarshalText] of that text succeeds and stores the
    same duration; "90:00:00" decodes to 324000000 ms, the hours not
    reduced, and that duration encodes as "90:00:00". *)
Theorem C1_duration_roundtrip :
  (forall ms d0,
      0 <= ms -> ms * time.Millisecond <= 2 ^ 63 - 1 ->
      snd (Duration_MarshalText (mkDuration (ms * time.Millisecond))) = None
      /\ Duration_UnmarshalText d0
           (fst (Duration_MarshalText (mkDuration (ms * time.Millisecond))))
         = (mkDuration (ms * time.Millisecond), None))
  /\ (forall d0, Duration_UnmarshalText d0 "90:00:00"
                 = (mkDuration (324000000 * time.Millisecond), None))
  /\ Duration_MarshalText (mkDuration (324000000 * time.Millisecond))
     = ("90:00:00", None).
Proof.
  split; [|split; [reflexivity|vm_compute; reflexivity]].
  intros ms d0 H0 H63. change time.Millisecond with (10 ^ 6) in *.
  destruct (Z.eq_dec ms 0) as [->|Hne]; [split; reflexivity|].
  rewrite Duration_MarshalText_ms by lia. cbn [fst snd].
  split; [reflexivity|].
  assert (Hms : ms <= 9223372036854)
    by (change (2 ^ 63 - 1) with 9223372036854775807 in H63; lia).
  set (h := ms / 3600000). set (m := (ms / 60000) mod 60).
  set (s := (ms / 1000) mod 60). set (r := ms mod 1000).
  assert (Hh : 0 <= h <= 2562047)
    by (unfold h; Z.div_mod_to_equations; lia).
  assert (Hm : 0 <= m < 60) by (apply Z.mod_pos_bound; lia).
  assert (Hs : 0 <= s < 60) by (apply Z.mod_pos_bound; lia).
  assert (Hr : 0 <= r < 1000) by (apply Z.mod_pos_bound; lia).
  assert (Hsum : h * 3600000000000 + m * 60000000000 + s * 1000000000
                 + r * 1000000 = ms * 10 ^ 6)
    by (unfold h, m, s, r; change (10 ^ 6) with 1000000;
        Z.div_mod_to_equations; lia).
  destruct (verb_0d_spec 2 h ltac:(lia)) as (dH & vH & nH).
  destruct (verb_0d_spec 2 m ltac:(lia)) as (dM & vM & nM).
  destruct (verb_0d_spec 2 s ltac:(lia)) as (dS & vS & nS).
  destruct (verb_0d_spec 3 r ltac:(lia)) as (dF & vF & nF).
  destruct (Z.ltb_spec 0 r) as [Hpos|Hzero].
  - rewrite !append_assoc. cbn [String.append].
    rewrite (Duration_UnmarshalText_clock4 d0 _ _ _ _ ":" ":" ".");
      rewrite ?vH, ?vM, ?vS, ?vF; try assumption; try reflexivity; try lia.
    do 2 f_equal. lia.
  - cbn [String.append].
    rewrite (Duration_UnmarshalText_clock3 d0 _ _ _ ":" ":");
      rewrite ?vH, ?vM, ?vS; try assumption; try reflexivity; try lia.
    do 2 f_equal. lia.
Qed.

Lemma C1_duration_roundtrip_witness :
  Duration_UnmarshalText (mkDuration 0)
    (fst (Duration_MarshalText (mkDuration (3723004 * time.Millisecond))))
  = (mkDuration (3723004 * time.Millisecond), None).
Proof.
  apply (proj1 C1_duration_roundtrip 3723004 (mkDuration 0));
    [lia|vm_compute; discriminate].
Defined.

(** C6.  [TimeOffset.MarshalText] takes the first of: the duration, if
    the pointer is not nil, written by [Duration.MarshalText]; a
    position that is not zero, written as "#" and its decimal
    numeral; a percent that is not zero, written as percent * 100
    with the verb %f and a "%" sign; the empty text.  So the texts
    "start" and "end" come back as "#-1" and "#-2", and "#0" as the
    empty text. *)
Theorem C6_encode_precedence :
  (forall d pos pct,
      TimeOffset_MarshalText (mkTimeOffset (Some d) pos pct)
      = Duration_MarshalText d)
  /\ (forall pos pct,
         pos <> 0 ->
         TimeOffset_MarshalText (mkTimeOffset None pos pct)
         = ("#" ++ fmt.verb_d pos, None)
         /\ decimal_integer (fmt.verb_d pos) = Some pos)
  /\ (forall pct,
         float_nonzero pct = true ->
         TimeOffset_MarshalText (mkTimeOffset None 0 pct)
         = (fmt.verb_f (f32.mul pct (f32.of_Z 100)) ++ "%", None))
  /\ (forall pct,
         float_nonzero pct = false ->
         TimeOffset_MarshalText (mkTimeOffset None 0 pct) = ("", None))
  /\ TimeOffset_MarshalText
       (fst (TimeOffset_UnmarshalText zeroTimeOffset "start")) = ("#-1", None)
  /\ TimeOffset_MarshalText
       (fst (TimeOffset_UnmarshalText zeroTimeOffset "end")) = ("#-2", None)
  /\ TimeOffset_MarshalText
       (fst (TimeOffset_UnmarshalText zeroTimeOffset "#0")) = ("", None)
  /\ TimeOffset_MarshalText
       (fst (TimeOffset_UnmarshalText zeroTimeOffset "50%"))
     = ("50.000000%", None).
Proof.
  split; [reflexivity|]. split.
  { intros pos pct Hpos. split; [|apply verb_d_decimal].
    unfold TimeOffset_MarshalText. cbn [toDuration toPosition].
    now replace (pos =? 0) with false by (symmetry; apply Z.eqb_neq; lia). }
  split.
  { intros pct H. unfold TimeOffset_MarshalText.
    cbn [toDuration toPosition toPercent]. now rewrite H. }
  split.
  { intros pct H. unfold TimeOffset_MarshalText.
    cbn [toDuration toPosition toPercent]. now rewrite H. }
  repeat split; vm_compute; reflexivity.
Qed.

Lemma C6_encode_precedence_witness :
  TimeOffset_MarshalText (mkTimeOffset None 3 (S754_zero false))
  = ("#3", None)
  /\ TimeOffset_MarshalText
       (mkTimeOffset None 0 (S754_finite false 8388608 (-24)))
     = ("50.000000%", None).
Proof.
  split.
  - apply (proj1 (proj2 C6_encode_precedence) 3 (S754_zero false)). lia.
  - apply (proj1 (proj2 (proj2 C6_encode_precedence))
             (S754_finite false 8388608 (-24))).
    reflexivity.
Defined.

(** C8, as the code has it.  A text accepted through the "%" branch
    stores the percent [float32(p) / 100] of the integer [p] parsed,
    which is within [-128, 127]: the percent is within
    [-1.28, 1.27], and within [0, 1] exactly when [0 <= p <= 100]. *)
Theorem C8_percent_range (to to' : TimeOffset) (data : string) :
  ends_with data "%" = true ->
  TimeOffset_UnmarshalText to data = (to', None) ->
  exists p,
    decimal_int8 (drop_last data) = Some p
    /\ -128 <= p <= 127
    /\ toPercent to' = percent_of p
    /\ SFleb (percent_of (-128)) (toPercent to') = true
    /\ SFleb (toPercent to') (percent_of 127) = true
    /\ (in_unit_interval (toPercent to') = true <-> 0 <= p <= 100).
Proof.
  intros Hp Hdec.
  pose proof (TimeOffset_UnmarshalText_dispatch to data) as D.
  rewrite (dispatch_marker data (or_introl Hp)) in D.
  unfold stripped in D. rewrite Hp in D.
  destruct (decimal_int8 (drop_last data)) as [p|] eqn:E; cbn [option_map] in D.
  - rewrite Hdec in D. injection D as ->.
    pose proof (decimal_int8_range _ _ E) as Hr.
    pose proof (percent_check_all p Hr) as Hc.
    unfold percent_check in Hc.
    apply andb_true_iff in Hc as [Hc H3]. apply andb_true_iff in Hc as [H1 H2].
    apply Bool.eqb_prop in H3.
    exists p. cbn [store set_Percent toPercent].
    change (f32.div (f32.of_Z p) (f32.of_Z 100)) with (percent_of p).
    split; [reflexivity|]. split; [exact Hr|]. split; [reflexivity|].
    split; [exact H1|]. split; [exact H2|].
    change (in_unit_interval (percent_of p) = true <-> 0 <= p <= 100).
    rewrite H3, andb_true_iff, !Z.leb_le. reflexivity.
  - destruct D as [_ D]. rewrite Hdec in D. discriminate.
Qed.

Lemma C8_percent_range_witness :
  exists p,
    decimal_int8 (drop_last "50%") = Some p
    /\ -128 <= p <= 127
    /\ S754_finite false 8388608 (-24) = percent_of p
    /\ SFleb (percent_of (-128)) (S754_finite false 8388608 (-24)) = true
    /\ SFleb (S754_finite false 8388608 (-24)) (percent_of 127) = true
    /\ (in_unit_interval (S754_finite false 8388608 (-24)) = true
        <-> 0 <= p <= 100).
Proof.
  apply (C8_percent_range zeroTimeOffset
           (mkTimeOffset None 0 (S754_finite false 8388608 (-24))) "50%");
    reflexivity.
Defined.

(** The claim C8 as it is written keeps the percent within [0, 1];
    "127%" and "-1%" are accepted and store 1.27 and -0.01. *)
Lemma C8_counterexample :
  failed (TimeOffset_UnmarshalText zeroTimeOffset "127%") = false
  /\ in_unit_interval
       (toPercent (fst (TimeOffset_UnmarshalText zeroTimeOffset "127%")))
     = false
  /\ failed (TimeOffset_UnmarshalText zeroTimeOffset "-1%") = false
  /\ in_unit_interval
       (toPercent (fst (TimeOffset_UnmarshalText zeroTimeOffset "-1%")))
     = false.
Proof. repeat split; vm_compute; reflexivity. Qed.

(** * Further properties of the codecs *)

(** ** What a decoded duration can be *)

Lemma unit_bytes_app (s t : string) :
  unit_bytes (s ++ t) = unit_bytes s && unit_bytes t.
Proof.
  induction s as [|c s IH]; cbn [String.append unit_bytes]; [reflexivity|].
  now rewrite IH, andb_assoc.
Qed.

Lemma all_digits_unit_bytes (s : string) :
  all_digits s = true -> unit_bytes s = true.
Proof.
  induction s as [|c s IH]; [reflexivity|]. cbn [all_digits unit_bytes].
  intros H. apply andb_true_iff in H as [Hc Hs].
  unfold unit_byte. now rewrite Hc, IH.
Qed.

Lemma unit_text_bytes (fs : list string) (part : nat) :
  Forall (fun f => all_digits f = true) fs ->
  unit_bytes (unit_text part fs) = true.
Proof.
  intros H. revert part. induction H as [|f fs Hf _ IH]; intros part;
    cbn [unit_text]; [reflexivity|].
  rewrite !unit_bytes_app, (all_digits_unit_bytes f Hf), IH, andb_true_r.
  cbn [andb]. do 4 (destruct part as [|part]; [reflexivity|]).
  now destruct part.
Qed.

Lemma unit_letter_not_digit (c : ascii) :
  unit_letter c = true -> is_digit c = false /\ time.is_dot c = false.
Proof.
  unfold unit_letter. intros H.
  apply orb_true_iff in H as [H|H]; [apply orb_true_iff in H as [H|H]|];
    apply Ascii.eqb_eq in H; subst; now split.
Qed.

Lemma span_unit_bytes (s : string) :
  unit_bytes s = true ->
  unit_letters_only (fst (time.span_unit s)) = true
  /\ unit_bytes (snd (time.span_unit s)) = true.
Proof.
  induction s as [|c s IH]; [now split|].
  cbn [unit_bytes time.span_unit]. intros H.
  apply andb_true_iff in H as [Hc Hs]. unfold unit_byte in Hc.
  destruct (is_digit c) eqn:Hd.
  - rewrite orb_true_r. cbn [fst snd unit_letters_only unit_bytes].
    unfold unit_byte. rewrite Hd, Hs. now split.
  - cbn [orb] in Hc. destruct (unit_letter_not_digit c Hc) as [_ Hdot].
    rewrite Hdot. cbn [orb]. destruct (IH Hs) as [H1 H2].
    destruct (time.span_unit s) as [u rest].
    cbn [fst snd unit_letters_only] in *. now rewrite Hc, H1.
Qed.

(** Of the unit names, the letters h, m and s spell only "ms", "s",
    "m" and "h": every unit is a whole number of milliseconds. *)
Lemma unitMap_letters (u : string) (unit : Z) :
  unit_letters_only u = true -> time.unitMap u = Some unit ->
  0 < unit /\ unit mod 10 ^ 6 = 0.
Proof.
  intros Hu. unfold time.unitMap.
  repeat match goal with
    | |- context [String.eqb u ?k] =>
        destruct (String.eqb_spec u k) as [E|_];
        [first [ rewrite E in Hu; discriminate Hu
               | intros [= <-]; now split ] |]
    end.
  discriminate.
Qed.

(** A run of digits splits off the front of a text. *)
Lemma digit_run (s : string) :
  exists f t, s = f ++ t /\ all_digits f = true /\ not_digit_first t = true.
Proof.
  induction s as [|c s (f & t & E & Hf & Ht)].
  - now exists "", "".
  - destruct (is_digit c) eqn:Hc.
    + exists (String c f), t. cbn [String.append all_digits].
      rewrite Hc, Hf, E. now split.
    + exists "", (String c s). cbn [String.append not_digit_first].
      rewrite Hc. now split.
Qed.

Lemma ParseDuration_round_run
      (continue : string -> Z -> option (error + Z))
      (orig f t : string) (d : Z) :
  f <> "" -> all_digits f = true -> not_digit_first t = true ->
  match t with String c _ => time.is_dot c = false | "" => True end ->
  time.ParseDuration_round continue orig (f ++ t) d
  = if horner 0 f <=? 2 ^ 63 then
      let '(u, rest) := time.span_unit t in
      match u with
      | "" => Some (inl (errorString
                ("time: missing unit in duration " ++ time.quote orig)))
      | _ =>
          match time.unitMap u with
          | None => Some (inl (errorString
                      ("time: unknown unit " ++ time.quote u
                         ++ " in duration " ++ time.quote orig)))
          | Some unit =>
              if 2 ^ 63 / unit <? horner 0 f
              then Some (inl (time.invalid orig))
              else
                let dd := wrap_uint64 (d + wrap_uint64 (horner 0 f * unit)) in
                if 2 ^ 63 <? dd then Some (inl (time.invalid orig))
                else continue rest dd
          end
      end
    else Some (inl (time.invalid orig)).
Proof.
  intros Hne Hf Ht Hdot.
  destruct f as [|c0 f']; [congruence|].
  unfold time.ParseDuration_round. cbn [String.append].
  assert (Hc0 : is_digit c0 = true)
    by (cbn [all_digits] in Hf; now apply andb_true_iff in Hf).
  rewrite Hc0, orb_true_r. cbn [negb].
  unfold time.leadingInt.
  change (String c0 (f' ++ t)) with (String c0 f' ++ t).
  rewrite leadingInt_loop_run by first [assumption | lia].
  destruct (horner 0 (String c0 f') <=? 2 ^ 63); [|reflexivity].
  replace (String.length (String c0 f' ++ t) =? String.length t)%nat
    with false
    by (symmetry; apply Nat.eqb_neq; rewrite length_append; simpl; lia).
  destruct t as [|c t']; [|rewrite Hdot]; cbn [negb andb];
    (destruct (time.span_unit _) as [u rest];
     destruct u as [|cu u']; [reflexivity|];
     destruct (time.unitMap (String cu u')) as [unit|]; [|reflexivity];
     destruct (_ <? horner 0 (String c0 f')); reflexivity).
Qed.

Lemma pow63_not_ms (d : Z) : d <= 2 ^ 63 -> d mod 10 ^ 6 = 0 -> d < 2 ^ 63.
Proof.
  intros Hle Hm. destruct (Z.eq_dec d (2 ^ 63)) as [->|]; [|lia].
  vm_compute in Hm. discriminate.
Qed.

(** A round on digits and unit letters ends in an error or goes on
    with a sum that is still a whole number of milliseconds. *)
Lemma ParseDuration_round_ms
      (continue : string -> Z -> option (error + Z))
      (orig s : string) (d : Z) :
  unit_bytes s = true -> s <> "" -> 0 <= d <= 2 ^ 63 -> d mod 10 ^ 6 = 0 ->
  (exists e, time.ParseDuration_round continue orig s d = Some (inl e))
  \/ (exists rest d',
        unit_bytes rest = true
        /\ (String.length rest < String.length s)%nat
        /\ 0 <= d' <= 2 ^ 63 /\ d' mod 10 ^ 6 = 0
        /\ time.ParseDuration_round continue orig s d = continue rest d').
Proof.
  intros Hs Hne Hd Hm.
  destruct (digit_run s) as (f & t & -> & Hf & Ht).
  destruct f as [|c0 f'].
  - (* a unit letter first *)
    cbn [String.append] in *. destruct t as [|c t']; [congruence|].
    cbn [unit_bytes not_digit_first] in Hs, Ht.
    apply andb_true_iff in Hs as [Hc _]. apply negb_true_iff in Ht.
    unfold unit_byte in Hc. rewrite Ht in Hc. cbn [orb] in Hc.
    destruct (unit_letter_not_digit c Hc) as [_ Hdot].
    left. unfold time.ParseDuration_round. rewrite Ht, Hdot. now eexists.
  - rewrite unit_bytes_app in Hs. apply andb_true_iff in Hs as [_ Hst].
    assert (Hdot : match t with
                   | String c _ => time.is_dot c = false
                   | "" => True
                   end).
    { destruct t as [|c t']; [exact I|].
      cbn [unit_bytes not_digit_first] in Hst, Ht.
      apply andb_true_iff in Hst as [Hc _]. apply negb_true_iff in Ht.
      unfold unit_byte in Hc. rewrite Ht in Hc.
      exact (proj2 (unit_letter_not_digit c Hc)). }
    rewrite ParseDuration_round_run by (assumption || discriminate).
    pose proof (horner_mono (String c0 f') 0 ltac:(lia) Hf) as Hv.
    set (v := horner 0 (String c0 f')) in *.
    destruct (v <=? 2 ^ 63); [|left; now eexists].
    destruct (span_unit_bytes t Hst) as [Hu Hrest].
    pose proof (span_unit_length t) as Hlen.
    destruct (time.span_unit t) as [u rest]. cbn [fst snd] in Hu, Hrest, Hlen.
    destruct u as [|cu u']; [left; now eexists|].
    destruct (time.unitMap (String cu u')) as [unit|] eqn:EU;
      [|left; now eexists].
    destruct (unitMap_letters _ _ Hu EU) as [Hpos Hunit].
    destruct (Z.ltb_spec (2 ^ 63 / unit) v) as [|Hvu]; [left; now eexists|].
    assert (Hprod : 0 <= v * unit <= 2 ^ 63).
    { split; [apply Z.mul_nonneg_nonneg; lia|].
      pose proof (Z.mul_div_le (2 ^ 63) unit Hpos).
      assert (v * unit <= 2 ^ 63 / unit * unit)
        by (apply Z.mul_le_mono_nonneg_r; lia). lia. }
    pose proof (pow63_not_ms d ltac:(lia) Hm) as Hd63.
    assert (E63 : 2 ^ 63 = 9223372036854775808) by reflexivity.
    assert (E64 : 2 ^ 64 = 18446744073709551616) by reflexivity.
    cbv zeta. rewrite (wrap_uint64_small (v * unit)) by lia.
    rewrite wrap_uint64_small by lia.
    destruct (Z.ltb_spec (2 ^ 63) (d + v * unit)) as [|Hsum];
      [left; now eexists|].
    right. exists rest, (d + v * unit).
    split; [exact Hrest|]. split.
    { rewrite length_append. cbn [String.length] in *. lia. }
    split; [lia|]. split; [|reflexivity].
    apply Z.mod_divide; [lia|]. apply Z.divide_add_r.
    + apply Z.mod_divide; [lia|exact Hm].
    + apply Z.divide_mul_r. apply Z.mod_divide; [lia|exact Hunit].
Qed.

Lemma ParseDuration_loop_ms (fuel : nat) (orig s : string) (d d' : Z) :
  unit_bytes s = true -> 0 <= d <= 2 ^ 63 -> d mod 10 ^ 6 = 0 ->
  time.ParseDuration_loop fuel orig s d = Some (inr d') ->
  0 <= d' <= 2 ^ 63 /\ d' mod 10 ^ 6 = 0.
Proof.
  revert s d. induction fuel as [|fuel IH]; intros s d Hs Hd Hm H.
  - destruct s; [|discriminate]. injection H as <-. now split.
  - destruct s as [|c s]; [injection H as <-; now split|].
    cbn [time.ParseDuration_loop] in H.
    destruct (ParseDuration_round_ms (time.ParseDuration_loop fuel orig) orig
                (String c s) d Hs ltac:(discriminate) Hd Hm)
      as [[e E]|(rest & d1 & Hr & _ & Hd1 & Hm1 & E)]; rewrite E in H.
    + discriminate.
    + exact (IH rest d1 Hr Hd1 Hm1 H).
Qed.

Lemma ParseDuration_ms (s : string) (d : Z) :
  unit_bytes s = true -> time.ParseDuration s = (d, None) ->
  0 <= d <= 2 ^ 63 - 1 /\ d mod 10 ^ 6 = 0.
Proof.
  intros Hs. unfold time.ParseDuration.
  assert (E : (match s with
               | String c s' =>
                   if (byte_val c =? 45) || (byte_val c =? 43)
                   then (byte_val c =? 45, s')
                   else (false, s)
               | "" => (false, s)
               end) = (false, s)).
  { destruct s as [|c s']; [reflexivity|].
    cbn [unit_bytes] in Hs. apply andb_true_iff in Hs as [Hc _].
    unfold unit_byte in Hc. apply orb_true_iff in Hc as [Hc|Hc].
    - apply is_digit_spec in Hc. unfold digit_val in Hc.
      replace (byte_val c =? 45) with false by (symmetry; apply Z.eqb_neq; lia).
      now replace (byte_val c =? 43) with false
        by (symmetry; apply Z.eqb_neq; lia).
    - unfold unit_letter in Hc.
      apply orb_true_iff in Hc as [Hc|Hc];
        [apply orb_true_iff in Hc as [Hc|Hc]|];
        apply Ascii.eqb_eq in Hc; subst; reflexivity. }
  rewrite E.
  destruct (String.eqb s "0"); [intros [= <-]; now split|].
  destruct (String.eqb s ""); [discriminate|].
  destruct (time.ParseDuration_loop _ s s 0) as [[e|d1]|] eqn:HL;
    [discriminate| |discriminate].
  destruct (Z.ltb_spec (2 ^ 63 - 1) d1); [discriminate|].
  intros [= <-].
  assert (H0 : 0 <= 0 <= 2 ^ 63) by lia.
  destruct (ParseDuration_loop_ms _ s s 0 d1 Hs H0 eq_refl HL) as [H1 H2].
  split; [lia|exact H2].
Qed.

Lemma Duration_UnmarshalText_ms (d0 d : Duration) (data : string) :
  Duration_UnmarshalText d0 data = (d, None) ->
  exists ms, 0 <= ms /\ Dur d = ms * 10 ^ 6 /\ ms * 10 ^ 6 <= 2 ^ 63 - 1.
Proof.
  rewrite Duration_UnmarshalText_eq.
  destruct (_ || _); [discriminate|].
  destruct (time.ParseDuration _) as [dur [e|]] eqn:HP; [discriminate|].
  intros [= <-]. cbn [Dur].
  destruct (ParseDuration_ms _ _
              (unit_text_bytes _ 0 (fields_all_digits data)) HP) as [H1 H2].
  exists (dur / 10 ^ 6).
  assert (E : dur = dur / 10 ^ 6 * 10 ^ 6).
  { pose proof (Z.div_mod dur (10 ^ 6) ltac:(lia)). lia. }
  split; [apply Z.div_pos; lia|]. split; [exact E|]. lia.
Qed.

(** X1.  A duration that [Duration.UnmarshalText] stores is never
    negative and is a whole number of milliseconds. *)
Theorem X1_decoded_whole_milliseconds (d0 d : Duration) (data : string) :
  Duration_UnmarshalText d0 data = (d, None) ->
  exists ms, 0 <= ms /\ Dur d = ms * time.Millisecond
             /\ ms * time.Millisecond <= 2 ^ 63 - 1.
Proof. apply Duration_UnmarshalText_ms. Qed.

Lemma X1_decoded_whole_milliseconds_witness :
  exists ms, 0 <= ms /\ 3723004000000 = ms * time.Millisecond
             /\ ms * time.Millisecond <= 2 ^ 63 - 1.
Proof.
  apply (X1_decoded_whole_milliseconds (mkDuration 0)
           (mkDuration 3723004000000) "01:02:03.004").
  reflexivity.
Defined.

(** ** Encoding what was decoded *)

Lemma Duration_roundtrip_ms (ms : Z) (d0 : Duration) :
  0 <= ms -> ms * 10 ^ 6 <= 2 ^ 63 - 1 ->
  Duration_UnmarshalText d0
    (fst (Duration_MarshalText (mkDuration (ms * 10 ^ 6))))
  = (mkDuration (ms * 10 ^ 6), None).
Proof.
  intros H0 H63.
  destruct (Z.eq_dec ms 0) as [->|Hne]; [reflexivity|].
  rewrite Duration_MarshalText_ms by lia. cbn [fst snd].
  assert (Hms : ms <= 9223372036854)
    by (change (2 ^ 63 - 1) with 9223372036854775807 in H63; lia).
  set (h := ms / 3600000). set (m := (ms / 60000) mod 60).
  set (s := (ms / 1000) mod 60). set (r := ms mod 1000).
  assert (Hh : 0 <= h <= 2562047)
    by (unfold h; Z.div_mod_to_equations; lia).
  assert (Hm : 0 <= m < 60) by (apply Z.mod_pos_bound; lia).
  assert (Hs : 0 <= s < 60) by (apply Z.mod_pos_bound; lia).
  assert (Hr : 0 <= r < 1000) by (apply Z.mod_pos_bound; lia).
  assert (Hsum : h * 3600000000000 + m * 60000000000 + s * 1000000000
                 + r * 1000000 = ms * 10 ^ 6)
    by (unfold h, m, s, r; change (10 ^ 6) with 1000000;
        Z.div_mod_to_equations; lia).
  destruct (verb_0d_spec 2 h ltac:(lia)) as (dH & vH & nH).
  destruct (verb_0d_spec 2 m ltac:(lia)) as (dM & vM & nM).
  destruct (verb_0d_spec 2 s ltac:(lia)) as (dS & vS & nS).
  destruct (verb_0d_spec 3 r ltac:(lia)) as (dF & vF & nF).
  destruct (Z.ltb_spec 0 r) as [Hpos|Hzero].
  - rewrite !append_assoc. cbn [String.append].
    rewrite (Duration_UnmarshalText_clock4 d0 _ _ _ _ ":" ":" ".");
      rewrite ?vH, ?vM, ?vS, ?vF; try assumption; try reflexivity; try lia.
    do 2 f_equal. lia.
  - cbn [String.append].
    rewrite (Duration_UnmarshalText_clock3 d0 _ _ _ ":" ":");
      rewrite ?vH, ?vM, ?vS; try assumption; try reflexivity; try lia.
    do 2 f_equal. lia.
Qed.

(** X2.  Encoding is a normal form of the texts: the text that
    [Duration.MarshalText] writes for a duration that was decoded
    decodes to that same duration again. *)
Theorem X2_encode_of_decoded (d0 d1 d : Duration) (data : string) :
  Duration_UnmarshalText d0 data = (d, None) ->
  Duration_UnmarshalText d1 (fst (Duration_MarshalText d)) = (d, None).
Proof.
  intros H. destruct (Duration_UnmarshalText_ms _ _ _ H) as (ms & H0 & E & Hr).
  destruct d as [dur]. cbn [Dur] in E. subst dur.
  now apply Duration_roundtrip_ms.
Qed.

Lemma X2_encode_of_decoded_witness :
  Duration_UnmarshalText (mkDuration 5)
    (fst (Duration_MarshalText (mkDuration 3723000000000)))
  = (mkDuration 3723000000000, None).
Proof.
  apply (X2_encode_of_decoded (mkDuration 0) (mkDuration 5)
           (mkDuration 3723000000000) "1x:2.3").
  reflexivity.
Defined.

(** X3.  [Duration.MarshalText] writes different texts for different
    whole numbers of milliseconds. *)
Theorem X3_encode_injective (ms1 ms2 : Z) :
  0 <= ms1 -> ms1 * time.Millisecond <= 2 ^ 63 - 1 ->
  0 <= ms2 -> ms2 * time.Millisecond <= 2 ^ 63 - 1 ->
  fst (Duration_MarshalText (mkDuration (ms1 * time.Millisecond)))
  = fst (Duration_MarshalText (mkDuration (ms2 * time.Millisecond))) ->
  ms1 = ms2.
Proof.
  change time.Millisecond with (10 ^ 6). intros H1 R1 H2 R2 E.
  pose proof (Duration_roundtrip_ms ms1 (mkDuration 0) H1 R1) as D1.
  pose proof (Duration_roundtrip_ms ms2 (mkDuration 0) H2 R2) as D2.
  rewrite E, D2 in D1. injection D1 as D1. lia.
Qed.

Lemma X3_encode_injective_witness : 90500 = 90500.
Proof.
  apply (X3_encode_injective 90500 90500); try reflexivity; try lia;
    vm_compute; discriminate.
Defined.

(** X4.  A negative duration does not survive the round trip: what
    [Duration.UnmarshalText] reads of the text written for it is never
    that duration again. *)
Theorem X4_negative_not_restored (d0 : Duration) (n : Z) :
  n < 0 ->
  Duration_UnmarshalText d0 (fst (Duration_MarshalText (mkDuration n)))
  <> (mkDuration n, None).
Proof.
  intros Hn H.
  destruct (Duration_UnmarshalText_ms _ _ _ H) as (ms & H0 & E & _).
  cbn [Dur] in E. lia.
Qed.

Lemma X4_negative_not_restored_witness :
  Duration_UnmarshalText (mkDuration 0)
    (fst (Duration_MarshalText (mkDuration (-3723000000000))))
  <> (mkDuration (-3723000000000), None).
Proof. apply X4_negative_not_restored. lia. Defined.

(** ** Fields that are empty or too large *)

Lemma rounds_nil (orig : string) (d : Z) : rounds orig "" d = Some (inr d).
Proof. reflexivity. Qed.

(** X5.  A text of two fields and a second separator with nothing
    after it is accepted, and its second field is read as
    milliseconds, not minutes: the unit names "m" and "s" written one
    after the other spell "ms". *)
Theorem X5_empty_seconds_field (d0 : Duration) (H M : string) (c1 c2 : ascii) :
  is_sep c1 = true -> is_sep c2 = true ->
  all_digits H = true -> all_digits M = true -> H <> "" -> M <> "" ->
  horner 0 H <= 2562047 -> horner 0 M <= 9223372036854 ->
  horner 0 H * time.Hour + horner 0 M * time.Millisecond <= 2 ^ 63 - 1 ->
  Duration_UnmarshalText d0 (H ++ String c1 (M ++ String c2 ""))
  = (mkDuration (horner 0 H * time.Hour + horner 0 M * time.Millisecond),
     None).
Proof.
  intros s1 s2 dH dM nH nM vH vM Hsum.
  change time.Hour with 3600000000000 in *.
  change time.Millisecond with 1000000 in *.
  change (2 ^ 63 - 1) with 9223372036854775807 in Hsum.
  pose proof (horner_mono H 0 ltac:(lia) dH).
  pose proof (horner_mono M 0 ltac:(lia) dM).
  rewrite Duration_UnmarshalText_eq.
  destruct (fields_digits_sep M "" c2 dM s2) as [F2 C2].
  destruct (fields_digits_sep H (M ++ String c2 "") c1 dH s1) as [F1 C1].
  rewrite C1, C2, F1, F2. cbn [count_seps fields Nat.ltb Nat.leb orb].
  cbn [unit_text nth formatStrings String.append].
  rewrite ParseDuration_field_start by (assumption || discriminate).
  set (orig := H ++ String "h" (M ++ String "m" "s")).
  unfold orig at 2.
  rewrite rounds_hours
    by first [assumption | lia | apply unit_ends_field; assumption].
  rewrite rounds_milliseconds by first [assumption | lia | reflexivity].
  rewrite rounds_nil.
  match goal with
  | |- context [?a <? ?b] =>
      replace (a <? b) with false
        by (symmetry; apply Z.ltb_ge;
            change (2 ^ 63 - 1) with 9223372036854775807; lia)
  end.
  reflexivity.
Qed.

Lemma X5_empty_seconds_field_witness :
  Duration_UnmarshalText (mkDuration 0) "1:2:"
  = (mkDuration (1 * time.Hour + 2 * time.Millisecond), None).
Proof.
  apply (X5_empty_seconds_field (mkDuration 0) "1" "2" ":" ":");
    try reflexivity; try discriminate; vm_compute; discriminate.
Defined.

Lemma unitMap_hour (u : string) :
  time.unitMap (String "h" u)
  = if String.eqb u "" then Some time.Hour else None.
Proof. destruct u; reflexivity. Qed.

(** X6.  A text that passes the separator-count check and whose first
    field counts more than 2562047 hours, more than an [int64] of
    nanoseconds holds, fails and leaves the receiver as it was. *)
Theorem X6_hours_overflow (d0 : Duration) (data : string) :
  (count_seps data = 2 \/ count_seps data = 3)%nat ->
  2562047 < horner 0 (nth 0 (fields data) "") ->
  exists e,
    Duration_UnmarshalText d0 data
    = (d0, Some (wrapError "error parsing duration: " e)).
Proof.
  intros Hc Hv. rewrite Duration_UnmarshalText_eq.
  replace ((count_seps data <? 2)%nat || (3 <? count_seps data)%nat)
    with false
    by (symmetry; apply orb_false_iff; split; apply Nat.ltb_ge; lia).
  pose proof (fields_all_digits data) as Hd.
  pose proof (fields_length data) as Hl.
  destruct (fields data) as [|f0 fs]; [discriminate|].
  cbn [nth] in Hv. inversion Hd as [|? ? Hf0 _]; subst.
  assert (Hne : f0 <> "") by (intros ->; cbn in Hv; lia).
  assert (E : exists e, time.ParseDuration (unit_text 0 (f0 :: fs))
                        = (0, Some e)); [|destruct E as [e ->]; now exists e].
  cbn [unit_text nth formatStrings String.append].
  apply ParseDuration_field_first; [exact Hne|exact Hf0|discriminate|].
  rewrite rounds_unfold, ParseDuration_round_field
    by (assumption || reflexivity).
  destruct (_ <=? _); [|now eexists].
  rewrite span_unit_letter by reflexivity.
  rewrite unitMap_hour. destruct (String.eqb _ ""); [|now eexists].
  replace (2 ^ 63 / time.Hour <? horner 0 f0) with true; [now eexists|].
  symmetry. apply Z.ltb_lt. change (2 ^ 63 / time.Hour) with 2562047. lia.
Qed.

Lemma X6_hours_overflow_witness :
  exists e,
    Duration_UnmarshalText (mkDuration 7) "2562048:00:00"
    = (mkDuration 7, Some (wrapError "error parsing duration: " e)).
Proof.
  apply (X6_hours_overflow (mkDuration 7) "2562048:00:00");
    [left; reflexivity|vm_compute; reflexivity].
Defined.

(** ** Time offsets through encode and decode *)

Lemma ends_with_app (s t : string) (c : ascii) :
  t <> "" -> ends_with (s ++ t) c = ends_with t c.
Proof.
  intros Ht. induction s as [|a s IH]; [reflexivity|].
  cbn [String.append]. rewrite <- IH.
  destruct (s ++ t) eqn:E; [|reflexivity].
  destruct s; cbn [String.append] in E; [congruence|discriminate].
Qed.

Lemma ends_with_digits (t : string) (c : ascii) :
  all_digits t = true -> is_digit c = false -> ends_with t c = false.
Proof.
  intros Ht Hc. induction t as [|a t IH]; [reflexivity|].
  cbn [all_digits] in Ht. apply andb_true_iff in Ht as [Ha Ht].
  destruct t as [|b t].
  - cbn [ends_with]. apply Ascii.eqb_neq. intros ->. congruence.
  - exact (IH Ht).
Qed.

Lemma ends_with_snoc (s : string) (c : ascii) :
  ends_with (s ++ String c "") c = true
  /\ drop_last (s ++ String c "") = s.
Proof.
  induction s as [|a s [IH1 IH2]].
  - cbn. now rewrite Ascii.eqb_refl.
  - cbn [String.append].
    destruct (s ++ String c "") as [|a0 s0] eqn:E;
      [destruct s; discriminate|].
    split.
    + change (ends_with (String a (String a0 s0)) c)
        with (ends_with (String a0 s0) c). exact IH1.
    + change (drop_last (String a (String a0 s0)))
        with (String a (drop_last (String a0 s0))). now rewrite IH2.
Qed.

Lemma digit_first_no_marker (c : ascii) (s : string) :
  is_digit c = true ->
  String.eqb (String c s) "start" = false
  /\ String.eqb (String c s) "end" = false
  /\ begins_with (String c s) "#" = false.
Proof.
  intros H. apply is_digit_spec in H. unfold digit_val in H.
  assert (N : forall k, byte_val k < 48 \/ 57 < byte_val k ->
                        Ascii.eqb c k = false)
    by (intros k Hk; apply Ascii.eqb_neq; intros ->; lia).
  cbn [String.eqb begins_with].
  rewrite (N "s"%char (or_intror eq_refl)), (N "e"%char (or_intror eq_refl)),
    (N "#"%char (or_introl eq_refl)).
  now repeat split.
Qed.

(** X7.  A position that is not zero comes back from its text when it
    is within [-128, 127]; outside of that range the text written by
    [TimeOffset.MarshalText] is refused by [TimeOffset.UnmarshalText],
    which leaves its receiver as it was. *)
Theorem X7_position_roundtrip (to : TimeOffset) (pos : Z) (pct : spec_float) :
  pos <> 0 ->
  (-128 <= pos <= 127 ->
   TimeOffset_UnmarshalText to
     (fst (TimeOffset_MarshalText (mkTimeOffset None pos pct)))
   = (set_Position to pos, None))
  /\ (~ -128 <= pos <= 127 ->
      fst (TimeOffset_UnmarshalText to
             (fst (TimeOffset_MarshalText (mkTimeOffset None pos pct)))) = to
      /\ failed (TimeOffset_UnmarshalText to
                   (fst (TimeOffset_MarshalText (mkTimeOffset None pos pct))))
         = true).
Proof.
  intros Hpos.
  assert (Etext : fst (TimeOffset_MarshalText (mkTimeOffset None pos pct))
                  = String "#" (fmt.verb_d pos)).
  { unfold TimeOffset_MarshalText. cbn [toDuration toPosition].
    now replace (pos =? 0) with false by (symmetry; apply Z.eqb_neq; lia). }
  rewrite Etext.
  assert (Hend : ends_with (String "#" (fmt.verb_d pos)) "%" = false).
  { unfold fmt.verb_d. destruct (Z.ltb_spec pos 0).
    - destruct (utoa_spec (- pos) ltac:(lia)) as (Hd & _ & Hne).
      change (String "#" ("-" ++ fmt.utoa (- pos)))
        with ("#-" ++ fmt.utoa (- pos)).
      rewrite ends_with_app by exact Hne. now apply ends_with_digits.
    - destruct (utoa_spec pos ltac:(lia)) as (Hd & _ & Hne).
      change (String "#" (fmt.utoa pos)) with ("#" ++ fmt.utoa pos).
      rewrite ends_with_app by exact Hne. now apply ends_with_digits. }
  pose proof (TimeOffset_UnmarshalText_dispatch to
                (String "#" (fmt.verb_d pos))) as D.
  assert (Hbeg : begins_with (String "#" (fmt.verb_d pos)) "#" = true)
    by reflexivity.
  rewrite (dispatch_marker _ (or_intror Hbeg)) in D.
  unfold stripped in D. rewrite Hend in D. cbn [drop_first begins_with] in D.
  change (Ascii.eqb "#" "#") with true in D. rewrite orb_true_r in D.
  unfold decimal_int8 in D. rewrite verb_d_decimal in D.
  split; intros Hr.
  - replace ((-128 <=? pos) && (pos <=? 127)) with true in D
      by (symmetry; apply andb_true_iff; rewrite !Z.leb_le; lia).
    exact D.
  - replace ((-128 <=? pos) && (pos <=? 127)) with false in D; [exact D|].
    symmetry. apply andb_false_iff. rewrite !Z.leb_gt. lia.
Qed.

Lemma X7_position_roundtrip_witness :
  TimeOffset_UnmarshalText zeroTimeOffset
    (fst (TimeOffset_MarshalText (mkTimeOffset None 3 (S754_zero false))))
  = (set_Position zeroTimeOffset 3, None)
  /\ failed (TimeOffset_UnmarshalText zeroTimeOffset
               (fst (TimeOffset_MarshalText
                       (mkTimeOffset None 300 (S754_zero false))))) = true.
Proof.
  split.
  - apply (X7_position_roundtrip zeroTimeOffset 3 (S754_zero false)); lia.
  - apply (X7_position_roundtrip zeroTimeOffset 300 (S754_zero false)); lia.
Defined.

Lemma decimal_integer_point (a b : string) :
  decimal_integer (a ++ String "." b) = None.
Proof.
  assert (N : forall a, unsigned_decimal (a ++ String "." b) = None).
  { intros a0. unfold unsigned_decimal.
    destruct (a0 ++ String "." b) eqn:E; [reflexivity|]. rewrite <- E.
    rewrite all_digits_app. change (all_digits (String "." b)) with false.
    now rewrite andb_false_r. }
  destruct a as [|c a]; [exact (N "")|].
  cbn [String.append decimal_integer].
  destruct (Ascii.eqb c "+"); [apply N|].
  destruct (Ascii.eqb c "-"); [now rewrite N|].
  exact (N (String c a)).
Qed.

Lemma verb_f_not_integer (x : spec_float) : decimal_int8 (fmt.verb_f x) = None.
Proof.
  assert (F : forall neg num den,
             decimal_integer (fmt.fixed6 neg num den) = None).
  { intros neg num den. unfold fmt.fixed6. cbv zeta.
    change ("." ++ ?y) with (String "." y).
    rewrite <- append_assoc. apply decimal_integer_point. }
  unfold decimal_int8.
  destruct x as [s|[|]| |s m e]; cbn [fmt.verb_f];
    try reflexivity; try (now rewrite F).
  destruct (0 <=? e); now rewrite F.
Qed.

(** X8.  No percent comes back from its text: what
    [TimeOffset.MarshalText] writes for a percent, six digits after a
    point, is refused by [TimeOffset.UnmarshalText], which reads an
    integer before the "%"; the receiver is left as it was. *)
Theorem X8_percent_not_restored (to : TimeOffset) (pct : spec_float) :
  float_nonzero pct = true ->
  fst (TimeOffset_UnmarshalText to
         (fst (TimeOffset_MarshalText (mkTimeOffset None 0 pct)))) = to
  /\ failed (TimeOffset_UnmarshalText to
               (fst (TimeOffset_MarshalText (mkTimeOffset None 0 pct))))
     = true.
Proof.
  intros Hnz.
  assert (Etext : fst (TimeOffset_MarshalText (mkTimeOffset None 0 pct))
                  = fmt.verb_f (f32.mul pct (f32.of_Z 100)) ++ String "%" "").
  { unfold TimeOffset_MarshalText. cbn [toDuration toPosition toPercent].
    now rewrite Hnz. }
  rewrite Etext. set (t := fmt.verb_f (f32.mul pct (f32.of_Z 100))).
  destruct (ends_with_snoc t "%") as [He Hd].
  pose proof (TimeOffset_UnmarshalText_dispatch to (t ++ String "%" "")) as D.
  rewrite (dispatch_marker _ (or_introl He)) in D.
  unfold stripped in D. rewrite He, Hd in D.
  unfold t in D at 1. rewrite verb_f_not_integer in D.
  cbn [option_map orb] in D. exact D.
Qed.

Lemma X8_percent_not_restored_witness :
  fst (TimeOffset_UnmarshalText zeroTimeOffset
         (fst (TimeOffset_MarshalText
                 (mkTimeOffset None 0 (S754_finite false 8388608 (-24))))))
  = zeroTimeOffset
  /\ failed (TimeOffset_UnmarshalText zeroTimeOffset
               (fst (TimeOffset_MarshalText
                       (mkTimeOffset None 0
                          (S754_finite false 8388608 (-24)))))) = true.
Proof.
  apply (X8_percent_not_restored zeroTimeOffset
           (S754_finite false 8388608 (-24))).
  reflexivity.
Defined.

Lemma ends_with_app_digits (s t : string) (c : ascii) :
  all_digits t = true -> t <> "" -> is_digit c = false ->
  ends_with (s ++ t) c = false.
Proof.
  intros Hd Hne Hc. rewrite ends_with_app by exact Hne.
  now apply ends_with_digits.
Qed.

(** The text written for a duration is no anchor and has no marker. *)
Lemma Duration_text_no_marker (ms : Z) :
  0 <= ms -> ms * 10 ^ 6 <= 2 ^ 63 - 1 ->
  let text := fst (Duration_MarshalText (mkDuration (ms * 10 ^ 6))) in
  String.eqb text "start" = false /\ String.eqb text "end" = false
  /\ ends_with text "%" = false /\ begins_with text "#" = false.
Proof.
  intros H0 H63.
  destruct (Z.eq_dec ms 0) as [->|Hne]; [now repeat split|].
  rewrite Duration_MarshalText_ms by lia. cbn [fst].
  assert (Hh : 0 <= ms / 3600000) by (apply Z.div_pos; lia).
  assert (Hm : 0 <= (ms / 60000) mod 60 < 60) by (apply Z.mod_pos_bound; lia).
  assert (Hs : 0 <= (ms / 1000) mod 60 < 60) by (apply Z.mod_pos_bound; lia).
  assert (Hr : 0 <= ms mod 1000 < 1000) by (apply Z.mod_pos_bound; lia).
  destruct (verb_0d_spec 2 (ms / 3600000) Hh) as (dH & _ & nH).
  destruct (verb_0d_spec 2 ((ms / 1000) mod 60) ltac:(lia)) as (dS & _ & nS).
  destruct (verb_0d_spec 3 (ms mod 1000) ltac:(lia)) as (dF & _ & nF).
  set (tH := fmt.verb_0d 2 (ms / 3600000)) in *.
  set (tM := fmt.verb_0d 2 ((ms / 60000) mod 60)) in *.
  set (tS := fmt.verb_0d 2 ((ms / 1000) mod 60)) in *.
  set (tF := fmt.verb_0d 3 (ms mod 1000)) in *.
  cbv zeta.
  assert (Hfirst : forall rest,
             String.eqb (tH ++ rest) "start" = false
             /\ String.eqb (tH ++ rest) "end" = false
             /\ begins_with (tH ++ rest) "#" = false).
  { intros rest. destruct tH as [|c tH']; [congruence|].
    cbn [all_digits] in dH. apply andb_true_iff in dH as [Hc _].
    cbn [String.append]. now apply digit_first_no_marker. }
  destruct (0 <? ms mod 1000).
  - rewrite append_assoc.
    destruct (Hfirst ((":" ++ tM ++ ":" ++ tS) ++ "." ++ tF)) as (E1 & E2 & E3).
    split; [exact E1|]. split; [exact E2|]. split; [|exact E3].
    rewrite <- !append_assoc. now apply ends_with_app_digits.
  - destruct (Hfirst (":" ++ tM ++ ":" ++ tS)) as (E1 & E2 & E3).
    split; [exact E1|]. split; [exact E2|]. split; [|exact E3].
    rewrite <- !append_assoc. now apply ends_with_app_digits.
Qed.

(** X9.  A time offset that holds a duration of whole milliseconds
    comes back from its text, whatever its other fields hold. *)
Theorem X9_duration_offset_roundtrip (to : TimeOffset) (ms pos : Z)
        (pct : spec_float) :
  0 <= ms -> ms * time.Millisecond <= 2 ^ 63 - 1 ->
  TimeOffset_UnmarshalText to
    (fst (TimeOffset_MarshalText
            (mkTimeOffset (Some (mkDuration (ms * time.Millisecond))) pos pct)))
  = (set_Duration to (Some (mkDuration (ms * time.Millisecond))), None).
Proof.
  change time.Millisecond with (10 ^ 6). intros H0 H63.
  change (TimeOffset_MarshalText
            (mkTimeOffset (Some (mkDuration (ms * 10 ^ 6))) pos pct))
    with (Duration_MarshalText (mkDuration (ms * 10 ^ 6))).
  destruct (Duration_text_no_marker ms H0 H63) as (E1 & E2 & E3 & E4).
  cbv zeta in E1, E2, E3, E4.
  pose proof (Duration_roundtrip_ms ms (mkDuration 0) H0 H63) as R.
  set (text := fst (Duration_MarshalText (mkDuration (ms * 10 ^ 6)))) in *.
  pose proof (TimeOffset_UnmarshalText_dispatch to text) as D.
  unfold dispatch in D. rewrite E1, E2, E3, E4, R in D. exact D.
Qed.

Lemma X9_duration_offset_roundtrip_witness :
  TimeOffset_UnmarshalText zeroTimeOffset
    (fst (TimeOffset_MarshalText
            (mkTimeOffset (Some (mkDuration (90500 * time.Millisecond))) 3
               (S754_zero false))))
  = (set_Duration zeroTimeOffset
       (Some (mkDuration (90500 * time.Millisecond))), None).
Proof.
  apply (X9_duration_offset_roundtrip zeroTimeOffset 90500 3
           (S754_zero false)); [lia|vm_compute; discriminate].
Defined.

(** X10.  [TimeOffset.UnmarshalText] does not clear its receiver: a
    receiver that holds a duration keeps it through the decode of an
    anchor, a position or a percent, and is still encoded as that
    duration afterwards. *)
Theorem X10_duration_kept (to to' : TimeOffset) (d : Duration)
        (data : string) :
  toDuration to = Some d ->
  data = "start" \/ data = "end" \/ ends_with data "%" = true
  \/ begins_with data "#" = true ->
  TimeOffset_UnmarshalText to data = (to', None) ->
  TimeOffset_MarshalText to' = Duration_MarshalText d.
Proof.
  intros Hd Hm Hdec.
  pose proof (TimeOffset_UnmarshalText_dispatch to data) as D.
  assert (K : forall v, (forall d', v <> VDuration d') ->
                        toDuration (store to v) = Some d).
  { intros [[|]|p|n|d'] Hv; try exact Hd. now destruct (Hv d'). }
  destruct (dispatch data) as [v|] eqn:E.
  - rewrite Hdec in D. injection D as ->.
    unfold TimeOffset_MarshalText. rewrite K; [reflexivity|].
    intros d' ->. unfold dispatch in E.
    destruct (String.eqb data "start"); [discriminate|].
    destruct (String.eqb data "end") eqn:Ee; [discriminate|].
    destruct (ends_with data "%");
      [destruct (decimal_int8 _); discriminate|].
    destruct (begins_with data "#");
      [destruct (decimal_int8 _); discriminate|].
    destruct Hm as [->|[->|[?|?]]]; discriminate.
  - destruct D as [_ D]. rewrite Hdec in D. discriminate.
Qed.

Lemma X10_duration_kept_witness :
  TimeOffset_MarshalText
    (mkTimeOffset (Some (mkDuration 3723000000000)) (-1) (S754_zero false))
  = Duration_MarshalText (mkDuration 3723000000000).
Proof.
  apply (X10_duration_kept
           (mkTimeOffset (Some (mkDuration 3723000000000)) 0 (S754_zero false))
           _ (mkDuration 3723000000000) "start");
    [reflexivity|now left|reflexivity].
Defined.

(** X11.  A text accepted through the "#" branch stores the integer
    parsed, which is within [-128, 127], in the position, and
    nothing else. *)
Theorem X11_position_range (to to' : TimeOffset) (data : string) :
  ends_with data "%" = false -> begins_with data "#" = true ->
  TimeOffset_UnmarshalText to data = (to', None) ->
  exists p,
    decimal_int8 (drop_first data) = Some p /\ -128 <= p <= 127
    /\ to' = set_Position to p.
Proof.
  intros Hp Hh Hdec.
  pose proof (TimeOffset_UnmarshalText_dispatch to data) as D.
  rewrite (dispatch_marker data (or_intror Hh)) in D.
  unfold stripped in D. rewrite Hp in D.
  destruct (decimal_int8 (drop_first data)) as [p|] eqn:E; cbn [option_map] in D.
  - rewrite Hdec in D. injection D as ->.
    exists p. split; [reflexivity|]. split; [|reflexivity].
    exact (decimal_int8_range _ _ E).
  - destruct D as [_ D]. rewrite Hdec in D. discriminate.
Qed.

Lemma X11_position_range_witness :
  exists p,
    decimal_int8 (drop_first "#-128") = Some p /\ -128 <= p <= 127
    /\ mkTimeOffset None (-128) (S754_zero false)
       = set_Position zeroTimeOffset p.
Proof.
  apply (X11_position_range zeroTimeOffset
           (mkTimeOffset None (-128) (S754_zero false)) "#-128");
    reflexivity.
Defined.

(** ** The shape of an encoded duration *)

Lemma verb_0d_2_length (n : Z) :
  0 <= n < 100 -> String.length (fmt.verb_0d 2 n) = 2%nat.
Proof.
  intros Hn.
  assert (H : forallb (fun k => (String.length (fmt.verb_0d 2 (Z.of_nat k))
                                 =? 2)%nat) (seq 0 100) = true)
    by (vm_compute; reflexivity).
  rewrite forallb_forall in H.
  specialize (H (Z.to_nat n) ltac:(apply in_seq; lia)).
  rewrite Z2Nat.id in H by lia. now apply Nat.eqb_eq.
Qed.

Lemma verb_0d_3_length (n : Z) :
  0 <= n < 1000 -> String.length (fmt.verb_0d 3 n) = 3%nat.
Proof.
  intros Hn.
  assert (H : forallb (fun k => (String.length (fmt.verb_0d 3 (Z.of_nat k))
                                 =? 3)%nat) (seq 0 1000) = true)
    by (vm_compute; reflexivity).
  rewrite forallb_forall in H.
  specialize (H (Z.to_nat n) ltac:(apply in_seq; lia)).
  rewrite Z2Nat.id in H by lia. now apply Nat.eqb_eq.
Qed.

Lemma zeros_length (k : nat) : String.length (fmt.zeros k) = k.
Proof. induction k as [|k IH]; cbn; [reflexivity|now rewrite IH]. Qed.

Lemma verb_0d_min_length (w : nat) (n : Z) :
  0 <= n -> (w <= String.length (fmt.verb_0d w n))%nat.
Proof.
  intros Hn. unfold fmt.verb_0d, fmt.pad_zeros.
  replace (n <? 0) with false by (symmetry; apply Z.ltb_ge; lia).
  rewrite length_append, zeros_length. lia.
Qed.

(** X12.  The text written for a whole number of milliseconds is
    hours, minutes and seconds between colons, the minutes and the
    seconds below 60 in two digits each, the hours in two digits or
    more and not reduced; a point and three digits of milliseconds
    follow when they are not zero, and nothing otherwise. *)
Theorem X12_encode_shape (ms : Z) :
  0 <= ms -> ms * time.Millisecond <= 2 ^ 63 - 1 ->
  exists H M S F,
    fst (Duration_MarshalText (mkDuration (ms * time.Millisecond)))
    = H ++ ":" ++ M ++ ":" ++ S
        ++ (if ms mod 1000 =? 0 then "" else "." ++ F)
    /\ all_digits H = true /\ all_digits M = true
    /\ all_digits S = true /\ all_digits F = true
    /\ (2 <= String.length H)%nat /\ String.length M = 2%nat
    /\ String.length S = 2%nat /\ String.length F = 3%nat
    /\ horner 0 H = ms / 3600000 /\ horner 0 M = (ms / 60000) mod 60
    /\ horner 0 S = (ms / 1000) mod 60 /\ horner 0 F = ms mod 1000.
Proof.
  change time.Millisecond with (10 ^ 6). intros H0 H63.
  assert (Hh : 0 <= ms / 3600000) by (apply Z.div_pos; lia).
  assert (Hm : 0 <= (ms / 60000) mod 60 < 60) by (apply Z.mod_pos_bound; lia).
  assert (Hs : 0 <= (ms / 1000) mod 60 < 60) by (apply Z.mod_pos_bound; lia).
  assert (Hr : 0 <= ms mod 1000 < 1000) by (apply Z.mod_pos_bound; lia).
  destruct (verb_0d_spec 2 (ms / 3600000) Hh) as (dH & vH & _).
  destruct (verb_0d_spec 2 ((ms / 60000) mod 60) ltac:(lia)) as (dM & vM & _).
  destruct (verb_0d_spec 2 ((ms / 1000) mod 60) ltac:(lia)) as (dS & vS & _).
  destruct (verb_0d_spec 3 (ms mod 1000) ltac:(lia)) as (dF & vF & _).
  exists (fmt.verb_0d 2 (ms / 3600000)), (fmt.verb_0d 2 ((ms / 60000) mod 60)),
    (fmt.verb_0d 2 ((ms / 1000) mod 60)), (fmt.verb_0d 3 (ms mod 1000)).
  split.
  { destruct (Z.eq_dec ms 0) as [->|Hne]; [reflexivity|].
    rewrite Duration_MarshalText_ms by lia. cbn [fst]. cbv zeta.
    destruct (Z.ltb_spec 0 (ms mod 1000));
      destruct (Z.eqb_spec (ms mod 1000) 0); try lia.
    - now rewrite !append_assoc.
    - now rewrite append_nil_r. }
  repeat (split; [assumption|]).
  split; [apply verb_0d_min_length; lia|].
  split; [apply verb_0d_2_length; lia|].
  split; [apply verb_0d_2_length; lia|].
  split; [apply verb_0d_3_length; lia|].
  repeat (split; [assumption|]). assumption.
Qed.

Lemma X12_encode_shape_witness :
  exists H M S F,
    fst (Duration_MarshalText (mkDuration (324000000 * time.Millisecond)))
    = H ++ ":" ++ M ++ ":" ++ S
        ++ (if 324000000 mod 1000 =? 0 then "" else "." ++ F)
    /\ all_digits H = true /\ all_digits M = true
    /\ all_digits S = true /\ all_digits F = true
    /\ (2 <= String.length H)%nat /\ String.length M = 2%nat
    /\ String.length S = 2%nat /\ String.length F = 3%nat
    /\ horner 0 H = 324000000 / 3600000
    /\ horner 0 M = (324000000 / 60000) mod 60
    /\ horner 0 S = (324000000 / 1000) mod 60
    /\ horner 0 F = 324000000 mod 1000.
Proof.
  apply (X12_encode_shape 324000000); [lia|vm_compute; discriminate].
Defined.

(** ** Failures that leave the receiver alone, and the loop *)

(** X13.  A text with a marker that fails to decode leaves the
    receiver of [TimeOffset.UnmarshalText] as it was; and a text that
    both begins with "#" and ends in "%" always fails, the "%" being
    looked at first. *)
Theorem X13_marker_failure_atomic (to : TimeOffset) (data : string) :
  (ends_with data "%" = true \/ begins_with data "#" = true ->
   failed (TimeOffset_UnmarshalText to data) = true ->
   fst (TimeOffset_UnmarshalText to data) = to)
  /\ (ends_with data "%" = true -> begins_with data "#" = true ->
      failed (TimeOffset_UnmarshalText to data) = true).
Proof.
  pose proof (TimeOffset_UnmarshalText_dispatch to data) as D.
  split.
  - intros Hm Hf. rewrite (dispatch_marker data Hm) in D.
    assert (E : ends_with data "%" || begins_with data "#" = true)
      by (destruct Hm as [-> | ->]; [reflexivity|apply orb_true_r]).
    rewrite E in D.
    destruct (ends_with data "%"), (decimal_int8 (stripped data));
      cbn [option_map] in D;
      first [ exact (proj1 D)
            | rewrite D in Hf; discriminate Hf ].
  - intros Hp Hh. rewrite (dispatch_marker data (or_introl Hp)) in D.
    unfold stripped in D. rewrite Hp in D.
    assert (N : decimal_int8 (drop_last data) = None).
    { destruct data as [|c [|c2 s]]; try discriminate;
        cbn [begins_with] in Hh; apply Ascii.eqb_eq in Hh; subst c;
        [discriminate Hp|].
      change (drop_last (String "#" (String c2 s)))
        with (String "#" (drop_last (String c2 s))).
      unfold decimal_int8, decimal_integer.
      change (Ascii.eqb "#" "+") with false.
      change (Ascii.eqb "#" "-") with false. cbv iota.
      unfold unsigned_decimal. cbn [all_digits].
      change (is_digit "#") with false. reflexivity. }
    rewrite N in D. exact (proj2 D).
Qed.

Lemma X13_marker_failure_atomic_witness :
  fst (TimeOffset_UnmarshalText (mkTimeOffset None 3 (S754_zero false)) "#abc")
  = mkTimeOffset None 3 (S754_zero false)
  /\ failed (TimeOffset_UnmarshalText zeroTimeOffset "#5%") = true.
Proof.
  split.
  - apply (proj1 (X13_marker_failure_atomic
                    (mkTimeOffset None 3 (S754_zero false)) "#abc"));
      [now right|reflexivity].
  - apply (proj2 (X13_marker_failure_atomic zeroTimeOffset "#5%"));
      reflexivity.
Defined.

(** X14.  When the byte loop of [Duration.UnmarshalText] runs to its
    end, [currentPart] is the number of separators met and at most 3,
    an index of [formatStrings]; and the buffer, closed with the name
    of that unit, is the fields of the text, each followed by the name
    of its unit.  The loop ends early exactly on a fourth separator. *)
Theorem X14_loop_result (data : string) :
  match scan data data "" 0 with
  | inr (sb, currentPart) =>
      currentPart = count_seps data /\ (currentPart <= 3)%nat
      /\ nth_error formatStrings currentPart
         = Some (nth currentPart formatStrings "")
      /\ sb ++ nth currentPart formatStrings ""
         = unit_text 0 (fields data)
  | inl e => (3 < count_seps data)%nat /\ e = format_error data
  end.
Proof.
  destruct (Nat.ltb_spec 3 (count_seps data)) as [Hgt|Hle].
  - rewrite (scan_fail data data "" 0) by lia. now split.
  - destruct (scan_ok data data "" 0 ltac:(simpl; lia)) as (sb & -> & Hb).
    cbn [Nat.add String.append] in Hb |- *.
    split; [reflexivity|]. split; [exact Hle|]. split; [|exact Hb].
    generalize (count_seps data) Hle. intros k Hk.
    do 4 (destruct k as [|k]; [reflexivity|]). lia.
Qed.
